(** * Release serializers of the API layer

    A shallow embedding of
      - [sentry/api/serializers/models/release.py]
      - [sentry/api/serializers/models/repository_project_path_config.py]

    Python values that the serializers only pass along are kept in a small
    universe [value]; ORM rows are records; dictionaries built by the code
    are association lists when they end up in the response (Python keeps
    insertion order) and [gmap]s when they are only probed by key.
    Exceptions are an explicit error type.  The ORM, the cache, the
    tagstore, the metrics client, the health-data backend and the generic
    [serialize] dispatcher are external collaborators: every call to one of
    them is an event of the program tree [prog], answered by a response. *)

From Stdlib Require Import ZArith List Bool Ascii Lia.
From stdpp Require Import base option list strings pretty sorting gmap.

#[local] Set Warnings "-clear-no-such-hyp".

Local Open Scope Z_scope.
Local Open Scope string_scope.

(** ** Python values *)

Module Py.

(** The values that cross the serializers: [None], booleans, integers,
    text, [datetime] instants (as a count of microseconds), lists and
    dictionaries with string keys. *)
#[warnings="-register-all"]
Inductive value : Type :=
| VNone
| VBool (b : bool)
| VInt (z : Z)
| VStr (s : string)
| VTime (t : Z)
| VList (l : list value)
| VDict (d : list (string * value)).

Inductive exn : Type :=
| KeyError (key : string)
| TypeError (msg : string)
| AttributeError (msg : string).

Inductive result (A : Type) : Type :=
| Ok (a : A)
| Err (e : exn).
Arguments Ok {A} a.
Arguments Err {A} e.

Definition rbind {A B} (r : result A) (f : A -> result B) : result B :=
  match r with
  | Ok a => f a
  | Err e => Err e
  end.

Declare Scope result_scope.
Delimit Scope result_scope with result.
Notation "'do' x <- r ; k" := (rbind r (fun x => k))
  (at level 10, x name, r at level 100, k at level 200) : result_scope.

#[local] Open Scope result_scope.

(** [for x in l: ...] where the body may raise: the first exception stops
    the loop. *)
Fixpoint rmap {A B} (f : A -> result B) (l : list A) : result (list B) :=
  match l with
  | [] => Ok []
  | x :: tl => do y <- f x; do ys <- rmap f tl; Ok (y :: ys)
  end.

Fixpoint rfold {A S} (f : S -> A -> result S) (l : list A) (s : S) : result S :=
  match l with
  | [] => Ok s
  | x :: tl => do s' <- f s x; rfold f tl s'
  end.

(** [bool(v)] *)
Definition truthy (v : value) : bool :=
  match v with
  | VNone => false
  | VBool b => b
  | VInt z => negb (Z.eqb z 0)
  | VStr s => negb (String.eqb s "")
  | VTime _ => true
  | VList l => match l with [] => false | _ => true end
  | VDict d => match d with [] => false | _ => true end
  end.

(** [str(n)] for an [int]: decimal digits with a leading minus sign. *)
Definition str_int (n : Z) : string := pretty n.

(** *** Dictionaries with string keys, in insertion order *)

Fixpoint dict_lookup (k : string) (d : list (string * value)) : option value :=
  match d with
  | [] => None
  | (k', v) :: tl => if String.eqb k k' then Some v else dict_lookup k tl
  end.

(** [d[k] = v]: an existing key keeps its position. *)
Fixpoint dict_set (k : string) (v : value) (d : list (string * value))
  : list (string * value) :=
  match d with
  | [] => [(k, v)]
  | (k', v') :: tl =>
      if String.eqb k k' then (k, v) :: tl else (k', v') :: dict_set k v tl
  end.

(** [d.update(e)] *)
Definition dict_update (d e : list (string * value)) : list (string * value) :=
  fold_left (fun acc kv => dict_set (fst kv) (snd kv) acc) e d.

(** A dictionary display [{k1: v1, ..., kn: vn}]. *)
Definition dict_of (kvs : list (string * value)) : list (string * value) :=
  dict_update [] kvs.

(** [d.get(k)] and [d.get(k, default)] on a [dict]. *)
Definition dict_get (k : string) (dflt : value) (d : list (string * value)) : value :=
  default dflt (dict_lookup k d).

(** [v[k]] with a string subscript. *)
Definition getitem (v : value) (k : string) : result value :=
  match v with
  | VDict d =>
      match dict_lookup k d with
      | Some x => Ok x
      | None => Err (KeyError k)
      end
  | VStr _ => Err (TypeError "string indices must be integers")
  | VList _ => Err (TypeError "list indices must be integers or slices, not str")
  | _ => Err (TypeError "object is not subscriptable")
  end.

(** [v.get(k, default)] *)
Definition get_method (v : value) (k : string) (dflt : value) : result value :=
  match v with
  | VDict d => Ok (dict_get k dflt d)
  | _ => Err (AttributeError "object has no attribute 'get'")
  end.

Fixpoint chars (s : string) : list value :=
  match s with
  | EmptyString => []
  | String c tl => VStr (String c EmptyString) :: chars tl
  end.

(** [iter(v)]: what a [for] loop or a comprehension walks over. *)
Definition iterate (v : value) : result (list value) :=
  match v with
  | VList l => Ok l
  | VDict d => Ok (map (fun kv => VStr (fst kv)) d)
  | VStr s => Ok (chars s)
  | _ => Err (TypeError "object is not iterable")
  end.

(** [v == n] for an [int] [n]: booleans are integers in Python. *)
Definition eq_int (v : value) (n : Z) : bool :=
  match v with
  | VInt m => Z.eqb m n
  | VBool b => Z.eqb (Z.b2z b) n
  | _ => false
  end.

Definition of_option {A} (f : A -> value) (o : option A) : value :=
  match o with
  | Some a => f a
  | None => VNone
  end.

End Py.
Export Py.
#[local] Open Scope result_scope.

(** ** Repository/project path configurations *)

Module PathConfig.

Record Project := { slug : string }.
Record Repository := { repo_id : Z; name : string }.

Section Serializer.

(** The integration row and its provider are declared in
    [sentry.models] and [sentry.api.serializers.models.integration]. *)
Variable Provider : Type.
Variable serialize_provider : Provider -> value.

Record Integration := { integration_id : Z; get_provider : Provider }.
Record OrganizationIntegration := { integration : Integration }.

Record RepositoryProjectPathConfig := {
  id : Z;
  project_id : Z;
  project : Project;
  repository : Repository;
  organization_integration : OrganizationIntegration;
  stack_root : value;
  source_root : value;
  default_branch : value;
}.

Definition serialize (obj : RepositoryProjectPathConfig) (attrs user : value)
  : list (string * value) :=
  let integration := integration (organization_integration obj) in
  let provider := get_provider integration in
  dict_of [
    ("id", VStr (str_int (id obj)));
    ("projectId", VStr (str_int (project_id obj)));
    ("projectSlug", VStr (slug (project obj)));
    ("repoId", VStr (str_int (repo_id (repository obj))));
    ("repoName", VStr (name (repository obj)));
    ("integrationId", VStr (str_int (integration_id integration)));
    ("provider", serialize_provider provider);
    ("stackRoot", stack_root obj);
    ("sourceRoot", source_root obj);
    ("defaultBranch", default_branch obj)
  ].

End Serializer.

End PathConfig.

(** ** ORM rows *)

Module Models.

(** An ORM object that is only handed to the generic [serialize]. *)
Record Row := { pk : Z; fields : value }.

(** A row of [sentry.models.Release], with the attributes the serializer
    reads.  [for_project_id] is the [_for_project_id] annotation. *)
Record Release := {
  id : Z;
  version : string;
  organization_id : Z;
  authors : list string;
  last_commit_id : option Z;
  last_deploy_id : option Z;
  owner_id : option Z;
  for_project_id : option Z;
  status : value;
  version_info : value;
  ref : value;
  url : value;
  date_released : value;
  date_added : value;
  data : value;
  commit_count : value;
  total_deploys : value;
}.

Record CommitAuthor := {
  author_id : Z;
  author_name : value;
  email : string;
}.

Record UserEmail := {
  ue_email : string;
  ue_user_id : Z;
}.

(** [tagstore.TagValue]; the instants are [datetime] objects, which are
    always truthy. *)
Record TagValue := {
  tv_value : string;
  tv_first_seen : Z;
  tv_last_seen : Z;
}.

(** [ReleaseProjectEnvironment] with its release joined in. *)
Record ReleaseProjectEnvironment := {
  rpe_release_version : string;
  rpe_first_seen : Z;
  rpe_last_seen : Z;
}.

(** One dictionary of [ReleaseProject.objects ... .values(...)]. *)
Record ProjectRelease := {
  pr_new_groups : option Z;
  pr_release_id : Z;
  pr_release_version : string;
  pr_project_slug : string;
  pr_project_name : string;
  pr_project_id : Z;
  pr_project_platform : option string;
}.

(** The keyword arguments [get_attrs] looks at.  [project] is the id of
    the project object, [environment] the name of the environment
    object. *)
Record Kwargs := {
  project : option Z;
  environment : option string;
  environments : option (list string);
  with_health_data : value;
  health_stat : value;
  health_stats_period : value;
  summary_stats_period : value;
  no_snuba : value;
}.

End Models.
Export Models.

(** ** External collaborators *)

Module Effects.

(** A call to a collaborator, indexed by the type of its answer.  A query
    carries the values its filter is built from; a set argument ([id__in]
    of a Python set) is a set here, so that the order in which Python would
    walk it is not part of the request. *)
Inductive event : Type -> Type :=
(* cache.get_many(keys): the entries found, by key *)
| CacheGetMany (keys : list string) : event (gmap string value)
(* cache.set_many(to_cache) *)
| CacheSetMany (to_cache : gmap string value) : event unit
(* metrics.incr(key, amount=amount) *)
| MetricsIncr (key : string) (amount : nat) : event unit
(* serialize(objs, user) on a list of users, commits or deploys *)
| Serialize (objs : list Row) (user : value) : event (list value)
(* serialize({i.owner for i in item_list if i.owner_id}, user); an owner is
   the user row of that primary key.  The related object [i.owner] is read
   as an attribute of the release row: no event stands for fetching it, so
   nothing here counts the queries of that line. *)
| SerializeOwners (owner_ids : gset Z) (user : value) : event (list value)
(* UserEmail.objects.filter(in_iexact("email", emails)).order_by("id") *)
| QueryUserEmail (emails : list string) : event (list UserEmail)
(* User.objects.filter(id__in=ids, is_active=True,
     sentry_orgmember_set__organization_id=organization_id) *)
| QueryUser (ids : gset Z) (organization_id : Z) : event (list Row)
(* CommitAuthor.objects.filter(id__in=ids) *)
| QueryCommitAuthor (ids : gset string) : event (list CommitAuthor)
(* Commit.objects.filter(id__in=ids).select_related("author") *)
| QueryCommit (ids : gset Z) : event (list Row)
(* Deploy.objects.filter(id__in=ids) *)
| QueryDeploy (ids : gset Z) : event (list Row)
(* ReleaseProject.objects.filter(release__in=releases)
     .values_list("project_id", flat=True).distinct() *)
| QueryReleaseProjectIds (releases : list Z) : event (list Z)
(* ReleaseProject.objects.filter(project=project, release__in=releases)
     .values_list("release_id", "new_groups") *)
| QueryReleaseProjectGroups (project : Z) (releases : list Z)
    : event (list (Z * option Z))
(* ReleaseProject.objects.filter(release__in=releases, new_groups__isnull=False)
     .values_list("project_id", "release_id", "new_groups") *)
| QueryReleaseProjectGroupsNotNull (releases : list Z)
    : event (list (Z * Z * Z))
(* ReleaseProjectEnvironment.objects.filter(release__in=releases,
     environment__name__in=environments).select_related("release"),
   filtered by project when there is one *)
| QueryReleaseProjectEnvironment
    (releases : list Z) (environments : list string) (project : option Z)
    : event (list ReleaseProjectEnvironment)
(* the same rows .annotate(aggregated_new_issues_count=Sum("new_issues_count"))
     .values_list("project_id", "release_id", "aggregated_new_issues_count") *)
| QueryReleaseProjectEnvironmentSum
    (releases : list Z) (environments : list string) (project : option Z)
    : event (list (Z * Z * option Z))
(* ReleaseProject.objects.filter(release__in=releases).values(...) *)
| QueryReleaseProject (releases : list Z) : event (list ProjectRelease)
(* ProjectPlatform.objects.filter(project_id__in=project_ids)
     .values_list("project_id", "platform") *)
| QueryProjectPlatform (project_ids : gset Z) : event (list (Z * string))
(* tagstore.get_release_tags(project_ids, environment_id=None, versions=versions) *)
| GetReleaseTags (project_ids : list Z) (versions : list string)
    : event (list TagValue)
(* get_release_health_data_overview(project_releases, ...) *)
| GetReleaseHealthDataOverview
    (project_releases : list (Z * string))
    (health_stats_period summary_stats_period : value)
    (environments : option (list string)) (stat : value)
    : event (gmap (Z * string) value)
(* check_has_health_data(project_releases) *)
| CheckHasHealthData (project_releases : list (Z * string))
    : event (gset (Z * string)).

(** A program: it returns, raises, or calls a collaborator and goes on
    with the answer. *)
Inductive prog (R : Type) : Type :=
| Ret (r : R)
| Raise (e : exn)
| Vis {X : Type} (e : event X) (k : X -> prog R).
Arguments Ret {R} r.
Arguments Raise {R} e.
Arguments Vis {R X} e k.

Fixpoint bind {A B} (p : prog A) (f : A -> prog B) : prog B :=
  match p with
  | Ret a => f a
  | Raise e => Raise e
  | Vis e k => Vis e (fun x => bind (k x) f)
  end.

Definition call {X} (e : event X) : prog X := Vis e Ret.

Definition lift {A} (r : result A) : prog A :=
  match r with
  | Ok a => Ret a
  | Err e => Raise e
  end.

Declare Scope prog_scope.
Delimit Scope prog_scope with prog.
Notation "'let*' x := p 'in' k" := (bind p (fun x => k))
  (at level 10, x pattern, p at level 100, k at level 200) : prog_scope.

(** One answered call. *)
Inductive answered : Type :=
| Answer {X : Type} (e : event X) (x : X).

(** [run p tr r]: [p] ends with [r] after the answered calls [tr]. *)
Fixpoint run {R} (p : prog R) (tr : list answered) (r : result R) : Prop :=
  match p with
  | Ret a => tr = [] /\ r = Ok a
  | Raise e => tr = [] /\ r = Err e
  | Vis e k => exists x t, tr = Answer e x :: t /\ run (k x) t r
  end.

(** The collaborators as a state machine: each call is answered from the
    current state, which it may change. *)
Definition handler (S : Type) : Type := forall X, event X -> S -> X * S.

Fixpoint interp {S R} (h : handler S) (p : prog R) (s : S)
  : result R * S * list answered :=
  match p with
  | Ret a => (Ok a, s, [])
  | Raise e => (Err e, s, [])
  | Vis e k =>
      let '(x, s1) := h _ e s in
      let '(r, s2, tr) := interp h (k x) s1 in
      (r, s2, Answer e x :: tr)
  end.


End Effects.
Export Effects.

(** ** Releases *)

Module Release.

Definition expose_version_info (info : value) : result value :=
  match info with
  | VNone => Ok VNone
  | _ =>
      do raw <- getitem info "version_raw";
      let version := dict_of [("raw", raw)] in
      do parsed <- getitem info "version_parsed";
      do version <-
        (if truthy parsed then
           do major <- getitem parsed "major";
           do minor <- getitem parsed "minor";
           do patch <- getitem parsed "patch";
           do pre <- getitem parsed "pre";
           do build_code <- getitem parsed "build_code";
           do components <- getitem parsed "components";
           Ok (dict_update version (dict_of [
             ("major", major);
             ("minor", minor);
             ("patch", patch);
             ("pre", pre);
             ("buildCode", build_code);
             ("components", components)
           ]))
         else Ok version);
      do package <- getitem info "package";
      do description <- getitem info "description";
      do build_hash <- getitem info "build_hash";
      Ok (VDict (dict_of [
        ("package", package);
        ("version", VDict version);
        ("description", description);
        ("buildHash", build_hash)
      ]))
  end.

Section Serializer.

(** [sentry.utils.hashlib.md5_text(s).hexdigest()], [str.lower] and
    [ReleaseStatus.to_string] are not part of the two modules. *)
Variable md5_hexdigest : string -> string.
Variable str_lower : string -> string.
Variable ReleaseStatus_to_string : value -> value.

(** Release rows are dictionary keys in [get_attrs] and its helpers.  What
    makes two rows the same key is [Release.__hash__] and [Release.__eq__]
    of [sentry.models], here [row_key]. *)
Context {K : Type} {K_eq_dec : EqDecision K} {K_countable : Countable K}.
Variable row_key : Release -> K.

Definition _user_to_author_cache_key (organization_id : Z) (author : CommitAuthor)
  : string :=
  let author_hash := md5_hexdigest (str_lower (email author)) in
  "get_users_for_authors:" +:+ str_int organization_id +:+ ":" +:+ author_hash.

Definition expose_health_data (data : value) : result value :=
  if negb (truthy data) then Ok VNone
  else
    do duration_p50 <- getitem data "duration_p50";
    do duration_p90 <- getitem data "duration_p90";
    do crash_free_users <- getitem data "crash_free_users";
    do crash_free_sessions <- getitem data "crash_free_sessions";
    do sessions_crashed <- getitem data "sessions_crashed";
    do sessions_errored <- getitem data "sessions_errored";
    do total_users <- getitem data "total_users";
    do total_users_24h <- getitem data "total_users_24h";
    do total_sessions <- getitem data "total_sessions";
    do total_sessions_24h <- getitem data "total_sessions_24h";
    do adoption <- getitem data "adoption";
    do stats <- get_method data "stats" VNone;
    do has_health_data <- getitem data "has_health_data";
    Ok (VDict (dict_of [
      ("durationP50", duration_p50);
      ("durationP90", duration_p90);
      ("crashFreeUsers", crash_free_users);
      ("crashFreeSessions", crash_free_sessions);
      ("sessionsCrashed", sessions_crashed);
      ("sessionsErrored", sessions_errored);
      ("totalUsers", total_users);
      ("totalUsers24h", total_users_24h);
      ("totalSessions", total_sessions);
      ("totalSessions24h", total_sessions_24h);
      ("adoption", adoption);
      ("stats", stats);
      ("hasHealthData", has_health_data)
    ])).

(** [k in project]; the subscripts before it have already rejected
    everything that is not a [dict]. *)
Definition expose_project (project : value) : result value :=
  do id <- getitem project "id";
  do slug <- getitem project "slug";
  do name <- getitem project "name";
  do new_groups <- getitem project "new_groups";
  do platform <- getitem project "platform";
  do platforms <- getitem project "platforms";
  do has_health_data <- getitem project "has_health_data";
  let rv := dict_of [
    ("id", id);
    ("slug", slug);
    ("name", name);
    ("newGroups", new_groups);
    ("platform", platform);
    ("platforms", platforms);
    ("hasHealthData", has_health_data)
  ] in
  match project with
  | VDict d =>
      match dict_lookup "health_data" d with
      | Some health_data =>
          do hd <- expose_health_data health_data;
          Ok (VDict (dict_set "healthData" hd rv))
      | None => Ok (VDict rv)
      end
  | _ => Err (TypeError "argument is not a dict")
  end.

Definition serialize (obj : Release) (attrs : list (string * value)) (user : value)
  : result (list (string * value)) :=
  do version_info <- expose_version_info (version_info obj);
  do new_groups <- getitem (VDict attrs) "new_groups";
  do owner <- getitem (VDict attrs) "owner";
  do attr_projects <- iterate (dict_get "projects" (VList []) attrs);
  do projects <- rmap expose_project attr_projects;
  Ok (dict_of [
    ("version", VStr (version obj));
    ("status", ReleaseStatus_to_string (status obj));
    ("shortVersion", VStr (version obj));
    ("versionInfo", version_info);
    ("ref", ref obj);
    ("url", url obj);
    ("dateReleased", date_released obj);
    ("dateCreated", date_added obj);
    ("data", data obj);
    ("newGroups", new_groups);
    ("owner", owner);
    ("commitCount", commit_count obj);
    ("lastCommit", dict_get "last_commit" VNone attrs);
    ("deployCount", total_deploys obj);
    ("lastDeploy", dict_get "last_deploy" VNone attrs);
    ("authors", dict_get "authors" (VList []) attrs);
    ("projects", VList projects);
    ("firstEvent", dict_get "first_seen" VNone attrs);
    ("lastEvent", dict_get "last_seen" VNone attrs)
  ]).

(** *** Author resolution *)

(** The first loop of [get_users_for_authors]: authors found in the cache
    go to [results], the others to [missed]. *)
Definition partition_fetched (organization_id : Z) (fetched : gmap string value)
    (authors : list CommitAuthor) : gmap string value * list CommitAuthor :=
  fold_left
    (fun '(results, missed) author =>
       match fetched !! _user_to_author_cache_key organization_id author with
       | None | Some VNone => (results, (missed ++ [author])%list)
       | Some fetched_user =>
           (<[str_int (author_id author) := fetched_user]> results, missed)
       end)
    authors (∅, []).

(** [{user["id"]: user for user in users}], as far as it can be probed
    with a string: a key that is not a string never equals one, and a list
    or a dictionary cannot be a key at all. *)
Definition index_by_id (users : list value) : result (gmap string value) :=
  rfold
    (fun acc user =>
       do id <- getitem user "id";
       match id with
       | VStr k => Ok (<[k := user]> acc)
       | VList _ | VDict _ => Err (TypeError "unhashable type")
       | _ => Ok acc
       end)
    users ∅.

(** The loop over [user_emails]: the first address (in id order) whose
    user is known claims the lower-cased address. *)
Definition match_emails (users_by_id : gmap string value) (user_emails : list UserEmail)
  : gmap string value :=
  fold_left
    (fun users_by_email email =>
       let lower_email := str_lower (ue_email email) in
       match users_by_email !! lower_email with
       | Some _ => users_by_email
       | None =>
           match users_by_id !! str_int (ue_user_id email) with
           | Some user =>
               if truthy user then <[lower_email := user]> users_by_email
               else users_by_email
           | None => users_by_email
           end
       end)
    user_emails ∅.

Definition author_fallback (author : CommitAuthor) : value :=
  VDict (dict_of [("name", author_name author); ("email", VStr (email author))]).

(** The loop over [missed]: fills [results] and [to_cache]. *)
Definition resolve_missed (organization_id : Z) (users_by_email : gmap string value)
    (missed : list CommitAuthor) (results : gmap string value)
  : gmap string value * gmap string value :=
  fold_left
    (fun '(results, to_cache) author =>
       let v := default (author_fallback author)
                  (users_by_email !! str_lower (email author)) in
       (<[str_int (author_id author) := v]> results,
        <[_user_to_author_cache_key organization_id author := v]> to_cache))
    missed (results, ∅).

#[local] Open Scope prog_scope.

Definition get_users_for_authors (organization_id : Z) (authors : list CommitAuthor)
    (user : value) : prog (gmap string value) :=
  let* fetched := call (CacheGetMany
    (map (_user_to_author_cache_key organization_id) authors)) in
  let '(results, missed) :=
    if bool_decide (fetched = ∅) then (∅, authors)
    else partition_fetched organization_id fetched authors in
  let* results :=
    match missed with
    | [] => Ret results
    | _ :: _ =>
        let* user_emails := call (QueryUserEmail (map email missed)) in
        let* users := call (QueryUser
          (list_to_set (map ue_user_id user_emails)) organization_id) in
        let* users := call (Serialize users user) in
        let* users_by_id := lift (index_by_id users) in
        let users_by_email := match_emails users_by_id user_emails in
        let '(results, to_cache) :=
          resolve_missed organization_id users_by_email missed results in
        let* _ := call (CacheSetMany to_cache) in
        Ret results
    end in
  let* _ := call (MetricsIncr "sentry.release.get_users_for_authors.missed"
                    (length missed)) in
  let* _ := call (MetricsIncr "sentry.tasks.process_suspect_commits.total"
                    (size results)) in
  Ret results.

(** *** Commit and deploy metadata *)

(** What can be a member of a [set]. *)
Inductive hashable : Type :=
| HNone
| HInt (z : Z)
| HStr (s : string)
| HTime (t : Z).

#[export] Instance hashable_eq_dec : EqDecision hashable.
Proof. solve_decision. Defined.

Definition hash_key (v : value) : result hashable :=
  match v with
  | VNone => Ok HNone
  | VBool b => Ok (HInt (Z.b2z b))
  | VInt z => Ok (HInt z)
  | VStr s => Ok (HStr s)
  | VTime t => Ok (HTime t)
  | VList _ | VDict _ => Err (TypeError "unhashable type")
  end.

(** [o.last_commit_id] and the like in a condition: [None] and [0] are
    false. *)
Definition truthy_id (o : option Z) : option Z :=
  match o with
  | Some z => if Z.eqb z 0 then None else Some z
  | None => None
  end.

(** The inner loop of [_get_commit_metadata] for one release: the users
    of its authors, one per e-mail address. *)
Definition item_authors (users_by_author : gmap string value) (item : Release)
  : result (list value) :=
  do r <- rfold
    (fun '(item_authors, seen_authors) a =>
       match users_by_author !! a with
       | None => Ok (item_authors, seen_authors)
       | Some user =>
           if truthy user then
             do e <- getitem user "email";
             do h <- hash_key e;
             if bool_decide (h ∈ seen_authors)
             then Ok (item_authors, seen_authors)
             else Ok ((item_authors ++ [user])%list, h :: seen_authors)
           else Ok (item_authors, seen_authors)
       end)
    (authors item) ([], ([] : list hashable));
  Ok (fst r).

(** [{c.id: d for c, d in zip(rows, serialized)}] *)
Definition zip_by_pk (rows : list Row) (serialized : list value) : gmap Z value :=
  fold_left (fun acc cd => <[pk (fst cd) := snd cd]> acc)
    (combine rows serialized) ∅.

Definition lookup_id (m : gmap Z value) (o : option Z) : value :=
  match o with
  | Some i => default VNone (m !! i)
  | None => VNone
  end.

Definition _get_commit_metadata (item_list : list Release) (user : value)
  : prog (gmap K (list (string * value))) :=
  let author_ids : gset string := list_to_set (concat (map authors item_list)) in
  let* authors :=
    if bool_decide (author_ids = ∅) then Ret []
    else call (QueryCommitAuthor author_ids) in
  let* users_by_author :=
    match authors with
    | [] => Ret ∅
    | _ :: _ =>
        let org_ids : gset Z := list_to_set (map organization_id item_list) in
        match elements org_ids with
        | [org_id] => get_users_for_authors org_id authors user
        | _ => Ret ∅
        end
    end in
  let commit_ids : gset Z :=
    list_to_set (omap (fun o => truthy_id (last_commit_id o)) item_list) in
  let* commits :=
    if bool_decide (commit_ids = ∅) then Ret ∅
    else
      let* commit_list := call (QueryCommit commit_ids) in
      let* serialized := call (Serialize commit_list user) in
      Ret (zip_by_pk commit_list serialized) in
  lift (rfold
    (fun result item =>
       do item_authors <- item_authors users_by_author item;
       Ok (<[row_key item := dict_of [
             ("authors", VList item_authors);
             ("last_commit", lookup_id commits (last_commit_id item))
           ]]> result))
    item_list ∅).

Definition _get_deploy_metadata (item_list : list Release) (user : value)
  : prog (gmap K (list (string * value))) :=
  let deploy_ids : gset Z :=
    list_to_set (omap (fun o => truthy_id (last_deploy_id o)) item_list) in
  let* deploys :=
    if bool_decide (deploy_ids = ∅) then Ret ∅
    else
      let* deploy_list := call (QueryDeploy deploy_ids) in
      let* serialized := call (Serialize deploy_list user) in
      Ret (zip_by_pk deploy_list serialized) in
  Ret (fold_left
    (fun result item =>
       <[row_key item := dict_of [
          ("last_deploy", lookup_id deploys (last_deploy_id item))
        ]]> result)
    item_list ∅).

(** *** First and last sightings, issue counts *)

Definition __get_project_id_list (item_list : list Release) : prog (list Z * bool) :=
  let '(project_ids, need_fallback) :=
    fold_left
      (fun '(project_ids, need_fallback) release =>
         match for_project_id release with
         | Some p => (({[p]} : gset Z) ∪ project_ids, need_fallback)
         | None => (project_ids, true)
         end)
      item_list ((∅ : gset Z), false) in
  if negb need_fallback then Ret (merge_sort Z.le (elements project_ids), true)
  else
    let* ids := call (QueryReleaseProjectIds (map id item_list)) in
    Ret (ids, false).

(** The loop over the tag values of [__get_release_data_no_environment]. *)
Definition seen_of_tag_values (tag_values : list TagValue)
  : gmap string Z * gmap string Z :=
  fold_left
    (fun '(first_seen, last_seen) tv =>
       let first_val := first_seen !! tv_value tv in
       let last_val := last_seen !! tv_value tv in
       (<[tv_value tv :=
            match first_val with
            | Some first_val => Z.min (tv_first_seen tv) first_val
            | None => tv_first_seen tv
            end]> first_seen,
        <[tv_value tv :=
            match last_val with
            | Some last_val => Z.max (tv_last_seen tv) last_val
            | None => tv_last_seen tv
            end]> last_seen))
    tag_values (∅, ∅).

(** [counts.setdefault(release_id, {})[project_id] = new_groups] *)
Definition set_group_count (release_id project_id : Z) (new_groups : option Z)
    (counts : gmap Z (gmap Z (option Z))) : gmap Z (gmap Z (option Z)) :=
  <[release_id := <[project_id := new_groups]> (default ∅ (counts !! release_id))]>
    counts.

Definition __get_release_data_no_environment (project : option Z)
    (item_list : list Release)
  : prog (gmap string Z * gmap string Z * gmap Z (gmap Z (option Z))) :=
  let* (project_ids, specialized) :=
    match project with
    | Some project_id => Ret ([project_id], true)
    | None => __get_project_id_list item_list
    end in
  let* tag_values := call (GetReleaseTags project_ids (map version item_list)) in
  let '(first_seen, last_seen) := seen_of_tag_values tag_values in
  let* group_counts_by_release :=
    match project with
    | Some project_id =>
        let* rows := call (QueryReleaseProjectGroups project_id (map id item_list)) in
        Ret (fold_left
          (fun counts '(release_id, new_groups) =>
             <[release_id := {[project_id := new_groups]}]> counts)
          rows ∅)
    | None =>
        let* rows := call (QueryReleaseProjectGroupsNotNull (map id item_list)) in
        Ret (fold_left
          (fun counts '(project_id, release_id, new_groups) =>
             set_group_count release_id project_id (Some new_groups) counts)
          rows ∅)
    end in
  Ret (first_seen, last_seen, group_counts_by_release).

(** The loop over the rows of [__get_release_data_with_environments]. *)
Definition seen_of_environments (release_project_envs : list ReleaseProjectEnvironment)
  : gmap string Z * gmap string Z :=
  fold_left
    (fun '(first_seen, last_seen) release_project_env =>
       let version := rpe_release_version release_project_env in
       (match first_seen !! version with
        | None => <[version := rpe_first_seen release_project_env]> first_seen
        | Some seen =>
            if Z.ltb (rpe_first_seen release_project_env) seen
            then <[version := rpe_first_seen release_project_env]> first_seen
            else first_seen
        end,
        match last_seen !! version with
        | None => <[version := rpe_last_seen release_project_env]> last_seen
        | Some seen =>
            if Z.ltb seen (rpe_last_seen release_project_env)
            then <[version := rpe_last_seen release_project_env]> last_seen
            else last_seen
        end))
    release_project_envs (∅, ∅).

Definition __get_release_data_with_environments (project : option Z)
    (item_list : list Release) (environments : list string)
  : prog (gmap string Z * gmap string Z * gmap Z (gmap Z (option Z))) :=
  let* release_project_envs := call (QueryReleaseProjectEnvironment
    (map id item_list) environments project) in
  let '(first_seen, last_seen) := seen_of_environments release_project_envs in
  let* rows := call (QueryReleaseProjectEnvironmentSum
    (map id item_list) environments project) in
  let group_counts_by_release :=
    fold_left
      (fun counts '(project_id, release_id, new_groups) =>
         set_group_count release_id project_id new_groups counts)
      rows ∅ in
  Ret (first_seen, last_seen, group_counts_by_release).

(** *** Attributes of a batch of releases *)

(** The dictionary [pr_rv] built for one project of a release.  [health]
    is [inl health_data] when health data was asked for and
    [inr has_health_data] otherwise. *)
Definition project_entry (platforms_by_project : gmap Z (list string))
    (health : gmap (Z * string) value + gset (Z * string)) (pr : ProjectRelease)
  : result (list (string * value)) :=
  let platforms :=
    match platforms_by_project !! pr_project_id pr with
    | Some (p :: ps) => p :: ps
    | _ => []
    end in
  let pr_rv := dict_of [
    ("id", VInt (pr_project_id pr));
    ("slug", VStr (pr_project_slug pr));
    ("name", VStr (pr_project_name pr));
    ("new_groups", of_option VInt (pr_new_groups pr));
    ("platform", of_option VStr (pr_project_platform pr));
    ("platforms", VList (map VStr platforms))
  ] in
  match health with
  | inl health_data =>
      let hd := default VNone
        (health_data !! (pr_project_id pr, pr_release_version pr)) in
      let pr_rv := dict_set "health_data" hd pr_rv in
      do has <- get_method (if truthy hd then hd else VDict [])
                  "has_health_data" (VBool false);
      Ok (dict_set "has_health_data" has pr_rv)
  | inr has_health_data =>
      Ok (dict_set "has_health_data"
            (VBool (bool_decide
               ((pr_project_id pr, pr_release_version pr) ∈ has_health_data)))
            pr_rv)
  end.

(** [sum(counts.values())] *)
Definition sum_counts (counts : gmap Z (option Z)) : result Z :=
  rfold
    (fun acc kv =>
       match snd kv with
       | Some n => Ok (acc + n)
       | None =>
           Err (TypeError "unsupported operand type(s) for +: 'int' and 'NoneType'")
       end)
    (map_to_list counts) 0.

(** [[x for x in projects if x["id"] == project_id]] *)
Fixpoint filter_by_id (project_id : Z) (projects : list value) : result (list value) :=
  match projects with
  | [] => Ok []
  | x :: tl =>
      do i <- getitem x "id";
      do rest <- filter_by_id project_id tl;
      Ok (if eq_int i project_id then x :: rest else rest)
  end.

(** The body of the last loop of [get_attrs] for one release. *)
Definition item_attrs (owners : gmap string value)
    (first_seen last_seen : gmap string Z)
    (issue_counts_by_release : gmap Z (gmap Z (option Z)))
    (release_projects : gmap Z (list value))
    (release_metadata_attrs deploy_metadata_attrs : gmap K (list (string * value)))
    (item : Release) : result (list (string * value)) :=
  let single_release_projects := default [] (release_projects !! id item) in
  let counts := default ∅ (issue_counts_by_release !! id item) in
  do projects_and_groups <-
    match for_project_id item with
    | Some project_id =>
        do single_release_projects <-
          filter_by_id project_id single_release_projects;
        Ok (single_release_projects, default 0 (mjoin (counts !! project_id)))
    | None =>
        do release_new_groups <- sum_counts counts;
        Ok (single_release_projects, release_new_groups)
    end;
  let '(single_release_projects, release_new_groups) := projects_and_groups in
  do owner <-
    match truthy_id (owner_id item) with
    | Some owner_id =>
        match owners !! str_int owner_id with
        | Some owner => Ok owner
        | None => Err (KeyError (str_int owner_id))
        end
    | None => Ok VNone
    end;
  let p := dict_of [
    ("owner", owner);
    ("new_groups", VInt release_new_groups);
    ("projects", VList single_release_projects);
    ("first_seen", of_option VTime (first_seen !! version item));
    ("last_seen", of_option VTime (last_seen !! version item))
  ] in
  do commit_metadata <-
    match release_metadata_attrs !! row_key item with
    | Some m => Ok m
    | None => Err (KeyError (str_int (id item)))
    end;
  do deploy_metadata <-
    match deploy_metadata_attrs !! row_key item with
    | Some m => Ok m
    | None => Err (KeyError (str_int (id item)))
    end;
  Ok (dict_update (dict_update p commit_metadata) deploy_metadata).

Definition get_attrs (item_list : list Release) (user : value) (kwargs : Kwargs)
  : prog (gmap K (list (string * value))) :=
  let project := project kwargs in
  let environments :=
    match environments kwargs with
    | Some (e :: es) => Some (e :: es)
    | _ =>
        match environment kwargs with
        | Some name => Some [name]
        | None => None
        end
    end in
  if truthy (with_health_data kwargs) && truthy (no_snuba kwargs)
  then Raise (TypeError "health data requires snuba")
  else
  let* (first_seen, last_seen, issue_counts_by_release) :=
    match environments with
    | None => __get_release_data_no_environment project item_list
    | Some environments =>
        __get_release_data_with_environments project item_list environments
    end in
  let* owners := call (SerializeOwners
    (list_to_set (omap (fun i => truthy_id (owner_id i)) item_list)) user) in
  let* owners := lift (index_by_id owners) in
  let* release_metadata_attrs := _get_commit_metadata item_list user in
  let* deploy_metadata_attrs := _get_deploy_metadata item_list user in
  let* project_releases := call (QueryReleaseProject (map id item_list)) in
  let* platforms := call (QueryProjectPlatform
    (list_to_set (map pr_project_id project_releases))) in
  let platforms_by_project : gmap Z (list string) :=
    fold_left
      (fun acc '(project_id, platform) =>
         <[project_id := (default [] (acc !! project_id) ++ [platform])%list]> acc)
      platforms ∅ in
  let pairs := map (fun pr => (pr_project_id pr, pr_release_version pr))
                 project_releases in
  let* health :=
    if truthy (with_health_data kwargs) then
      let* health_data := call (GetReleaseHealthDataOverview pairs
        (health_stats_period kwargs) (summary_stats_period kwargs)
        environments (health_stat kwargs)) in
      Ret (inl health_data)
    else if truthy (no_snuba kwargs) then Ret (inr ∅)
    else
      let* has_health_data := call (CheckHasHealthData pairs) in
      Ret (inr has_health_data) in
  let* release_projects := lift (rfold
    (fun acc pr =>
       do pr_rv <- project_entry platforms_by_project health pr;
       Ok (<[pr_release_id pr :=
               (default [] (acc !! pr_release_id pr) ++ [VDict pr_rv])%list]> acc))
    project_releases (∅ : gmap Z (list value))) in
  lift (rfold
    (fun result item =>
       do p <- item_attrs owners first_seen last_seen issue_counts_by_release
                 release_projects release_metadata_attrs deploy_metadata_attrs item;
       Ok (<[row_key item := p]> result))
    item_list ∅).

End Serializer.

End Release.

(** ** Vocabulary of the statements *)

Module Spec.

(** ASCII case folding, the part of [str.lower] that the cache key claim
    speaks about. *)
Definition ascii_lower_char (c : ascii) : ascii :=
  let n := N_of_ascii c in
  if (N.leb 65 n && N.leb n 90)%bool then ascii_of_N (n + 32) else c.

Fixpoint ascii_lower (s : string) : string :=
  match s with
  | EmptyString => EmptyString
  | String c tl => String (ascii_lower_char c) (ascii_lower tl)
  end.

(** [m] is the least (greatest) element of [l]. *)
Definition is_minimum (m : Z) (l : list Z) : Prop :=
  In m l /\ Forall (fun x => m <= x) l.

Definition is_maximum (m : Z) (l : list Z) : Prop :=
  In m l /\ Forall (fun x => x <= m) l.

(** The same, computed from left to right. *)
Definition min_of (l : list Z) : option Z :=
  fold_left (fun acc x => Some (match acc with Some a => Z.min x a | None => x end))
    l None.

Definition max_of (l : list Z) : option Z :=
  fold_left (fun acc x => Some (match acc with Some a => Z.max x a | None => x end))
    l None.

Definition first_seen_of (v : string) (tag_values : list TagValue) : list Z :=
  map tv_first_seen (List.filter (fun tv => String.eqb (tv_value tv) v) tag_values).

Definition last_seen_of (v : string) (tag_values : list TagValue) : list Z :=
  map tv_last_seen (List.filter (fun tv => String.eqb (tv_value tv) v) tag_values).

Definition env_first_seen_of (v : string) (rows : list ReleaseProjectEnvironment)
  : list Z :=
  map rpe_first_seen (List.filter (fun r => String.eqb (rpe_release_version r) v) rows).

Definition env_last_seen_of (v : string) (rows : list ReleaseProjectEnvironment)
  : list Z :=
  map rpe_last_seen (List.filter (fun r => String.eqb (rpe_release_version r) v) rows).

(** Shapes under which the serializer finds every key it subscripts. *)
Definition has_keys (keys : list string) (v : value) : bool :=
  match v with
  | VDict d => forallb (fun k => bool_decide (is_Some (dict_lookup k d))) keys
  | _ => false
  end.

Definition well_formed_version_info (info : value) : bool :=
  match info with
  | VNone => true
  | VDict d =>
      has_keys ["version_raw"; "package"; "description"; "build_hash"] info
      && match dict_lookup "version_parsed" d with
         | Some parsed =>
             negb (truthy parsed)
             || has_keys ["major"; "minor"; "patch"; "pre"; "build_code"; "components"]
                  parsed
         | None => false
         end
  | _ => false
  end.

Definition well_formed_health_data (data : value) : bool :=
  negb (truthy data)
  || has_keys ["duration_p50"; "duration_p90"; "crash_free_users";
               "crash_free_sessions"; "sessions_crashed"; "sessions_errored";
               "total_users"; "total_users_24h"; "total_sessions";
               "total_sessions_24h"; "adoption"; "has_health_data"] data.

Definition well_formed_project (project : value) : bool :=
  match project with
  | VDict d =>
      has_keys ["id"; "slug"; "name"; "new_groups"; "platform"; "platforms";
                "has_health_data"] project
      && match dict_lookup "health_data" d with
         | Some data => well_formed_health_data data
         | None => true
         end
  | _ => false
  end.

Definition well_formed_attrs (attrs : list (string * value)) : bool :=
  bool_decide (is_Some (dict_lookup "new_groups" attrs))
  && bool_decide (is_Some (dict_lookup "owner" attrs))
  && match iterate (dict_get "projects" (VList []) attrs) with
     | Ok projects => forallb well_formed_project projects
     | Err _ => false
     end.

(** The four bulk lookups of [get_users_for_authors], recognised in a
    trace. *)
Definition is_cache_read (c : answered) : bool :=
  match c with
  | Answer e _ => match e with CacheGetMany _ => true | _ => false end
  end.

Definition is_cache_write (c : answered) : bool :=
  match c with
  | Answer e _ => match e with CacheSetMany _ => true | _ => false end
  end.

Definition is_user_email_query (c : answered) : bool :=
  match c with
  | Answer e _ => match e with QueryUserEmail _ => true | _ => false end
  end.

Definition is_user_query (c : answered) : bool :=
  match c with
  | Answer e _ => match e with QueryUser _ _ => true | _ => false end
  end.

Definition count (p : answered -> bool) (tr : list answered) : nat :=
  length (List.filter p tr).




(** A program that never raises: every run ends with a value. *)
Definition returns {A} (p : prog A) : Prop :=
  forall tr r, run p tr r -> exists a, r = Ok a.

(** The validation error of [get_attrs]. *)
Definition health_data_requires_snuba : exn :=
  TypeError "health data requires snuba".

(** A computation that does not end in the validation error. *)
Definition rclean {A} (r : result A) : Prop :=
  r <> Err health_data_requires_snuba.

Definition clean {A} (p : prog A) : Prop :=
  forall tr r, run p tr r -> r <> Err health_data_requires_snuba.

(** The environment names [get_attrs] settles on, and the release-data
    helper it then calls. *)
Definition effective_environments (kwargs : Kwargs) : option (list string) :=
  match environments kwargs with
  | Some (e :: es) => Some (e :: es)
  | _ =>
      match environment kwargs with
      | Some name => Some [name]
      | None => None
      end
  end.

Definition release_data (kwargs : Kwargs) (item_list : list Release)
  : prog (gmap string Z * gmap string Z * gmap Z (gmap Z (option Z))) :=
  match effective_environments kwargs with
  | None => Release.__get_release_data_no_environment (project kwargs) item_list
  | Some environments =>
      Release.__get_release_data_with_environments (project kwargs) item_list
        environments
  end.

(** [item] is the last row of the batch that is this dictionary key: the
    one whose attributes stay in the result.  In a batch of distinct rows
    every row is. *)
Definition latest {K} (row_key : Release -> K) (item : Release)
    (item_list : list Release) : Prop :=
  exists before after,
    item_list = (before ++ item :: after)%list /\
    Forall (fun other => row_key other <> row_key item) after.

End Spec.
Export Spec.

(** ** A small world to run the serializers in *)

Module Demo.

Definition ann_user : value :=
  VDict [("id", VStr "3"); ("name", VStr "Ann"); ("email", VStr "ann@example.com")].

Definition user_rows : list Row := [{| pk := 3; fields := ann_user |}].

Definition user_email_rows : list UserEmail :=
  [{| ue_email := "ann@example.com"; ue_user_id := 3 |};
   {| ue_email := "carl@example.com"; ue_user_id := 4 |}].

Definition ann : CommitAuthor :=
  {| author_id := 7; author_name := VStr "Ann"; email := "Ann@Example.com" |}.

Definition bob : CommitAuthor :=
  {| author_id := 8; author_name := VStr "Bob"; email := "bob@example.com" |}.

Definition commit_authors : list CommitAuthor := [ann; bob].

Definition commit_rows : list Row :=
  [{| pk := 100; fields := VDict [("id", VStr "abc")] |}].

Definition deploy_rows : list Row :=
  [{| pk := 200; fields := VDict [("id", VStr "200")] |}].

Definition project_releases : list ProjectRelease :=
  [{| pr_new_groups := Some 4; pr_release_id := 1; pr_release_version := "1.0";
      pr_project_slug := "web"; pr_project_name := "Web"; pr_project_id := 10;
      pr_project_platform := Some "python" |};
   {| pr_new_groups := Some 1; pr_release_id := 1; pr_release_version := "1.0";
      pr_project_slug := "ios"; pr_project_name := "iOS"; pr_project_id := 11;
      pr_project_platform := None |};
   {| pr_new_groups := Some 2; pr_release_id := 2; pr_release_version := "2.0";
      pr_project_slug := "web"; pr_project_name := "Web"; pr_project_id := 10;
      pr_project_platform := Some "python" |}].

Definition tag_values : list TagValue :=
  [{| tv_value := "1.0"; tv_first_seen := 50; tv_last_seen := 90 |};
   {| tv_value := "2.0"; tv_first_seen := 70; tv_last_seen := 80 |};
   {| tv_value := "1.0"; tv_first_seen := 30; tv_last_seen := 95 |}].

Definition environment_rows : list ReleaseProjectEnvironment :=
  [{| rpe_release_version := "1.0"; rpe_first_seen := 40; rpe_last_seen := 60 |};
   {| rpe_release_version := "1.0"; rpe_first_seen := 45; rpe_last_seen := 85 |}].

Definition member {A} `{EqDecision A} (x : A) (l : list A) : bool :=
  bool_decide (x ∈ l).

(** The collaborators: a cache that remembers what it is given, and
    tables that answer every query from the rows above. *)
Definition answer : handler (gmap string value) :=
  fun X e =>
    match e in event X return gmap string value -> X * gmap string value with
    | CacheGetMany keys => fun cache =>
        (list_to_map (omap (fun k => (fun v => (k, v)) <$> cache !! k) keys), cache)
    | CacheSetMany to_cache => fun cache => ((), to_cache ∪ cache)
    | MetricsIncr _ _ => fun cache => ((), cache)
    | Serialize objs _ => fun cache => (map fields objs, cache)
    | SerializeOwners owner_ids _ => fun cache =>
        (map fields
           (List.filter (fun u => bool_decide (pk u ∈ owner_ids)) user_rows), cache)
    | QueryUserEmail emails => fun cache =>
        (List.filter
           (fun ue => member (ascii_lower (ue_email ue)) (map ascii_lower emails))
           user_email_rows, cache)
    | QueryUser ids organization_id => fun cache =>
        (List.filter
           (fun u => bool_decide (pk u ∈ ids) && Z.eqb organization_id 1)
           user_rows, cache)
    | QueryCommitAuthor ids => fun cache =>
        (List.filter (fun a => bool_decide (str_int (author_id a) ∈ ids))
           commit_authors, cache)
    | QueryCommit ids => fun cache =>
        (List.filter (fun c => bool_decide (pk c ∈ ids)) commit_rows, cache)
    | QueryDeploy ids => fun cache =>
        (List.filter (fun d => bool_decide (pk d ∈ ids)) deploy_rows, cache)
    | QueryReleaseProjectIds releases => fun cache =>
        (remove_dups
           (map pr_project_id
              (List.filter (fun pr => member (pr_release_id pr) releases)
                 project_releases)), cache)
    | QueryReleaseProjectGroups project releases => fun cache =>
        (map (fun pr => (pr_release_id pr, pr_new_groups pr))
           (List.filter
              (fun pr => Z.eqb (pr_project_id pr) project
                         && member (pr_release_id pr) releases)
              project_releases), cache)
    | QueryReleaseProjectGroupsNotNull releases => fun cache =>
        (omap (fun pr =>
                 if member (pr_release_id pr) releases
                 then (fun n => (pr_project_id pr, pr_release_id pr, n))
                        <$> pr_new_groups pr
                 else None)
           project_releases, cache)
    | QueryReleaseProjectEnvironment _ _ _ => fun cache => (environment_rows, cache)
    | QueryReleaseProjectEnvironmentSum _ _ _ => fun cache =>
        ([(10, 1, Some 3)], cache)
    | QueryReleaseProject releases => fun cache =>
        (List.filter (fun pr => member (pr_release_id pr) releases) project_releases,
         cache)
    | QueryProjectPlatform _ => fun cache => ([(10, "python"); (10, "javascript")], cache)
    | GetReleaseTags _ versions => fun cache =>
        (List.filter (fun tv => member (tv_value tv) versions) tag_values, cache)
    | GetReleaseHealthDataOverview _ _ _ _ _ => fun cache => (∅, cache)
    | CheckHasHealthData pairs => fun cache =>
        (list_to_set (List.filter (fun pv => Z.eqb (fst pv) 10) pairs), cache)
    end.

Definition release (i : Z) (v : string) (organization : Z) (author_ids : list string)
    (annotation : option Z) : Release :=
  {| id := i; version := v; organization_id := organization;
     authors := author_ids; last_commit_id := Some 100; last_deploy_id := None;
     owner_id := Some 3; for_project_id := annotation;
     status := VInt 0; version_info := VNone; ref := VNone; url := VNone;
     date_released := VNone; date_added := VTime 10; data := VDict [];
     commit_count := VInt 2; total_deploys := VInt 0 |}.

Definition release_1 : Release := release 1 "1.0" 1 ["7"; "8"] (Some 10).
Definition release_2 : Release := release 2 "2.0" 1 ["8"] None.
Definition release_3 : Release := release 3 "3.0" 2 ["7"] None.

Definition no_kwargs : Kwargs :=
  {| project := None; environment := None; environments := None;
     with_health_data := VBool false; health_stat := VNone;
     health_stats_period := VNone; summary_stats_period := VNone;
     no_snuba := VNone |}.

(** A stand-in for the digest in examples. *)
Definition digest (s : string) : string := "md5(" +:+ s +:+ ")".

(** [Release.__eq__] as the demo has it: the id and the annotation. *)
Definition row_key (r : Release) : Z * option Z := (id r, for_project_id r).

Definition status_name (v : value) : value :=
  match v with
  | VInt 0 => VStr "open"
  | _ => VStr "archived"
  end.

(** The runs that the examples below look at. *)
Definition rejected_kwargs : Kwargs :=
  {| project := None; environment := None; environments := None;
     with_health_data := VBool true; health_stat := VNone;
     health_stats_period := VNone; summary_stats_period := VNone;
     no_snuba := VInt 1 |}.

Definition authors_run :=
  interp answer
    (Release.get_users_for_authors digest ascii_lower 1 commit_authors VNone) ∅.


Definition commit_metadata_run :=
  interp answer
    (Release._get_commit_metadata digest ascii_lower row_key
       [release_1; release_3] VNone) ∅.

Definition release_data_run :=
  interp answer
    (Release.__get_release_data_no_environment (Some 10) [release_1; release_2]) ∅.

Definition environment_data_run :=
  interp answer
    (Release.__get_release_data_with_environments None [release_1] ["production"]) ∅.

Definition attrs_run :=
  interp answer
    (Release.get_attrs digest ascii_lower row_key [release_1; release_2] VNone
       no_kwargs) ∅.

Definition rejected_run :=
  interp answer
    (Release.get_attrs digest ascii_lower row_key [release_1; release_2] VNone
       rejected_kwargs) ∅.

Definition release_1_attrs : list (string * value) :=
  [("owner", ann_user); ("new_groups", VInt 4); ("projects", VList []);
   ("last_commit", VDict [("id", VStr "abc")])].

End Demo.

(** ** Vocabulary of the further properties *)

Module Further.

(** A text without a colon, as the decimal rendering of an integer is. *)
Fixpoint no_colon (s : string) : bool :=
  match s with
  | EmptyString => true
  | String c tl => negb (Ascii.eqb c ":"%char) && no_colon tl
  end.

(** A tag value read as a row of the environment query: the same version
    and the same two instants. *)
Definition to_environment_row (tv : TagValue) : ReleaseProjectEnvironment :=
  {| rpe_release_version := tv_value tv;
     rpe_first_seen := tv_first_seen tv;
     rpe_last_seen := tv_last_seen tv |}.

(** Who answers a call. *)
Inductive collaborator : Type :=
| Cache
| Metrics
| Serializer
| Database
| Tagstore
| HealthBackend.

Definition collaborator_of (c : answered) : collaborator :=
  match c with
  | Answer e _ =>
      match e with
      | CacheGetMany _ | CacheSetMany _ => Cache
      | MetricsIncr _ _ => Metrics
      | Serialize _ _ | SerializeOwners _ _ => Serializer
      | GetReleaseTags _ _ => Tagstore
      | GetReleaseHealthDataOverview _ _ _ _ _ | CheckHasHealthData _ => HealthBackend
      | _ => Database
      end
  end.

(** A program that never calls [who]. *)
Definition avoids (who : collaborator) {A} (p : prog A) : Prop :=
  forall tr r, run p tr r -> Forall (fun c => collaborator_of c <> who) tr.

(** A program that makes at most [n] calls. *)
Definition calls_at_most (n : nat) {A} (p : prog A) : Prop :=
  forall tr r, run p tr r -> (length tr <= n)%nat.

(** A path configuration row to try the serializer on; the provider is
    its own serialization. *)
Definition path_config : PathConfig.RepositoryProjectPathConfig value :=
  {| PathConfig.id := 5;
     PathConfig.project_id := 10;
     PathConfig.project := {| PathConfig.slug := "web" |};
     PathConfig.repository :=
       {| PathConfig.repo_id := 77; PathConfig.name := "getsentry/web" |};
     PathConfig.organization_integration :=
       {| PathConfig.integration :=
            {| PathConfig.integration_id := 12;
               PathConfig.get_provider := VStr "github" |} |};
     PathConfig.stack_root := VStr "/app";
     PathConfig.source_root := VStr "src/";
     PathConfig.default_branch := VNone |}.

(** The test of the first loop of [get_users_for_authors]: the cache has
    nothing, or [None], under the key. *)
Definition cache_miss (fetched : gmap string value) (key : string) : bool :=
  match fetched !! key with
  | None | Some VNone => true
  | Some _ => false
  end.

(** What a call writes to the cache, if it is a bulk write. *)
Definition written_to_cache (c : answered) : option (gmap string value) :=
  match c with
  | Answer e _ =>
      match e with
      | CacheSetMany to_cache => Some to_cache
      | _ => None
      end
  end.

(** The key under which the inner loop of [_get_commit_metadata] remembers
    a user: the hash of its ["email"]. *)
Definition email_key (user : value) : option Release.hashable :=
  match getitem user "email" with
  | Ok e =>
      match Release.hash_key e with
      | Ok h => Some h
      | Err _ => None
      end
  | Err _ => None
  end.

(** Keyword arguments and runs for the examples. *)
Definition no_snuba_kwargs : Kwargs :=
  {| project := None; environment := None; environments := None;
     with_health_data := VNone; health_stat := VNone;
     health_stats_period := VNone; summary_stats_period := VNone;
     no_snuba := VBool true |}.

Definition environment_kwargs : Kwargs :=
  {| project := Some 10; environment := Some "staging";
     environments := Some ["production"];
     with_health_data := VNone; health_stat := VNone;
     health_stats_period := VNone; summary_stats_period := VNone;
     no_snuba := VNone |}.

Definition no_snuba_run :=
  interp Demo.answer
    (Release.get_attrs Demo.digest ascii_lower Demo.row_key
       [Demo.release_1; Demo.release_2] VNone no_snuba_kwargs) ∅.

Definition environment_run :=
  interp Demo.answer
    (Release.get_attrs Demo.digest ascii_lower Demo.row_key
       [Demo.release_1; Demo.release_2] VNone environment_kwargs) ∅.

(** What the run of [Demo.authors_run] writes to the cache. *)
Definition authors_written : gmap string value :=
  <["get_users_for_authors:1:md5(ann@example.com)" := Demo.ann_user]>
    (<["get_users_for_authors:1:md5(bob@example.com)" :=
         Release.author_fallback Demo.bob]> ∅).

(** The commit metadata of two releases of one organization. *)
Definition metadata_run :=
  interp Demo.answer
    (Release._get_commit_metadata Demo.digest ascii_lower Demo.row_key
       [Demo.release_1; Demo.release_2] VNone) ∅.

Definition release_1_metadata : list (string * value) :=
  [("authors", VList [Demo.ann_user; Release.author_fallback Demo.bob]);
   ("last_commit", VDict [("id", VStr "abc")])].

Definition metadata_result : gmap (Z * option Z) (list (string * value)) :=
  <[(1, Some 10) := release_1_metadata]>
    (<[(2, None) :=
         [("authors", VList [Release.author_fallback Demo.bob]);
          ("last_commit", VDict [("id", VStr "abc")])]]> ∅).

(** A release without authors, last commit, last deploy or owner. *)
Definition bare_release (i : Z) (v : string) : Release :=
  {| id := i; version := v; organization_id := 1;
     authors := []; last_commit_id := None; last_deploy_id := None;
     owner_id := None; for_project_id := Some 10;
     status := VInt 0; version_info := VNone; ref := VNone; url := VNone;
     date_released := VNone; date_added := VTime 10; data := VDict [];
     commit_count := VInt 0; total_deploys := VInt 0 |}.

Definition bare_batch : list Release := [bare_release 4 "4.0"; bare_release 5 "5.0"].

Definition bare_metadata_run :=
  interp Demo.answer
    (Release._get_commit_metadata Demo.digest ascii_lower Demo.row_key
       bare_batch VNone) ∅.

(** A release with a last deploy, and the deploy metadata of a batch. *)
Definition deployed_release : Release :=
  {| id := 6; version := "6.0"; organization_id := 1;
     authors := []; last_commit_id := None; last_deploy_id := Some 200;
     owner_id := None; for_project_id := None;
     status := VInt 0; version_info := VNone; ref := VNone; url := VNone;
     date_released := VNone; date_added := VTime 10; data := VDict [];
     commit_count := VInt 0; total_deploys := VInt 1 |}.

Definition deployed_batch : list Release := [deployed_release; bare_release 4 "4.0"].

Definition deploy_metadata_run :=
  interp Demo.answer
    (Release._get_deploy_metadata Demo.row_key deployed_batch VNone) ∅.

Definition project_ids_run :=
  interp Demo.answer (Release.__get_project_id_list bare_batch) ∅.

(** Every release of the batch carries the id of the project it was
    loaded for. *)
Definition all_annotated (item_list : list Release) : bool :=
  forallb (fun release => bool_decide (is_Some (for_project_id release))) item_list.

(** [AttributeError], as opposed to the errors of a subscript. *)
Definition is_attribute_error (e : exn) : bool :=
  match e with
  | AttributeError _ => true
  | _ => false
  end.

(** [q] shows the project [project] of the attributes: both are
    dictionaries, the seven fields are carried over under their camel-case
    names, and [q] has a ["healthData"] exactly when the project has a
    ["health_data"], which is [None] exactly when that is falsy. *)
Definition exposed (project q : value) : Prop :=
  exists pd qd,
    project = VDict pd /\ q = VDict qd /\
    dict_lookup "id" qd = dict_lookup "id" pd /\
    dict_lookup "slug" qd = dict_lookup "slug" pd /\
    dict_lookup "name" qd = dict_lookup "name" pd /\
    dict_lookup "newGroups" qd = dict_lookup "new_groups" pd /\
    dict_lookup "platform" qd = dict_lookup "platform" pd /\
    dict_lookup "platforms" qd = dict_lookup "platforms" pd /\
    dict_lookup "hasHealthData" qd = dict_lookup "has_health_data" pd /\
    match dict_lookup "health_data" pd with
    | Some data =>
        exists hd,
          dict_lookup "healthData" qd = Some hd /\
          (hd = VNone <-> truthy data = false) /\
          map fst qd = ["id"; "slug"; "name"; "newGroups"; "platform";
                        "platforms"; "hasHealthData"; "healthData"]
    | None =>
        map fst qd = ["id"; "slug"; "name"; "newGroups"; "platform";
                      "platforms"; "hasHealthData"]
    end.

(** Attributes with two projects, one of them with (empty) health data. *)
Definition project_attrs : list (string * value) :=
  [("owner", VNone); ("new_groups", VInt 4);
   ("projects",
    VList [VDict [("id", VInt 10); ("slug", VStr "web"); ("name", VStr "Web");
                  ("new_groups", VInt 4); ("platform", VStr "python");
                  ("platforms", VList [VStr "python"]);
                  ("has_health_data", VBool false); ("health_data", VNone)];
           VDict [("id", VInt 11); ("slug", VStr "ios"); ("name", VStr "iOS");
                  ("new_groups", VInt 0); ("platform", VNone);
                  ("platforms", VList []); ("has_health_data", VBool false)]])].

End Further.
Export Further.

(** * Properties *)

(** ** The path configuration serializer *)

(** C8: the dictionary returned for a path configuration row repeats the
    row: the ids as decimal strings, the slug, the repository name, the two
    roots and the default branch as they are. *)
Theorem path_config_serialize_matches_row :
  forall (Provider : Type) (serialize_provider : Provider -> value)
         (obj : PathConfig.RepositoryProjectPathConfig Provider) (attrs user : value),
    let d := PathConfig.serialize Provider serialize_provider obj attrs user in
    dict_lookup "id" d = Some (VStr (str_int (PathConfig.id _ obj))) /\
    dict_lookup "projectId" d = Some (VStr (str_int (PathConfig.project_id _ obj))) /\
    dict_lookup "projectSlug" d
      = Some (VStr (PathConfig.slug (PathConfig.project _ obj))) /\
    dict_lookup "repoId" d
      = Some (VStr (str_int (PathConfig.repo_id (PathConfig.repository _ obj)))) /\
    dict_lookup "repoName" d
      = Some (VStr (PathConfig.name (PathConfig.repository _ obj))) /\
    dict_lookup "integrationId" d
      = Some (VStr (str_int (PathConfig.integration_id _
           (PathConfig.integration _ (PathConfig.organization_integration _ obj))))) /\
    dict_lookup "stackRoot" d = Some (PathConfig.stack_root _ obj) /\
    dict_lookup "sourceRoot" d = Some (PathConfig.source_root _ obj) /\
    dict_lookup "defaultBranch" d = Some (PathConfig.default_branch _ obj).
Proof.
  intros Provider serialize_provider obj attrs user d.
  subst d. unfold PathConfig.serialize.
  repeat split; reflexivity.
Qed.

(** ** The cache key *)

Lemma ascii_lower_char_idem c :
  ascii_lower_char (ascii_lower_char c) = ascii_lower_char c.
Proof.
  destruct c as [[] [] [] [] [] [] [] []]; reflexivity.
Qed.

Lemma ascii_lower_idem s : ascii_lower (ascii_lower s) = ascii_lower s.
Proof.
  induction s as [|c s IH]; simpl; [reflexivity|].
  now rewrite ascii_lower_char_idem, IH.
Qed.

(** C2: the cache key is the fixed prefix, the organization id in decimal,
    a colon and the MD5 hex digest of the lower-cased address; as
    [str.lower] absorbs ASCII case folding, two authors whose addresses
    differ only in ASCII case get the same key. *)
Theorem user_to_author_cache_key_shape :
  forall (md5_hexdigest str_lower : string -> string),
    (forall organization_id author,
        Release._user_to_author_cache_key md5_hexdigest str_lower
          organization_id author
        = "get_users_for_authors:" +:+ str_int organization_id +:+ ":"
            +:+ md5_hexdigest (str_lower (email author))) /\
    ((forall s, str_lower (ascii_lower s) = str_lower s) ->
     forall organization_id a1 a2,
       ascii_lower (email a1) = ascii_lower (email a2) ->
       Release._user_to_author_cache_key md5_hexdigest str_lower organization_id a1
       = Release._user_to_author_cache_key md5_hexdigest str_lower organization_id a2).
Proof.
  intros md5_hexdigest str_lower. split.
  - reflexivity.
  - intros Hlower organization_id a1 a2 Hcase.
    unfold Release._user_to_author_cache_key.
    rewrite <- (Hlower (email a1)), <- (Hlower (email a2)), Hcase.
    reflexivity.
Qed.

(** ** Runs of programs *)

Section Runs.

Context {A B : Type}.

Lemma run_ret_inv (a : A) tr r : run (Ret a) tr r -> tr = [] /\ r = Ok a.
Proof. exact (fun H => H). Qed.

Lemma run_call_inv {X} (e : event X) tr r :
  run (call e) tr r -> exists x, tr = [Answer e x] /\ r = Ok x.
Proof.
  intros (x & t & -> & -> & ->). now exists x.
Qed.

Lemma run_bind_call_inv {X} (e : event X) (f : X -> prog B) tr r :
  run (bind (call e) f) tr r -> exists x t, tr = Answer e x :: t /\ run (f x) t r.
Proof. exact (fun H => H). Qed.

Lemma run_lift_inv (x : result A) tr r : run (lift x) tr r -> tr = [] /\ r = x.
Proof. destruct x; simpl; intros [-> ->]; auto. Qed.

Lemma run_bind_inv (p : prog A) (f : A -> prog B) tr r :
  run (bind p f) tr r ->
  (exists a t1 t2, tr = (t1 ++ t2)%list /\ run p t1 (Ok a) /\ run (f a) t2 r)
  \/ (exists e, run p tr (Err e) /\ r = Err e).
Proof.
  revert tr. induction p as [a|e|X e k IH]; simpl; intros tr H.
  - left. exists a, [], tr. auto.
  - right. destruct H as [-> ->]. exists e. auto.
  - destruct H as (x & t & -> & H).
    destruct (IH x t H) as [(a & t1 & t2 & -> & H1 & H2)|(e' & H1 & ->)].
    + left. exists a, (Answer e x :: t1), t2. repeat split; eauto.
    + right. exists e'. split; eauto.
Qed.

Lemma run_bind_ok (p : prog A) (f : A -> prog B) a t1 t2 r :
  run p t1 (Ok a) -> run (f a) t2 r -> run (bind p f) (t1 ++ t2)%list r.
Proof.
  revert t1. induction p as [a'|e|X e k IH]; simpl; intros t1 H1 H2.
  - destruct H1 as [-> [= ->]]. exact H2.
  - destruct H1 as [_ [=]].
  - destruct H1 as (x & t & -> & H1). exists x, (t ++ t2)%list. split; eauto.
Qed.

Lemma run_bind_err (p : prog A) (f : A -> prog B) tr e :
  run p tr (Err e) -> run (bind p f) tr (Err e).
Proof.
  revert tr. induction p as [a'|e'|X e' k IH]; simpl; intros tr H.
  - destruct H as [_ [=]].
  - destruct H as [-> [= ->]]. split; reflexivity.
  - destruct H as (x & t & -> & H). exists x, t. split; eauto.
Qed.

(** Whatever the collaborators answer, the program has a run: the one
    [interp] computes. *)
Lemma interp_run {S} (h : handler S) (p : prog A) (s : S) :
  run p (snd (interp h p s)) (fst (fst (interp h p s))).
Proof.
  revert s. induction p as [a|e|X e k IH]; simpl; intros s; auto.
  destruct (h X e s) as [x s1] eqn:Hh.
  specialize (IH x s1). destruct (interp h (k x) s1) as [[r s2] tr].
  simpl in *. eauto.
Qed.

End Runs.

Section Returns.

Context {A B : Type}.

Lemma returns_ret (a : A) : returns (Ret a).
Proof. intros tr r [_ ->]. eauto. Qed.

Lemma returns_call {X} (e : event X) : returns (call e).
Proof. intros tr r H. apply run_call_inv in H as (x & _ & ->). eauto. Qed.

Lemma returns_bind (p : prog A) (f : A -> prog B) :
  returns p -> (forall a, returns (f a)) -> returns (bind p f).
Proof.
  intros Hp Hf tr r H. apply run_bind_inv in H.
  destruct H as [(a & t1 & t2 & _ & _ & H)|(e & H & ->)].
  - exact (Hf a t2 r H).
  - destruct (Hp tr _ H) as [a [=]].
Qed.

End Returns.

(** Walks through a program that only calls collaborators and computes. *)
Ltac returns_step :=
  first
    [ apply returns_ret
    | apply returns_call
    | apply returns_bind; [|intros ?]
    | match goal with
      | |- returns (match ?x with _ => _ end) => destruct x
      end ].

(** ** First and last sightings *)

Section Seen.

Lemma min_of_snoc l x :
  min_of (l ++ [x]) = Some (match min_of l with Some a => Z.min x a | None => x end).
Proof. unfold min_of. now rewrite fold_left_app. Qed.

Lemma max_of_snoc l x :
  max_of (l ++ [x]) = Some (match max_of l with Some a => Z.max x a | None => x end).
Proof. unfold max_of. now rewrite fold_left_app. Qed.

Lemma min_of_None l : min_of l = None -> l = [].
Proof.
  destruct l as [|x l] using rev_ind; [reflexivity|].
  rewrite min_of_snoc. discriminate.
Qed.

Lemma max_of_None l : max_of l = None -> l = [].
Proof.
  destruct l as [|x l] using rev_ind; [reflexivity|].
  rewrite max_of_snoc. discriminate.
Qed.

Lemma min_of_spec l m : min_of l = Some m <-> is_minimum m l.
Proof.
  revert m. induction l as [|x l IH] using rev_ind; intros m.
  - split; [discriminate|]. intros [[] _].
  - rewrite min_of_snoc. unfold is_minimum in *.
    rewrite in_app_iff, Forall_app, Forall_singleton. simpl.
    destruct (min_of l) as [a|] eqn:Ha.
    + destruct (proj1 (IH a) eq_refl) as [Hin Hle].
      split.
      * intros [= <-]. split.
        -- destruct (Z.min_spec x a) as [[_ ->]|[_ ->]]; auto.
        -- split; [|lia].
           eapply Forall_impl; [exact Hle|]. simpl. intros; lia.
      * intros [Hm [Hall Hmx]]. f_equal.
        destruct Hm as [Hm|[->|[]]].
        -- assert (min_of l = Some m) as Hm'.
           { rewrite Ha. apply IH. split; assumption. }
           rewrite Ha in Hm'. injection Hm' as ->. lia.
        -- rewrite Forall_forall in Hall.
           specialize (Hall a (proj2 (list_elem_of_In _ _) Hin)). lia.
    + apply min_of_None in Ha. subst l. simpl.
      split.
      * intros [= <-]. repeat split; auto. lia.
      * intros [[[]|[->|[]]] _]. reflexivity.
Qed.

Lemma max_of_spec l m : max_of l = Some m <-> is_maximum m l.
Proof.
  revert m. induction l as [|x l IH] using rev_ind; intros m.
  - split; [discriminate|]. intros [[] _].
  - rewrite max_of_snoc. unfold is_maximum in *.
    rewrite in_app_iff, Forall_app, Forall_singleton. simpl.
    destruct (max_of l) as [a|] eqn:Ha.
    + destruct (proj1 (IH a) eq_refl) as [Hin Hle].
      split.
      * intros [= <-]. split.
        -- destruct (Z.max_spec x a) as [[_ ->]|[_ ->]]; auto.
        -- split; [|lia].
           eapply Forall_impl; [exact Hle|]. simpl. intros; lia.
      * intros [Hm [Hall Hmx]]. f_equal.
        destruct Hm as [Hm|[->|[]]].
        -- assert (max_of l = Some m) as Hm'.
           { rewrite Ha. apply IH. split; assumption. }
           rewrite Ha in Hm'. injection Hm' as ->. lia.
        -- rewrite Forall_forall in Hall.
           specialize (Hall a (proj2 (list_elem_of_In _ _) Hin)). lia.
    + apply max_of_None in Ha. subst l. simpl.
      split.
      * intros [= <-]. repeat split; auto. lia.
      * intros [[[]|[->|[]]] _]. reflexivity.
Qed.

End Seen.

Section SeenLoops.

Lemma eqb_key (a b : string) : String.eqb a b = true <-> a = b.
Proof. apply String.eqb_eq. Qed.

Lemma seen_of_tag_values_snoc tvs tv :
  Release.seen_of_tag_values (tvs ++ [tv])
  = (<[tv_value tv :=
         match fst (Release.seen_of_tag_values tvs) !! tv_value tv with
         | Some f => Z.min (tv_first_seen tv) f
         | None => tv_first_seen tv
         end]> (fst (Release.seen_of_tag_values tvs)),
     <[tv_value tv :=
         match snd (Release.seen_of_tag_values tvs) !! tv_value tv with
         | Some f => Z.max (tv_last_seen tv) f
         | None => tv_last_seen tv
         end]> (snd (Release.seen_of_tag_values tvs))).
Proof.
  unfold Release.seen_of_tag_values. rewrite fold_left_app. simpl.
  now destruct (fold_left _ tvs _).
Qed.

Lemma seen_of_tag_values_lookup tvs v :
  fst (Release.seen_of_tag_values tvs) !! v = min_of (first_seen_of v tvs) /\
  snd (Release.seen_of_tag_values tvs) !! v = max_of (last_seen_of v tvs).
Proof.
  induction tvs as [|tv tvs [IH1 IH2]] using rev_ind.
  - split; apply lookup_empty.
  - rewrite seen_of_tag_values_snoc. simpl.
    unfold first_seen_of, last_seen_of in *.
    rewrite !List.filter_app, !map_app. simpl.
    destruct (String.eqb (tv_value tv) v) eqn:E.
    + apply eqb_key in E. subst v. simpl.
      rewrite min_of_snoc, max_of_snoc, <- IH1, <- IH2.
      rewrite !lookup_insert_eq. auto.
    + assert (tv_value tv <> v) as Hne.
      { intros Heq. apply eqb_key in Heq. congruence. }
      simpl. rewrite !app_nil_r, !lookup_insert_ne by exact Hne. auto.
Qed.

Lemma seen_of_environments_snoc rows r :
  Release.seen_of_environments (rows ++ [r])
  = (let first_seen := fst (Release.seen_of_environments rows) in
     match first_seen !! rpe_release_version r with
     | None => <[rpe_release_version r := rpe_first_seen r]> first_seen
     | Some seen =>
         if Z.ltb (rpe_first_seen r) seen
         then <[rpe_release_version r := rpe_first_seen r]> first_seen
         else first_seen
     end,
     let last_seen := snd (Release.seen_of_environments rows) in
     match last_seen !! rpe_release_version r with
     | None => <[rpe_release_version r := rpe_last_seen r]> last_seen
     | Some seen =>
         if Z.ltb seen (rpe_last_seen r)
         then <[rpe_release_version r := rpe_last_seen r]> last_seen
         else last_seen
     end).
Proof.
  unfold Release.seen_of_environments. rewrite fold_left_app. simpl.
  now destruct (fold_left _ rows _).
Qed.

Lemma seen_of_environments_lookup rows v :
  fst (Release.seen_of_environments rows) !! v = min_of (env_first_seen_of v rows) /\
  snd (Release.seen_of_environments rows) !! v = max_of (env_last_seen_of v rows).
Proof.
  induction rows as [|r rows [IH1 IH2]] using rev_ind.
  - split; apply lookup_empty.
  - rewrite seen_of_environments_snoc. simpl.
    unfold env_first_seen_of, env_last_seen_of in *.
    rewrite !List.filter_app, !map_app. simpl.
    destruct (String.eqb (rpe_release_version r) v) eqn:E.
    + apply eqb_key in E. subst v. simpl.
      rewrite min_of_snoc, max_of_snoc, <- IH1, <- IH2.
      split.
      * destruct (fst _ !! _) as [a|] eqn:Ha.
        -- destruct (Z.ltb_spec (rpe_first_seen r) a).
           ++ rewrite lookup_insert_eq. f_equal. lia.
           ++ rewrite Ha. f_equal. lia.
        -- now rewrite lookup_insert_eq.
      * destruct (snd _ !! _) as [a|] eqn:Ha.
        -- destruct (Z.ltb_spec a (rpe_last_seen r)).
           ++ rewrite lookup_insert_eq. f_equal. lia.
           ++ rewrite Ha. f_equal. lia.
        -- now rewrite lookup_insert_eq.
    + assert (rpe_release_version r <> v) as Hne.
      { intros Heq. apply eqb_key in Heq. congruence. }
      simpl. rewrite !app_nil_r.
      split.
      * destruct (fst _ !! rpe_release_version r) as [a|];
          [destruct (Z.ltb _ _)|]; rewrite ?lookup_insert_ne by exact Hne; auto.
      * destruct (snd _ !! rpe_release_version r) as [a|];
          [destruct (Z.ltb _ _)|]; rewrite ?lookup_insert_ne by exact Hne; auto.
Qed.

End SeenLoops.

(** Inversion of the run of a sequence, one collaborator call at a time. *)
Tactic Notation "run_bind" hyp(H) "as" ident(a) ident(Ha) :=
  let t1 := fresh "t" in let t2 := fresh "t" in let e := fresh "e" in
  apply run_bind_inv in H;
  destruct H as [(a & t1 & t2 & -> & Ha & H)|(e & H & [=])].

Tactic Notation "run_bind_call" hyp(H) "as" ident(x) :=
  let t := fresh "t" in
  apply run_bind_call_inv in H; destruct H as (x & t & -> & H).

Tactic Notation "run_call" hyp(H) "as" ident(x) :=
  apply run_call_inv in H; destruct H as (x & -> & [= ->]).

(** C1: the two release-data helpers always return, and the first-seen
    and last-seen maps they return hold, for every tag value (release
    version), the least first sighting and the greatest last sighting among
    the rows the tagstore (the environment query) returned for it, and
    nothing for a version without rows. *)
Theorem release_data_min_max_aggregation :
  (forall project item_list,
      returns (Release.__get_release_data_no_environment project item_list) /\
      forall tr first_seen last_seen counts,
        run (Release.__get_release_data_no_environment project item_list) tr
          (Ok (first_seen, last_seen, counts)) ->
        exists project_ids tag_values,
          In (Answer (GetReleaseTags project_ids (map version item_list)) tag_values)
            tr /\
          forall v m,
            (first_seen !! v = Some m <-> is_minimum m (first_seen_of v tag_values)) /\
            (last_seen !! v = Some m <-> is_maximum m (last_seen_of v tag_values))) /\
  (forall project item_list environments,
      returns (Release.__get_release_data_with_environments project item_list
                 environments) /\
      forall tr first_seen last_seen counts,
        run (Release.__get_release_data_with_environments project item_list
               environments) tr (Ok (first_seen, last_seen, counts)) ->
        exists rows,
          In (Answer (QueryReleaseProjectEnvironment
                        (map id item_list) environments project) rows) tr /\
          forall v m,
            (first_seen !! v = Some m <-> is_minimum m (env_first_seen_of v rows)) /\
            (last_seen !! v = Some m <-> is_maximum m (env_last_seen_of v rows))).
Proof.
  split.
  - intros project item_list. split.
    { unfold Release.__get_release_data_no_environment,
        Release.__get_project_id_list.
      repeat returns_step. }
    intros tr first_seen last_seen counts H.
    unfold Release.__get_release_data_no_environment in H.
    run_bind H as ids Hids. destruct ids as [project_ids specialized].
    run_bind H as tvs Htvs. run_call Htvs as tag_values.
    destruct (Release.seen_of_tag_values tag_values) as [fs ls] eqn:Hseen.
    run_bind H as gc Hgc. destruct H as [-> [= <- <- <-]].
    exists project_ids, tag_values. split.
    + rewrite !in_app_iff. right. left. left. reflexivity.
    + intros v m.
      destruct (seen_of_tag_values_lookup tag_values v) as [Hf Hl].
      rewrite Hseen in Hf, Hl. simpl in Hf, Hl.
      rewrite Hf, Hl, min_of_spec, max_of_spec. tauto.
  - intros project item_list environments. split.
    { unfold Release.__get_release_data_with_environments.
      repeat returns_step. }
    intros tr first_seen last_seen counts H.
    unfold Release.__get_release_data_with_environments in H.
    run_bind H as rows Hrows. run_call Hrows as rows'.
    destruct (Release.seen_of_environments rows') as [fs ls] eqn:Hseen.
    run_bind H as sums Hsums. run_call Hsums as sums'.
    destruct H as [-> [= Hfs Hls _]]. subst fs ls.
    exists rows'. split.
    + left. reflexivity.
    + intros v m.
      destruct (seen_of_environments_lookup rows' v) as [Hf Hl].
      rewrite Hseen in Hf, Hl. simpl in Hf, Hl.
      rewrite Hf, Hl, min_of_spec, max_of_spec. tauto.
Qed.

(** ** The release serializer *)

Section Serialize.

Variable ReleaseStatus_to_string : value -> value.

(** Splits the next subscript of a chain of bindings. *)
Ltac next_rbind :=
  match goal with
  | H : context [rbind ?r _] |- _ =>
      let E := fresh "E" in destruct r eqn:E; simpl in H; try discriminate H
  end.

Lemma expose_version_info_None info vi :
  Release.expose_version_info info = Ok vi -> (vi = VNone <-> info = VNone).
Proof.
  unfold Release.expose_version_info.
  destruct info; intros H;
    try (injection H as <-; tauto);
    repeat next_rbind;
    try (destruct (truthy _); repeat next_rbind);
    injection H as <-; split; discriminate.
Qed.

Lemma has_keys_getitem keys v k :
  has_keys keys v = true -> In k keys -> exists x, getitem v k = Ok x.
Proof.
  destruct v; simpl; try discriminate.
  rewrite forallb_forall. intros H Hin. specialize (H k Hin).
  apply bool_decide_eq_true in H. destruct H as [x Hx].
  exists x. now rewrite Hx.
Qed.

(** Consumes the next subscript, which [Hk] shows to be present. *)
Ltac use_key Hk k :=
  let x := fresh "x" in let E := fresh "E" in
  destruct (has_keys_getitem _ _ k Hk) as [x E]; [simpl; tauto|];
  rewrite E; cbn [rbind].

Lemma expose_version_info_total info :
  well_formed_version_info info = true ->
  exists vi, Release.expose_version_info info = Ok vi.
Proof.
  destruct info as [| | | | | |d]; try discriminate.
  - intros _. eexists. reflexivity.
  - intros H. apply andb_prop in H as [Hk Hp].
    unfold Release.expose_version_info.
    use_key Hk "version_raw".
    destruct (dict_lookup "version_parsed" d) as [parsed|] eqn:Hparsed;
      [|discriminate].
    replace (getitem (VDict d) "version_parsed") with (Ok parsed)
      by (simpl; now rewrite Hparsed).
    cbn [rbind].
    destruct (truthy parsed) eqn:Ht; simpl in Hp; cbn [rbind].
    + use_key Hp "major". use_key Hp "minor". use_key Hp "patch".
      use_key Hp "pre". use_key Hp "build_code". use_key Hp "components".
      use_key Hk "package". use_key Hk "description". use_key Hk "build_hash".
      eexists. reflexivity.
    + use_key Hk "package". use_key Hk "description". use_key Hk "build_hash".
      eexists. reflexivity.
Qed.

Lemma expose_health_data_total data :
  well_formed_health_data data = true ->
  exists x, Release.expose_health_data data = Ok x.
Proof.
  unfold well_formed_health_data, Release.expose_health_data.
  destruct (truthy data) eqn:Ht; cbn [negb orb]; intros Hk.
  - use_key Hk "duration_p50". use_key Hk "duration_p90".
    use_key Hk "crash_free_users". use_key Hk "crash_free_sessions".
    use_key Hk "sessions_crashed". use_key Hk "sessions_errored".
    use_key Hk "total_users". use_key Hk "total_users_24h".
    use_key Hk "total_sessions". use_key Hk "total_sessions_24h".
    use_key Hk "adoption".
    destruct data; try discriminate Hk. cbn [get_method rbind].
    use_key Hk "has_health_data".
    eexists. reflexivity.
  - eexists. reflexivity.
Qed.

Lemma expose_project_total project :
  well_formed_project project = true ->
  exists x, Release.expose_project project = Ok x.
Proof.
  destruct project as [| | | | | |d]; try discriminate.
  intros H. apply andb_prop in H as [Hk Hd].
  unfold Release.expose_project.
  use_key Hk "id". use_key Hk "slug". use_key Hk "name". use_key Hk "new_groups".
  use_key Hk "platform". use_key Hk "platforms". use_key Hk "has_health_data".
  destruct (dict_lookup "health_data" d) as [data|].
  - destruct (expose_health_data_total data Hd) as [hd ->]. cbn [rbind].
    eexists. reflexivity.
  - eexists. reflexivity.
Qed.

Lemma rmap_total {A B} (f : A -> result B) l :
  (forall x, In x l -> exists y, f x = Ok y) -> exists ys, rmap f l = Ok ys.
Proof.
  induction l as [|x l IH]; simpl; intros H.
  - eexists. reflexivity.
  - destruct (H x) as [y ->]; [auto|].
    destruct IH as [ys ->]; [auto|].
    simpl. eexists. reflexivity.
Qed.

(** C4: whatever dictionary [serialize] returns for a release repeats the
    row: the version under two keys, the ref, the url, both dates, the
    commit and deploy counts, [attrs["new_groups"]], and a version info
    that is [None] exactly when the row's is; and it does return one when
    the version info and the attributes have the keys it subscripts. *)
Theorem release_serialize_reshapes_row :
  forall (obj : Release) (attrs : list (string * value)) (user : value),
    (forall d,
        Release.serialize ReleaseStatus_to_string obj attrs user = Ok d ->
        dict_lookup "version" d = Some (VStr (version obj)) /\
        dict_lookup "shortVersion" d = Some (VStr (version obj)) /\
        dict_lookup "ref" d = Some (ref obj) /\
        dict_lookup "url" d = Some (url obj) /\
        dict_lookup "dateReleased" d = Some (date_released obj) /\
        dict_lookup "dateCreated" d = Some (date_added obj) /\
        dict_lookup "commitCount" d = Some (commit_count obj) /\
        dict_lookup "deployCount" d = Some (total_deploys obj) /\
        (exists n, dict_lookup "new_groups" attrs = Some n /\
                   dict_lookup "newGroups" d = Some n) /\
        (dict_lookup "versionInfo" d = Some VNone <-> version_info obj = VNone)) /\
    (well_formed_version_info (version_info obj) = true ->
     well_formed_attrs attrs = true ->
     exists d, Release.serialize ReleaseStatus_to_string obj attrs user = Ok d).
Proof.
  intros obj attrs user. split.
  - intros d H. unfold Release.serialize in H.
    destruct (Release.expose_version_info (version_info obj)) as [vi|] eqn:Hvi;
      [|discriminate H].
    cbn [rbind] in H.
    assert (exists n, dict_lookup "new_groups" attrs = Some n /\
                      getitem (VDict attrs) "new_groups" = Ok n) as (n & Hn & En).
    { simpl in *. destruct (dict_lookup "new_groups" attrs) as [n|];
        [eauto|discriminate H]. }
    rewrite En in H. cbn [rbind] in H.
    repeat next_rbind.
    injection H as <-.
    repeat split; try reflexivity.
    + exists n. split; [exact Hn|reflexivity].
    + intros [= ->]. now apply (expose_version_info_None _ _ Hvi).
    + intros Hnone. apply (expose_version_info_None _ _ Hvi) in Hnone.
      subst vi. reflexivity.
  - intros Hinfo Hattrs. unfold Release.serialize.
    destruct (expose_version_info_total _ Hinfo) as [vi ->]. cbn [rbind].
    unfold well_formed_attrs in Hattrs.
    apply andb_prop in Hattrs as [Hattrs Hprojects].
    apply andb_prop in Hattrs as [Hng Howner].
    apply bool_decide_eq_true in Hng as [n Hn].
    apply bool_decide_eq_true in Howner as [o Ho].
    replace (getitem (VDict attrs) "new_groups") with (Ok n)
      by (simpl; now rewrite Hn).
    replace (getitem (VDict attrs) "owner") with (Ok o)
      by (simpl; now rewrite Ho).
    cbn [rbind].
    destruct (iterate _) as [projects|]; [|discriminate]. cbn [rbind].
    destruct (rmap_total Release.expose_project projects) as [ps ->].
    { intros x Hx. apply expose_project_total.
      rewrite forallb_forall in Hprojects. auto. }
    cbn [rbind]. eexists. reflexivity.
Qed.

End Serialize.

(** ** Author resolution *)

Section Authors.

Variable md5_hexdigest : string -> string.
Variable str_lower : string -> string.

Abbreviation cache_key := (Release._user_to_author_cache_key md5_hexdigest str_lower).
Abbreviation get_users_for_authors :=
  (Release.get_users_for_authors md5_hexdigest str_lower).

(** Every run of [get_users_for_authors] has one of three shapes: all
    authors cached; users looked up but their serialization has no usable
    id; users looked up and the cache refreshed. *)
Lemma get_users_for_authors_runs organization_id authors user tr r :
  run (get_users_for_authors organization_id authors user) tr r ->
  exists fetched results missed,
    (if bool_decide (fetched = ∅) then (∅, authors)
     else Release.partition_fetched md5_hexdigest str_lower
            organization_id fetched authors) = (results, missed) /\
    let read := Answer (CacheGetMany (map (cache_key organization_id) authors))
                  fetched in
    ((missed = [] /\ r = Ok results /\
      tr = [read;
            Answer (MetricsIncr "sentry.release.get_users_for_authors.missed" 0) ();
            Answer (MetricsIncr "sentry.tasks.process_suspect_commits.total"
                      (size results)) ()])
     \/
     (missed <> [] /\
      exists user_emails rows users,
        let lookups :=
          [read;
           Answer (QueryUserEmail (map email missed)) user_emails;
           Answer (QueryUser (list_to_set (map ue_user_id user_emails))
                     organization_id) rows;
           Answer (Serialize rows user) users] in
        (exists e, Release.index_by_id users = Err e /\ r = Err e /\ tr = lookups)
        \/
        (exists users_by_id results' to_cache,
            Release.index_by_id users = Ok users_by_id /\
            Release.resolve_missed md5_hexdigest str_lower organization_id
              (Release.match_emails str_lower users_by_id user_emails)
              missed results = (results', to_cache) /\
            r = Ok results' /\
            tr = (lookups ++
                  [Answer (CacheSetMany to_cache) ();
                   Answer (MetricsIncr "sentry.release.get_users_for_authors.missed"
                             (length missed)) ();
                   Answer (MetricsIncr "sentry.tasks.process_suspect_commits.total"
                             (size results')) ()])%list))).
Proof.
  unfold Release.get_users_for_authors. intros H.
  run_bind_call H as fetched'.
  destruct (if bool_decide (fetched' = ∅) then _ else _) as [results missed] eqn:Hpart.
  exists fetched', results, missed. split; [exact Hpart|].
  destruct missed as [|author missed].
  - left. simpl in H. destruct H as (u1 & t1 & -> & u2 & t2 & -> & -> & ->).
    destruct u1, u2. auto.
  - right. split; [discriminate|].
    simpl in H.
    destruct H as (user_emails & t1 & -> & rows & t2 & -> & users & t3 & -> & H).
    exists user_emails, rows, users.
    destruct (Release.index_by_id users) as [users_by_id|e] eqn:Hidx; simpl in H.
    + right.
      destruct (Release.resolve_missed _ _ _ _ _ _) as [results' to_cache] eqn:Hres.
      simpl in H. destruct H as (u0 & t0 & -> & u1 & t1 & -> & u2 & t2 & -> & -> & ->).
      destruct u0, u1, u2.
      exists users_by_id, results', to_cache. auto.
    + left. destruct H as [-> ->]. exists e. auto.
Qed.

Lemma partition_fetched_snoc organization_id (fetched : gmap string value)
    authors author :
  Release.partition_fetched md5_hexdigest str_lower organization_id fetched
    (authors ++ [author])
  = let '(results, missed) :=
      Release.partition_fetched md5_hexdigest str_lower organization_id fetched
        authors in
    match fetched !! cache_key organization_id author with
    | None | Some VNone => (results, (missed ++ [author])%list)
    | Some fetched_user =>
        (<[str_int (author_id author) := fetched_user]> results, missed)
    end.
Proof.
  unfold Release.partition_fetched. rewrite fold_left_app. simpl.
  now destruct (fold_left _ authors _).
Qed.



Lemma resolve_missed_snoc organization_id (users_by_email results : gmap string value)
    missed author :
  Release.resolve_missed md5_hexdigest str_lower organization_id users_by_email
    (missed ++ [author]) results
  = let '(results1, to_cache) :=
      Release.resolve_missed md5_hexdigest str_lower organization_id users_by_email
        missed results in
    let v := default (Release.author_fallback author)
               (users_by_email !! str_lower (email author)) in
    (<[str_int (author_id author) := v]> results1,
     <[cache_key organization_id author := v]> to_cache).
Proof.
  unfold Release.resolve_missed. rewrite fold_left_app. simpl.
  now destruct (fold_left _ missed _).
Qed.


Lemma match_emails_snoc (users_by_id : gmap string value) user_emails ue :
  Release.match_emails str_lower users_by_id (user_emails ++ [ue])
  = let users_by_email := Release.match_emails str_lower users_by_id user_emails in
    match users_by_email !! str_lower (ue_email ue) with
    | Some _ => users_by_email
    | None =>
        match users_by_id !! str_int (ue_user_id ue) with
        | Some user =>
            if truthy user then <[str_lower (ue_email ue) := user]> users_by_email
            else users_by_email
        | None => users_by_email
        end
    end.
Proof.
  unfold Release.match_emails. now rewrite fold_left_app.
Qed.

(** An address is matched exactly when one of the e-mail rows carries it
    (up to case) and the user of that row is among the serialized ones. *)
Lemma match_emails_spec (users_by_id : gmap string value) user_emails lower_email :
  match Release.match_emails str_lower users_by_id user_emails !! lower_email with
  | Some user =>
      exists ue, In ue user_emails /\ str_lower (ue_email ue) = lower_email /\
                 users_by_id !! str_int (ue_user_id ue) = Some user /\
                 truthy user = true
  | None =>
      forall ue user, In ue user_emails -> str_lower (ue_email ue) = lower_email ->
                      users_by_id !! str_int (ue_user_id ue) = Some user ->
                      truthy user = false
  end.
Proof.
  induction user_emails as [|ue user_emails IH] using rev_ind.
  - unfold Release.match_emails. simpl. rewrite lookup_empty. intros ue user [].
  - rewrite match_emails_snoc. cbv zeta.
    set (m := Release.match_emails str_lower users_by_id user_emails) in *.
    assert (match m !! lower_email with
            | Some user =>
                exists ue0, In ue0 (user_emails ++ [ue]) /\
                  str_lower (ue_email ue0) = lower_email /\
                  users_by_id !! str_int (ue_user_id ue0) = Some user /\
                  truthy user = true
            | None => True
            end) as Hkeep.
    { destruct (m !! lower_email); [|exact I].
      destruct IH as (ue0 & ? & ? & ? & ?). exists ue0. rewrite in_app_iff. auto. }
    destruct (decide (str_lower (ue_email ue) = lower_email)) as [Heq|Hne].
    + subst lower_email.
      destruct (m !! str_lower (ue_email ue)) as [u|] eqn:Hm.
      * rewrite Hm. exact Hkeep.
      * destruct (users_by_id !! str_int (ue_user_id ue)) as [user|] eqn:Hu.
        -- destruct (truthy user) eqn:Ht.
           ++ rewrite lookup_insert_eq. exists ue. rewrite in_app_iff. simpl. auto.
           ++ rewrite Hm. intros ue0 user0 Hin Hl Hid.
              apply in_app_iff in Hin as [Hin|[<-|[]]]; [eauto|congruence].
        -- rewrite Hm. intros ue0 user0 Hin Hl Hid.
           apply in_app_iff in Hin as [Hin|[<-|[]]]; [eauto|congruence].
    + assert (forall m' : gmap string value,
                (m' = m \/ exists u, m' = <[str_lower (ue_email ue) := u]> m) ->
                m' !! lower_email = m !! lower_email) as Hsame.
      { intros m' [->|[u ->]]; [reflexivity|now rewrite lookup_insert_ne]. }
      match goal with
      | |- match ?m' !! _ with _ => _ end =>
          rewrite (Hsame m')
      end.
      * destruct (m !! lower_email) as [u|] eqn:Hm; [exact Hkeep|].
        intros ue0 user0 Hin Hl Hid.
        apply in_app_iff in Hin as [Hin|[<-|[]]]; [eauto|congruence].
      * destruct (m !! str_lower (ue_email ue)); [auto|].
        destruct (users_by_id !! _); [|auto].
        destruct (truthy _); eauto.
Qed.

Lemma rfold_snoc {A S} (f : S -> A -> result S) l x s :
  rfold f (l ++ [x]) s = rbind (rfold f l s) (fun s' => f s' x).
Proof.
  revert s. induction l as [|y l IH]; simpl; intros s.
  - now destruct (f s x).
  - destruct (f s y); simpl; auto.
Qed.


(** The index holds serialized users under their string ids, and every
    serialized user with a string id is reachable through it. *)
Lemma index_by_id_spec users :
  forall users_by_id : gmap string value,
    Release.index_by_id users = Ok users_by_id ->
    (forall k u, users_by_id !! k = Some u ->
                 In u users /\ getitem u "id" = Ok (VStr k)) /\
    (forall k u, In u users -> getitem u "id" = Ok (VStr k) ->
                 is_Some (users_by_id !! k)).
Proof.
  unfold Release.index_by_id.
  induction users as [|user users IH] using rev_ind; intros users_by_id H.
  - injection H as <-. split.
    + intros k u Hku. now rewrite lookup_empty in Hku.
    + intros k u [].
  - rewrite rfold_snoc in H.
    destruct (rfold _ users ∅) as [acc|] eqn:Hacc; [|discriminate H].
    destruct (IH acc eq_refl) as [IH1 IH2]. cbn [rbind] in H.
    destruct (getitem user "id") as [i|] eqn:Hid; [|discriminate H].
    cbn [rbind] in H.
    assert (users_by_id = acc -> (forall k, i <> VStr k) ->
            (forall k u, users_by_id !! k = Some u ->
                         In u (users ++ [user]) /\ getitem u "id" = Ok (VStr k)) /\
            (forall k u, In u (users ++ [user]) -> getitem u "id" = Ok (VStr k) ->
                         is_Some (users_by_id !! k))) as Hskip.
    { intros -> Hi. split.
      - intros k u Hku. destruct (IH1 k u Hku). rewrite in_app_iff. auto.
      - intros k u Hin Hu. apply in_app_iff in Hin as [Hin|[<-|[]]]; [eauto|].
        rewrite Hid in Hu. injection Hu as ->. now destruct (Hi k). }
    destruct i; try discriminate H; injection H as <-;
      try (apply Hskip; [reflexivity|discriminate]).
    split.
    + intros k u Hku.
      destruct (decide (s = k)) as [->|Hne].
      * rewrite lookup_insert_eq in Hku. injection Hku as <-.
        rewrite in_app_iff. simpl. auto.
      * rewrite lookup_insert_ne in Hku by exact Hne.
        destruct (IH1 k u Hku). rewrite in_app_iff. auto.
    + intros k u Hin Hu.
      destruct (decide (s = k)) as [->|Hne].
      * rewrite lookup_insert_eq. eauto.
      * rewrite lookup_insert_ne by exact Hne.
        apply in_app_iff in Hin as [Hin|[<-|[]]]; [eauto|].
        rewrite Hid in Hu. congruence.
Qed.




(** C9: however many authors there are, a run of [get_users_for_authors]
    reads the cache in bulk once, queries the user e-mails at most once,
    queries the users at most once and writes the cache in bulk at most
    once; it makes at most seven calls in all. *)
Theorem get_users_for_authors_batches_lookups :
  forall organization_id authors user tr r,
    run (get_users_for_authors organization_id authors user) tr r ->
    (count is_cache_read tr = 1 /\
     count is_user_email_query tr <= 1 /\
     count is_user_query tr <= 1 /\
     count is_cache_write tr <= 1 /\
     length tr <= 7)%nat.
Proof.
  intros organization_id authors user tr r H.
  apply get_users_for_authors_runs in H.
  destruct H as (fetched & results & missed & _ & H). simpl in H.
  destruct H as [(_ & _ & ->)|(_ & user_emails & rows & users & H)].
  - unfold count. simpl. lia.
  - destruct H as [(e & _ & _ & ->)|(ubi & results' & to_cache & _ & _ & _ & ->)];
      unfold count; simpl; lia.
Qed.

(** *** Commit metadata *)

Context {K : Type} {K_eq_dec : EqDecision K} {K_countable : Countable K}.
Variable row_key : Release -> K.

Abbreviation _get_commit_metadata :=
  (Release._get_commit_metadata md5_hexdigest str_lower row_key).

Lemma rfold_unchanged {A S} (f : S -> A -> result S) l s :
  (forall s' x, f s' x = Ok s') -> rfold f l s = Ok s.
Proof.
  intros Hf. induction l as [|x l IH]; simpl; [reflexivity|].
  now rewrite Hf.
Qed.

Lemma item_authors_no_users item : Release.item_authors ∅ item = Ok [].
Proof.
  unfold Release.item_authors. rewrite rfold_unchanged; [reflexivity|].
  intros [item_authors seen_authors] a. now rewrite lookup_empty.
Qed.

Lemma two_organizations_not_one (item_list : list Release) i j org_id :
  In i item_list -> In j item_list -> organization_id i <> organization_id j ->
  elements (list_to_set (map organization_id item_list) : gset Z) <> [org_id].
Proof.
  intros Hi Hj Hne Hel.
  assert (forall x, In x item_list -> organization_id x = org_id) as Hall.
  { intros x Hx.
    assert (organization_id x ∈ elements
              (list_to_set (map organization_id item_list) : gset Z)) as Hin.
    { apply elem_of_elements, elem_of_list_to_set, list_elem_of_In.
      now apply in_map. }
    rewrite Hel in Hin. now apply list_elem_of_singleton in Hin. }
  rewrite (Hall i Hi), (Hall j Hj) in Hne. now apply Hne.
Qed.

Lemma commit_metadata_loop_no_users (commits : gmap Z value) item_list :
  exists result : gmap K (list (string * value)),
    rfold
      (fun result item =>
         rbind (Release.item_authors ∅ item) (fun item_authors =>
         Ok (<[row_key item := dict_of [
               ("authors", VList item_authors);
               ("last_commit", Release.lookup_id commits (last_commit_id item))
             ]]> result)))
      item_list ∅ = Ok result /\
    (forall k m, result !! k = Some m -> dict_lookup "authors" m = Some (VList [])) /\
    (forall item, In item item_list -> is_Some (result !! row_key item)).
Proof.
  induction item_list as [|item item_list (result & Hfold & Hall & Hdom)] using rev_ind.
  - exists ∅. split; [reflexivity|]. split.
    + intros k m Hkm. now rewrite lookup_empty in Hkm.
    + intros item [].
  - rewrite rfold_snoc, Hfold. cbn [rbind]. rewrite item_authors_no_users. cbn [rbind].
    eexists. split; [reflexivity|]. split.
    + intros k m Hkm.
      destruct (decide (row_key item = k)) as [<-|Hne].
      * rewrite lookup_insert_eq in Hkm. injection Hkm as <-. reflexivity.
      * rewrite lookup_insert_ne in Hkm by exact Hne. eauto.
    + intros item' Hin.
      destruct (decide (row_key item = row_key item')) as [->|Hne].
      * rewrite lookup_insert_eq. eauto.
      * rewrite lookup_insert_ne by exact Hne.
        apply in_app_iff in Hin as [Hin|[<-|[]]]; [auto|congruence].
Qed.

(** C7: when the releases of the batch belong to more than one
    organization, [_get_commit_metadata] asks nothing about users (no cache
    read, no e-mail query, no user query) and returns, for every release
    of the batch, metadata whose ["authors"] is the empty list. *)
Theorem commit_metadata_no_authors_across_organizations :
  forall item_list user tr r,
    run (_get_commit_metadata item_list user) tr r ->
    (exists i j, In i item_list /\ In j item_list /\
                 organization_id i <> organization_id j) ->
    Forall (fun c => is_cache_read c = false /\
                     is_user_email_query c = false /\
                     is_user_query c = false) tr /\
    exists result,
      r = Ok result /\
      forall item, In item item_list ->
        exists metadata,
          result !! row_key item = Some metadata /\
          dict_lookup "authors" metadata = Some (VList []).
Proof.
  intros item_list user tr r H (i & j & Hi & Hj & Hne).
  unfold Release._get_commit_metadata in H.
  apply run_bind_inv in H.
  destruct H as [(authors & t1 & t2 & -> & Hauthors & H)|(e & H & _)];
    [|destruct (bool_decide _); [destruct H as [_ [=]]|
       apply run_call_inv in H; destruct H as (? & _ & [=])]].
  assert (Forall (fun c => is_cache_read c = false /\
                           is_user_email_query c = false /\
                           is_user_query c = false) t1) as Ht1.
  { destruct (bool_decide _).
    - destruct Hauthors as [-> _]. constructor.
    - apply run_call_inv in Hauthors. destruct Hauthors as (x & -> & _).
      repeat constructor. }
  clear Hauthors.
  apply run_bind_inv in H.
  assert (forall tr' r',
            run match authors with
                | [] => Ret ∅
                | _ :: _ =>
                    match elements (list_to_set (map organization_id item_list)
                                      : gset Z) with
                    | [org_id] => get_users_for_authors org_id authors user
                    | _ => Ret ∅
                    end
                end tr' r' -> tr' = [] /\ r' = Ok ∅) as Hnone.
  { intros tr' r' Hrun. destruct authors as [|a authors]; [exact Hrun|].
    pose proof (two_organizations_not_one item_list i j) as Htwo.
    destruct (elements _) as [|o [|o' os]]; try exact Hrun.
    now destruct (Htwo o Hi Hj Hne). }
  destruct H as [(users_by_author & t3 & t4 & -> & Husers & H)|(e & H & _)];
    [|apply Hnone in H; destruct H as [_ [=]]].
  apply Hnone in Husers. destruct Husers as [-> [= ->]].
  apply run_bind_inv in H.
  destruct H as [(commits & t5 & t6 & -> & Hcommits & H)|(e & H & _)].
  - assert (Forall (fun c => is_cache_read c = false /\
                             is_user_email_query c = false /\
                             is_user_query c = false) t5) as Ht5.
    { destruct (bool_decide _).
      - destruct Hcommits as [-> _]. constructor.
      - run_bind_call Hcommits as commit_list. run_bind_call Hcommits as serialized.
        destruct Hcommits as [-> _]. repeat constructor. }
    apply run_lift_inv in H. destruct H as [-> ->].
    destruct (commit_metadata_loop_no_users commits item_list)
      as (result & -> & Hall & Hdom).
    split.
    + rewrite app_nil_r. simpl. apply Forall_app. auto.
    + exists result. split; [reflexivity|].
      intros item Hin. destruct (Hdom item Hin) as [m Hm].
      exists m. eauto.
  - destruct (bool_decide _); [destruct H as [_ [=]]|].
    run_bind_call H as commit_list. run_bind_call H as serialized.
    destruct H as [_ [=]].
Qed.

End Authors.

(** ** Attributes of a batch *)

(** *** No other path raises the validation error *)

Lemma rclean_ok {A} (a : A) : rclean (Ok a).
Proof. discriminate. Qed.

Lemma rclean_err {A} e : e <> health_data_requires_snuba -> rclean (@Err A e).
Proof. intros He [= ->]. now apply He. Qed.

Lemma rclean_bind {A B} (r : result A) (f : A -> result B) :
  rclean r -> (forall a, rclean (f a)) -> rclean (rbind r f).
Proof.
  intros Hr Hf. destruct r as [a|e]; simpl; [apply Hf|].
  intros [= ->]. now apply Hr.
Qed.

Lemma rclean_rfold {A S} (f : S -> A -> result S) l s :
  (forall s' x, rclean (f s' x)) -> rclean (rfold f l s).
Proof.
  intros Hf. revert s. induction l as [|x l IH]; simpl; intros s.
  - apply rclean_ok.
  - apply rclean_bind; auto.
Qed.

Lemma rclean_getitem v k : rclean (getitem v k).
Proof.
  destruct v; simpl; try (apply rclean_err; discriminate).
  destruct (dict_lookup k d); [apply rclean_ok|apply rclean_err; discriminate].
Qed.

Lemma rclean_get_method v k dflt : rclean (get_method v k dflt).
Proof.
  destruct v; simpl; try (apply rclean_err; discriminate). apply rclean_ok.
Qed.

Lemma rclean_hash_key v : rclean (Release.hash_key v).
Proof.
  destruct v; simpl; try (apply rclean_err; discriminate); apply rclean_ok.
Qed.

Lemma clean_ret {A} (a : A) : clean (Ret a).
Proof. intros tr r [_ ->]. discriminate. Qed.

Lemma clean_call {X} (e : event X) : clean (call e).
Proof. intros tr r H. apply run_call_inv in H as (x & _ & ->). discriminate. Qed.

Lemma clean_lift {A} (r : result A) : rclean r -> clean (lift r).
Proof. intros Hr tr r' H. apply run_lift_inv in H as [_ ->]. exact Hr. Qed.

Lemma clean_bind {A B} (p : prog A) (f : A -> prog B) :
  clean p -> (forall a, clean (f a)) -> clean (bind p f).
Proof.
  intros Hp Hf tr r H. apply run_bind_inv in H.
  destruct H as [(a & t1 & t2 & _ & _ & H)|(e & H & ->)].
  - now apply (Hf a t2).
  - intros [= ->]. now apply (Hp tr _ H).
Qed.

(** Walks through a computation, one binding or case split at a time. *)
Ltac rclean_step :=
  first
    [ apply rclean_ok
    | apply rclean_getitem
    | apply rclean_get_method
    | apply rclean_hash_key
    | apply rclean_err; discriminate
    | apply rclean_bind; [|intros ?]
    | apply rclean_rfold; intros ? ?
    | match goal with
      | |- rclean (match ?x with _ => _ end) => destruct x
      | |- rclean (match ?x with _ => _ end _) => destruct x; cbv beta
      end ].

Ltac clean_step :=
  first
    [ apply clean_ret
    | apply clean_call
    | apply clean_lift; repeat rclean_step
    | apply clean_bind; [|intros ?]
    | match goal with
      | |- clean (match ?x with _ => _ end) => destruct x
      | |- clean (match ?x with _ => _ end _) => destruct x; cbv beta
      end ].

Section Attrs.

Variable md5_hexdigest : string -> string.
Variable str_lower : string -> string.
Context {K : Type} {K_eq_dec : EqDecision K} {K_countable : Countable K}.
Variable row_key : Release -> K.

Abbreviation get_attrs := (Release.get_attrs md5_hexdigest str_lower row_key).

Lemma get_users_for_authors_clean organization_id authors user :
  clean (Release.get_users_for_authors md5_hexdigest str_lower
           organization_id authors user).
Proof.
  unfold Release.get_users_for_authors, Release.index_by_id.
  repeat clean_step.
Qed.

Lemma _get_commit_metadata_clean item_list user :
  clean (Release._get_commit_metadata md5_hexdigest str_lower row_key item_list user).
Proof.
  unfold Release._get_commit_metadata, Release.item_authors.
  repeat first [apply get_users_for_authors_clean | clean_step].
Qed.

Lemma _get_deploy_metadata_clean item_list user :
  clean (Release._get_deploy_metadata row_key item_list user).
Proof.
  unfold Release._get_deploy_metadata. repeat clean_step.
Qed.

Lemma release_data_clean project item_list environments :
  clean match environments with
        | None => Release.__get_release_data_no_environment project item_list
        | Some environments =>
            Release.__get_release_data_with_environments project item_list
              environments
        end.
Proof.
  unfold Release.__get_release_data_no_environment,
    Release.__get_release_data_with_environments, Release.__get_project_id_list.
  repeat clean_step.
Qed.

Lemma filter_by_id_clean project_id projects :
  rclean (Release.filter_by_id project_id projects).
Proof.
  induction projects as [|x projects IH]; simpl; repeat rclean_step. exact IH.
Qed.

Lemma item_attrs_clean owners first_seen last_seen counts release_projects
    commit_metadata deploy_metadata item :
  rclean (Release.item_attrs row_key owners first_seen last_seen counts
            release_projects commit_metadata deploy_metadata item).
Proof.
  unfold Release.item_attrs, Release.sum_counts.
  repeat first [apply filter_by_id_clean | rclean_step].
Qed.

Lemma project_entry_clean platforms health pr :
  rclean (Release.project_entry platforms health pr).
Proof.
  unfold Release.project_entry. repeat rclean_step.
Qed.

(** C3: a run of [get_attrs] ends in the [TypeError] "health data
    requires snuba" exactly when [with_health_data] and [no_snuba] are
    both truthy, and then before any collaborator was called. *)
Theorem get_attrs_validation_error :
  forall item_list user kwargs tr r,
    run (get_attrs item_list user kwargs) tr r ->
    (r = Err (TypeError "health data requires snuba") <->
     truthy (with_health_data kwargs) = true /\ truthy (no_snuba kwargs) = true) /\
    (r = Err (TypeError "health data requires snuba") -> tr = []).
Proof.
  intros item_list user kwargs tr r H.
  unfold Release.get_attrs in H.
  destruct (truthy (with_health_data kwargs)) eqn:Hhealth;
    destruct (truthy (no_snuba kwargs)) eqn:Hsnuba; cbn [andb] in H;
    try (destruct H as [-> ->]; split; [split; auto|auto]);
    (assert (r <> Err health_data_requires_snuba) as Hclean;
     [|split; [split; [intros Hr; now destruct Hclean|intros [? ?]; discriminate]
              |intros Hr; now destruct Hclean]]);
    revert tr r H;
    match goal with |- forall tr r, run ?p tr r -> _ => change (clean p) end;
    repeat first
      [ apply release_data_clean
      | apply _get_commit_metadata_clean
      | apply _get_deploy_metadata_clean
      | apply clean_lift; apply rclean_rfold; intros ? ?;
        apply rclean_bind; [first [apply project_entry_clean|apply item_attrs_clean]
                           |intros ?; apply rclean_ok]
      | unfold Release.index_by_id; clean_step ].
Qed.

(** *** The last loop *)

Lemma rfold_ext {A S} (f g : S -> A -> result S) l s :
  (forall s' x, f s' x = g s' x) -> rfold f l s = rfold g l s.
Proof.
  intros Hfg. revert s. induction l as [|x l IH]; simpl; intros s; [reflexivity|].
  rewrite Hfg. destruct (g s x); simpl; auto.
Qed.

(** A loop that stores, for each row in turn, what [F] computes for it
    under the row's id. *)
Lemma keyed_loop_spec {V} (F : Release -> result V) item_list :
  forall result : gmap K V,
    rfold (fun result item =>
             rbind (F item) (fun p => Ok (<[row_key item := p]> result)))
      item_list ∅ = Ok result ->
    (forall k p, result !! k = Some p ->
       exists item, In item item_list /\ row_key item = k /\ F item = Ok p) /\
    (forall item, latest row_key item item_list ->
       exists p, F item = Ok p /\ result !! row_key item = Some p).
Proof.
  induction item_list as [|item item_list IH] using rev_ind; intros result H.
  - injection H as <-. split.
    + intros k p Hkp. now rewrite lookup_empty in Hkp.
    + intros item (before & after & Heq & _). now destruct before.
  - rewrite rfold_snoc in H.
    destruct (rfold _ item_list ∅) as [acc|] eqn:Hacc; [|discriminate H].
    destruct (IH acc eq_refl) as [IH1 IH2]. cbn [rbind] in H.
    destruct (F item) as [p|] eqn:HF; [|discriminate H].
    injection H as <-. split.
    + intros k q Hkq.
      destruct (decide (row_key item = k)) as [<-|Hne].
      * rewrite lookup_insert_eq in Hkq. injection Hkq as <-.
        exists item. rewrite in_app_iff. simpl. auto.
      * rewrite lookup_insert_ne in Hkq by exact Hne.
        destruct (IH1 k q Hkq) as (it & ? & ? & ?).
        exists it. rewrite in_app_iff. auto.
    + intros it (before & after & Heq & Hafter).
      destruct after as [|x after _] using rev_ind.
      * apply app_inj_tail in Heq as [_ <-].
        exists p. rewrite lookup_insert_eq. auto.
      * rewrite app_comm_cons, app_assoc in Heq.
        apply app_inj_tail in Heq as [-> <-].
        apply Forall_app in Hafter as [Hafter Hx].
        apply List.Forall_inv in Hx.
        destruct (IH2 it) as (q & Hq & Hlook).
        { exists before, after. auto. }
        exists q. rewrite lookup_insert_ne by exact Hx. auto.
Qed.

Lemma sum_counts_spec (counts : gmap Z (option Z)) n :
  Release.sum_counts counts = Ok n ->
  exists ns, map snd (map_to_list counts) = map Some ns /\ n = foldr Z.add 0 ns.
Proof.
  unfold Release.sum_counts.
  assert (forall (l : list (Z * option Z)) acc,
            rfold (fun acc kv =>
                     match snd kv with
                     | Some m => Ok (acc + m)
                     | None => Err (TypeError
                         "unsupported operand type(s) for +: 'int' and 'NoneType'")
                     end) l acc = Ok n ->
            exists ns, map snd l = map Some ns /\ n = acc + foldr Z.add 0 ns) as Hgen.
  { induction l as [|[k [m|]] l IH]; simpl; intros acc H.
    - injection H as <-. exists []. split; [reflexivity|simpl; lia].
    - destruct (IH _ H) as (ns & Hns & ->). exists (m :: ns).
      split; [simpl; now rewrite Hns|simpl; lia].
    - discriminate H. }
  intros H. destruct (Hgen _ _ H) as (ns & Hns & ->). exists ns. auto.
Qed.

Lemma filter_by_id_spec project_id projects kept :
  Release.filter_by_id project_id projects = Ok kept ->
  Forall (fun x => exists i, getitem x "id" = Ok i /\ eq_int i project_id = true) kept.
Proof.
  revert kept. induction projects as [|x projects IH]; simpl; intros kept H.
  - injection H as <-. constructor.
  - destruct (getitem x "id") as [i|] eqn:Hi; [|discriminate H]. cbn [rbind] in H.
    destruct (Release.filter_by_id project_id projects) as [rest|]; [|discriminate H].
    cbn [rbind] in H. injection H as <-.
    destruct (eq_int i project_id) eqn:Heq; [constructor; eauto|]; auto.
Qed.

Lemma commit_metadata_keys item_list user tr (result : gmap K (list (string * value))) :
  run (Release._get_commit_metadata md5_hexdigest str_lower row_key item_list user) tr
    (Ok result) ->
  forall k m, result !! k = Some m ->
    exists a c, m = [("authors", a); ("last_commit", c)].
Proof.
  unfold Release._get_commit_metadata. intros H.
  run_bind H as authors Hauthors. run_bind H as users_by_author Husers.
  run_bind H as commits Hcommits.
  apply run_lift_inv in H as [_ H]. symmetry in H.
  erewrite rfold_ext in H.
  - apply (keyed_loop_spec
             (fun item =>
                rbind (Release.item_authors users_by_author item) (fun item_authors =>
                Ok (dict_of [
                  ("authors", VList item_authors);
                  ("last_commit", Release.lookup_id commits (last_commit_id item))]))))
      in H.
    destruct H as [H _]. intros k m Hkm.
    destruct (H k m Hkm) as (item & _ & _ & Hm).
    destruct (Release.item_authors _ _); [|discriminate Hm].
    injection Hm as <-. eauto.
  - intros s' x. simpl. now destruct (Release.item_authors _ _).
Qed.

Lemma deploy_metadata_keys item_list user tr (result : gmap K (list (string * value))) :
  run (Release._get_deploy_metadata row_key item_list user) tr (Ok result) ->
  forall k m, result !! k = Some m -> exists d, m = [("last_deploy", d)].
Proof.
  unfold Release._get_deploy_metadata. intros H.
  run_bind H as deploys Hdeploys. destruct H as [_ [= ->]].
  clear. induction item_list as [|item item_list IH] using rev_ind; intros k m Hkm.
  - simpl in Hkm. now rewrite lookup_empty in Hkm.
  - rewrite fold_left_app in Hkm. simpl in Hkm.
    destruct (decide (row_key item = k)) as [<-|Hne].
    + rewrite lookup_insert_eq in Hkm. injection Hkm as <-. eauto.
    + rewrite lookup_insert_ne in Hkm by exact Hne. eauto.
Qed.

Lemma item_attrs_spec owners first_seen last_seen
    (counts : gmap Z (gmap Z (option Z))) release_projects
    (commit_metadata deploy_metadata : gmap K (list (string * value))) item p :
  (forall k m, commit_metadata !! k = Some m ->
     exists a c, m = [("authors", a); ("last_commit", c)]) ->
  (forall k m, deploy_metadata !! k = Some m -> exists d, m = [("last_deploy", d)]) ->
  Release.item_attrs row_key owners first_seen last_seen counts release_projects
    commit_metadata deploy_metadata item = Ok p ->
  let recorded : gmap Z (option Z) := default ∅ (counts !! id item) in
  match for_project_id item with
  | Some project_id =>
      (exists projects,
          dict_lookup "projects" p = Some (VList projects) /\
          Forall (fun x => exists i, getitem x "id" = Ok i /\
                                     eq_int i project_id = true) projects) /\
      dict_lookup "new_groups" p
        = Some (VInt (default 0 (mjoin (recorded !! project_id))))
  | None =>
      exists ns,
        map snd (map_to_list recorded) = map Some ns /\
        dict_lookup "new_groups" p = Some (VInt (foldr Z.add 0 ns))
  end.
Proof.
  intros Hcm Hdm H. unfold Release.item_attrs in H.
  destruct (for_project_id item) as [project_id|].
  - destruct (Release.filter_by_id _ _) as [kept|] eqn:Hkept; [|discriminate H].
    cbn [rbind] in H.
    destruct (match Release.truthy_id (owner_id item) with
              | Some _ => _ | None => _ end) as [owner|]; [|discriminate H].
    cbn [rbind] in H.
    destruct (commit_metadata !! row_key item) as [cm|] eqn:Ecm; [|discriminate H].
    destruct (deploy_metadata !! row_key item) as [dm|] eqn:Edm; [|discriminate H].
    destruct (Hcm _ _ Ecm) as (a & c & ->). destruct (Hdm _ _ Edm) as (d & ->).
    cbn [rbind] in H. injection H as <-.
    split; [|reflexivity].
    exists kept. split; [reflexivity|]. now apply (filter_by_id_spec project_id _ _ Hkept).
  - destruct (Release.sum_counts _) as [n|] eqn:Hn; [|discriminate H].
    cbn [rbind] in H.
    destruct (match Release.truthy_id (owner_id item) with
              | Some _ => _ | None => _ end) as [owner|]; [|discriminate H].
    cbn [rbind] in H.
    destruct (commit_metadata !! row_key item) as [cm|] eqn:Ecm; [|discriminate H].
    destruct (deploy_metadata !! row_key item) as [dm|] eqn:Edm; [|discriminate H].
    destruct (Hcm _ _ Ecm) as (a & c & ->). destruct (Hdm _ _ Edm) as (d & ->).
    cbn [rbind] in H. injection H as <-.
    destruct (sum_counts_spec _ _ Hn) as (ns & Hns & ->).
    exists ns. split; [exact Hns|reflexivity].
Qed.

Lemma latest_exists item item_list :
  In item item_list ->
  exists item', latest row_key item' item_list /\ row_key item' = row_key item.
Proof.
  induction item_list as [|x item_list IH] using rev_ind; intros Hin; [destruct Hin|].
  destruct (decide (row_key x = row_key item)) as [Heq|Hne].
  - exists x. split; [|exact Heq]. exists item_list, []. split; [reflexivity|constructor].
  - apply in_app_iff in Hin as [Hin|[->|[]]]; [|now destruct Hne].
    destruct (IH Hin) as (item' & (before & after & -> & Hafter) & Hkey).
    exists item'. split; [|exact Hkey].
    exists before, (after ++ [x])%list. split.
    + now rewrite <- app_assoc.
    + apply Forall_app. split; [exact Hafter|].
      constructor; [congruence|constructor].
Qed.

(** C6: in the attributes [get_attrs] returns, a release annotated with
    a project keeps only the projects whose ["id"] equals the annotation,
    and its ["new_groups"] is the issue count recorded for that project by
    the release-data helper ([0] when there is none); a release without
    annotation gets the sum of the counts recorded for its projects.  Rows
    that are the same dictionary key are taken to agree on their id and
    their annotation. *)
Theorem get_attrs_counts_and_projects :
  forall item_list user kwargs tr result,
    run (get_attrs item_list user kwargs) tr (Ok result) ->
    (forall a b, In a item_list -> In b item_list -> row_key a = row_key b ->
                 id a = id b /\ for_project_id a = for_project_id b) ->
    exists t1 t2 first_seen last_seen counts,
      tr = (t1 ++ t2)%list /\
      run (release_data kwargs item_list) t1 (Ok (first_seen, last_seen, counts)) /\
      forall item, In item item_list ->
        exists p,
          result !! row_key item = Some p /\
          let recorded : gmap Z (option Z) := default ∅ (counts !! id item) in
          match for_project_id item with
          | Some project_id =>
              (exists projects,
                  dict_lookup "projects" p = Some (VList projects) /\
                  Forall (fun x => exists i, getitem x "id" = Ok i /\
                                             eq_int i project_id = true) projects) /\
              dict_lookup "new_groups" p
                = Some (VInt (default 0 (mjoin (recorded !! project_id))))
          | None =>
              exists ns,
                map snd (map_to_list recorded) = map Some ns /\
                dict_lookup "new_groups" p = Some (VInt (foldr Z.add 0 ns))
          end.
Proof.
  intros item_list user kwargs tr result H Hkeys.
  unfold Release.get_attrs in H.
  destruct (truthy (with_health_data kwargs) && truthy (no_snuba kwargs));
    [destruct H as [_ [=]]|].
  run_bind H as data Hdata. destruct data as [[first_seen last_seen] counts].
  exists t, t0, first_seen, last_seen, counts.
  split; [reflexivity|]. split; [exact Hdata|].
  run_bind_call H as serialized_owners.
  run_bind H as owners Howners.
  run_bind H as commit_metadata Hcommit.
  run_bind H as deploy_metadata Hdeploy.
  run_bind_call H as project_releases.
  run_bind_call H as platforms.
  run_bind H as health Hhealth.
  run_bind H as release_projects Hprojects.
  apply run_lift_inv in H as [_ H]. symmetry in H.
  apply keyed_loop_spec in H. destruct H as [_ H].
  intros item Hin.
  destruct (latest_exists item item_list Hin) as (item' & Hlatest & Hkey).
  destruct (H item' Hlatest) as (p & Hp & Hlook).
  assert (In item' item_list) as Hin'.
  { destruct Hlatest as (before & after & -> & _). rewrite in_app_iff. simpl. auto. }
  destruct (Hkeys item' item Hin' Hin Hkey) as [Hid Hproject].
  exists p. split; [now rewrite <- Hkey|].
  rewrite <- Hid, <- Hproject.
  eapply item_attrs_spec; [| |exact Hp].
  - exact (commit_metadata_keys _ _ _ _ Hcommit).
  - exact (deploy_metadata_keys _ _ _ _ Hdeploy).
Qed.

End Attrs.

(** * Worked examples *)

Lemma release_data_min_max_aggregation_witness :
  (exists project_ids tag_values,
      In (Answer (GetReleaseTags project_ids
                    (map version [Demo.release_1; Demo.release_2])) tag_values)
        (snd Demo.release_data_run) /\
      forall v m,
        ((<["1.0" := 30]> (<["2.0" := 70]> ∅) : gmap string Z) !! v = Some m
         <-> is_minimum m (first_seen_of v tag_values)) /\
        ((<["1.0" := 95]> (<["2.0" := 80]> ∅) : gmap string Z) !! v = Some m
         <-> is_maximum m (last_seen_of v tag_values))) /\
  (exists rows,
      In (Answer (QueryReleaseProjectEnvironment
                    (map id [Demo.release_1]) ["production"] None) rows)
        (snd Demo.environment_data_run) /\
      forall v m,
        (({["1.0" := 40]} : gmap string Z) !! v = Some m
         <-> is_minimum m (env_first_seen_of v rows)) /\
        (({["1.0" := 85]} : gmap string Z) !! v = Some m
         <-> is_maximum m (env_last_seen_of v rows))).
Proof.
  split.
  - pose proof (interp_run Demo.answer
      (Release.__get_release_data_no_environment (Some 10)
         [Demo.release_1; Demo.release_2]) ∅) as Hrun.
    assert (fst (fst (interp Demo.answer
              (Release.__get_release_data_no_environment (Some 10)
                 [Demo.release_1; Demo.release_2]) ∅))
            = Ok (<["1.0" := 30]> (<["2.0" := 70]> ∅),
                  <["1.0" := 95]> (<["2.0" := 80]> ∅),
                  <[2 := {[10 := Some 2]}]> (<[1 := {[10 := Some 4]}]> ∅))) as E
      by (vm_compute; reflexivity).
    rewrite E in Hrun.
    exact (proj2 (proj1 release_data_min_max_aggregation _ _) _ _ _ _ Hrun).
  - pose proof (interp_run Demo.answer
      (Release.__get_release_data_with_environments None [Demo.release_1]
         ["production"]) ∅) as Hrun.
    assert (fst (fst (interp Demo.answer
              (Release.__get_release_data_with_environments None [Demo.release_1]
                 ["production"]) ∅))
            = Ok ({["1.0" := 40]}, {["1.0" := 85]}, {[1 := {[10 := Some 3]}]})) as E
      by (vm_compute; reflexivity).
    rewrite E in Hrun.
    exact (proj2 (proj2 release_data_min_max_aggregation _ _ _) _ _ _ _ Hrun).
Defined.

Lemma user_to_author_cache_key_shape_witness :
  ascii_lower (email Demo.ann) = ascii_lower "ANN@example.COM" /\
  Release._user_to_author_cache_key Demo.digest ascii_lower 1 Demo.ann
  = Release._user_to_author_cache_key Demo.digest ascii_lower 1
      {| author_id := 9; author_name := VNone; email := "ANN@example.COM" |}.
Proof.
  split; [reflexivity|].
  apply (proj2 (user_to_author_cache_key_shape Demo.digest ascii_lower)
           ascii_lower_idem 1 Demo.ann).
  reflexivity.
Defined.

Lemma get_attrs_validation_error_witness :
  (fst (fst Demo.rejected_run) = Err (TypeError "health data requires snuba") <->
   truthy (with_health_data Demo.rejected_kwargs) = true /\
   truthy (no_snuba Demo.rejected_kwargs) = true) /\
  (fst (fst Demo.rejected_run) = Err (TypeError "health data requires snuba") ->
   snd Demo.rejected_run = []).
Proof.
  apply (get_attrs_validation_error Demo.digest ascii_lower Demo.row_key
           [Demo.release_1; Demo.release_2] VNone Demo.rejected_kwargs).
  apply interp_run.
Defined.

Lemma release_serialize_reshapes_row_witness :
  exists d,
    Release.serialize Demo.status_name Demo.release_1 Demo.release_1_attrs VNone
      = Ok d /\
    dict_lookup "version" d = Some (VStr "1.0") /\
    dict_lookup "shortVersion" d = Some (VStr "1.0") /\
    dict_lookup "ref" d = Some VNone /\
    dict_lookup "url" d = Some VNone /\
    dict_lookup "dateReleased" d = Some VNone /\
    dict_lookup "dateCreated" d = Some (VTime 10) /\
    dict_lookup "commitCount" d = Some (VInt 2) /\
    dict_lookup "deployCount" d = Some (VInt 0) /\
    (exists n, dict_lookup "new_groups" Demo.release_1_attrs = Some n /\
               dict_lookup "newGroups" d = Some n) /\
    (dict_lookup "versionInfo" d = Some VNone <-> version_info Demo.release_1 = VNone).
Proof.
  destruct (proj2 (release_serialize_reshapes_row Demo.status_name
                     Demo.release_1 Demo.release_1_attrs VNone)
              eq_refl eq_refl) as [d Hd].
  exists d. split; [exact Hd|].
  exact (proj1 (release_serialize_reshapes_row Demo.status_name
                  Demo.release_1 Demo.release_1_attrs VNone) d Hd).
Defined.



Lemma get_users_for_authors_batches_lookups_witness :
  (count is_cache_read (snd Demo.authors_run) = 1 /\
   count is_user_email_query (snd Demo.authors_run) <= 1 /\
   count is_user_query (snd Demo.authors_run) <= 1 /\
   count is_cache_write (snd Demo.authors_run) <= 1 /\
   length (snd Demo.authors_run) <= 7)%nat.
Proof.
  apply (get_users_for_authors_batches_lookups Demo.digest ascii_lower 1
           Demo.commit_authors VNone (snd Demo.authors_run)
           (fst (fst Demo.authors_run))).
  apply interp_run.
Defined.

Lemma commit_metadata_no_authors_across_organizations_witness :
  organization_id Demo.release_1 <> organization_id Demo.release_3 /\
  Forall (fun c => is_cache_read c = false /\
                   is_user_email_query c = false /\
                   is_user_query c = false) (snd Demo.commit_metadata_run) /\
  exists result,
    fst (fst Demo.commit_metadata_run) = Ok result /\
    forall item, In item [Demo.release_1; Demo.release_3] ->
      exists metadata,
        result !! Demo.row_key item = Some metadata /\
        dict_lookup "authors" metadata = Some (VList []).
Proof.
  assert (organization_id Demo.release_1 <> organization_id Demo.release_3) as Hne
    by discriminate.
  split; [exact Hne|].
  apply (commit_metadata_no_authors_across_organizations Demo.digest ascii_lower
           Demo.row_key [Demo.release_1; Demo.release_3] VNone).
  - apply interp_run.
  - exists Demo.release_1, Demo.release_3. simpl. auto.
Defined.

Lemma get_attrs_counts_and_projects_witness :
  exists result,
    fst (fst Demo.attrs_run) = Ok result /\
    exists t1 t2 first_seen last_seen counts,
      snd Demo.attrs_run = (t1 ++ t2)%list /\
      run (release_data Demo.no_kwargs [Demo.release_1; Demo.release_2]) t1
        (Ok (first_seen, last_seen, counts)) /\
      forall item, In item [Demo.release_1; Demo.release_2] ->
        exists p,
          result !! Demo.row_key item = Some p /\
          let recorded : gmap Z (option Z) := default ∅ (counts !! id item) in
          match for_project_id item with
          | Some project_id =>
              (exists projects,
                  dict_lookup "projects" p = Some (VList projects) /\
                  Forall (fun x => exists i, getitem x "id" = Ok i /\
                                             eq_int i project_id = true) projects) /\
              dict_lookup "new_groups" p
                = Some (VInt (default 0 (mjoin (recorded !! project_id))))
          | None =>
              exists ns,
                map snd (map_to_list recorded) = map Some ns /\
                dict_lookup "new_groups" p = Some (VInt (foldr Z.add 0 ns))
          end.
Proof.
  pose proof (interp_run Demo.answer
    (Release.get_attrs Demo.digest ascii_lower Demo.row_key
       [Demo.release_1; Demo.release_2] VNone Demo.no_kwargs) ∅) as Hrun.
  fold Demo.attrs_run in Hrun.
  destruct (fst (fst Demo.attrs_run)) as [result|e] eqn:E;
    [|vm_compute in E; discriminate E].
  exists result. split; [reflexivity|].
  apply (get_attrs_counts_and_projects Demo.digest ascii_lower Demo.row_key
           [Demo.release_1; Demo.release_2] VNone Demo.no_kwargs _ _ Hrun).
  intros a b _ _ [= Hid Hproject]. auto.
Defined.

(** * Further properties *)

(** ** Cache keys and identifiers *)

Lemma no_colon_pretty_N_go x s :
  no_colon s = true -> no_colon (pretty_N_go x s) = true.
Proof.
  revert s. induction (N.lt_wf_0 x) as [x _ IH]; intros s Hs.
  assert (x = 0 \/ 0 < x)%N as [->|Hx] by lia.
  - now rewrite pretty_N_go_0.
  - rewrite pretty_N_go_step by exact Hx. apply IH.
    + now apply N.div_lt.
    + simpl. rewrite Hs, andb_true_r.
      unfold pretty_N_char. repeat case_match; reflexivity.
Qed.

Lemma no_colon_str_int z : no_colon (str_int z) = true.
Proof.
  assert (forall n : N, no_colon (pretty n) = true) as HN.
  { intros n. unfold pretty, pretty_N. case_decide; [reflexivity|].
    now apply no_colon_pretty_N_go. }
  unfold str_int, pretty, pretty_Z. destruct z as [|q|q]; [reflexivity| |].
  - apply (HN (Npos q)).
  - simpl. apply (HN (Npos q)).
Qed.

Lemma append_colon_unique s1 s2 t1 t2 :
  no_colon s1 = true -> no_colon s2 = true ->
  s1 +:+ ":" +:+ t1 = s2 +:+ ":" +:+ t2 -> s1 = s2 /\ t1 = t2.
Proof.
  unfold String.app at 1 3.
  revert s2. induction s1 as [|c s1 IH]; intros [|c2 s2] H1 H2 H; simpl in *.
  - injection H as H. auto.
  - injection H as Hc _. subst c2. now rewrite Ascii.eqb_refl in H2.
  - injection H as Hc _. subst c. now rewrite Ascii.eqb_refl in H1.
  - injection H as Hc H. subst c2.
    apply andb_prop in H1 as [_ H1]. apply andb_prop in H2 as [_ H2].
    destruct (IH s2 H1 H2 H) as [-> ->]. auto.
Qed.

(** X1: two cache keys are equal only for the same organization and the
    same digest: the colon after the organization id cannot be part of the
    id, so an entry cached for one organization is never read for
    another. *)
Theorem cache_key_separates_organizations :
  forall (md5_hexdigest str_lower : string -> string) o1 o2 a1 a2,
    Release._user_to_author_cache_key md5_hexdigest str_lower o1 a1
    = Release._user_to_author_cache_key md5_hexdigest str_lower o2 a2 ->
    o1 = o2 /\
    md5_hexdigest (str_lower (email a1)) = md5_hexdigest (str_lower (email a2)).
Proof.
  intros md5_hexdigest str_lower o1 o2 a1 a2 H.
  unfold Release._user_to_author_cache_key in H. simpl in H.
  injection H as H.
  apply append_colon_unique in H as [Ho Hd]; try apply no_colon_str_int.
  split; [|exact Hd]. now apply (inj pretty).
Qed.

Lemma cache_key_separates_organizations_witness :
  (1 : Z) = 1 /\
  Demo.digest (ascii_lower (email Demo.ann))
  = Demo.digest (ascii_lower "ANN@example.COM").
Proof.
  apply (cache_key_separates_organizations Demo.digest ascii_lower 1 1 Demo.ann
           {| author_id := 9; author_name := VNone; email := "ANN@example.COM" |}).
  reflexivity.
Defined.

(** X2: the dictionary of a path configuration determines the row: two
    rows with the same serialization have the same id, project, repository
    and integration ids (the decimal strings read back to one integer
    each), the same slug, repository name, roots and default branch. *)
Theorem path_config_serialize_injective :
  forall (Provider : Type) (serialize_provider : Provider -> value)
         (o1 o2 : PathConfig.RepositoryProjectPathConfig Provider)
         (attrs1 attrs2 user1 user2 : value),
    PathConfig.serialize Provider serialize_provider o1 attrs1 user1
    = PathConfig.serialize Provider serialize_provider o2 attrs2 user2 ->
    PathConfig.id _ o1 = PathConfig.id _ o2 /\
    PathConfig.project_id _ o1 = PathConfig.project_id _ o2 /\
    PathConfig.project _ o1 = PathConfig.project _ o2 /\
    PathConfig.repository _ o1 = PathConfig.repository _ o2 /\
    PathConfig.integration_id _
      (PathConfig.integration _ (PathConfig.organization_integration _ o1))
    = PathConfig.integration_id _
        (PathConfig.integration _ (PathConfig.organization_integration _ o2)) /\
    PathConfig.stack_root _ o1 = PathConfig.stack_root _ o2 /\
    PathConfig.source_root _ o1 = PathConfig.source_root _ o2 /\
    PathConfig.default_branch _ o1 = PathConfig.default_branch _ o2.
Proof.
  intros Provider serialize_provider o1 o2 attrs1 attrs2 user1 user2 H.
  unfold PathConfig.serialize in H. cbv [dict_of dict_update fold_left] in H.
  simpl in H.
  injection H as Hid Hproject Hslug Hrepo Hname Hintegration _ Hstack Hsource Hbranch.
  apply (inj pretty) in Hid, Hproject, Hrepo, Hintegration.
  repeat split; try assumption.
  - destruct (PathConfig.project _ o1), (PathConfig.project _ o2).
    simpl in Hslug. now subst.
  - destruct (PathConfig.repository _ o1), (PathConfig.repository _ o2).
    simpl in Hrepo, Hname. now subst.
Qed.

Lemma path_config_serialize_injective_witness :
  PathConfig.id _ Further.path_config = 5 /\
  PathConfig.project_id _ Further.path_config = 10 /\
  PathConfig.project _ Further.path_config = {| PathConfig.slug := "web" |} /\
  PathConfig.repository _ Further.path_config
  = {| PathConfig.repo_id := 77; PathConfig.name := "getsentry/web" |} /\
  PathConfig.integration_id _
    (PathConfig.integration _
       (PathConfig.organization_integration _ Further.path_config)) = 12 /\
  PathConfig.stack_root _ Further.path_config = VStr "/app" /\
  PathConfig.source_root _ Further.path_config = VStr "src/" /\
  PathConfig.default_branch _ Further.path_config = VNone.
Proof.
  apply (path_config_serialize_injective value (fun v => v) Further.path_config
           Further.path_config VNone (VInt 1) VNone (VInt 2)).
  reflexivity.
Defined.

(** ** Aggregation of sightings *)

Lemma filter_Permutation_bool {A} (f : A -> bool) l l' :
  Permutation l l' -> Permutation (List.filter f l) (List.filter f l').
Proof.
  induction 1 as [|x l l' _ IH|x y l|l l' l'' _ IH1 _ IH2]; simpl.
  - constructor.
  - destruct (f x); [constructor|]; exact IH.
  - destruct (f x), (f y); try reflexivity. constructor.
  - now rewrite IH1.
Qed.

Lemma min_of_Permutation l l' : Permutation l l' -> min_of l = min_of l'.
Proof.
  intros Hp. destruct (min_of l) as [m|] eqn:Hm.
  - symmetry. apply min_of_spec. apply min_of_spec in Hm as [Hin Hall]. split.
    + now apply (Permutation_in _ Hp).
    + now rewrite <- Hp.
  - apply min_of_None in Hm. subst l. apply Permutation_nil in Hp. now subst l'.
Qed.

Lemma max_of_Permutation l l' : Permutation l l' -> max_of l = max_of l'.
Proof.
  intros Hp. destruct (max_of l) as [m|] eqn:Hm.
  - symmetry. apply max_of_spec. apply max_of_spec in Hm as [Hin Hall]. split.
    + now apply (Permutation_in _ Hp).
    + now rewrite <- Hp.
  - apply max_of_None in Hm. subst l. apply Permutation_nil in Hp. now subst l'.
Qed.

(** X3: the maps of first and last sightings do not depend on the order
    in which the tagstore (the environment query) returns its rows. *)
Theorem sightings_order_independent :
  (forall tag_values tag_values',
      Permutation tag_values tag_values' ->
      Release.seen_of_tag_values tag_values
      = Release.seen_of_tag_values tag_values') /\
  (forall rows rows',
      Permutation rows rows' ->
      Release.seen_of_environments rows = Release.seen_of_environments rows').
Proof.
  split.
  - intros tvs tvs' Hp.
    destruct (Release.seen_of_tag_values tvs) as [f l] eqn:E.
    destruct (Release.seen_of_tag_values tvs') as [f' l'] eqn:E'.
    f_equal; apply map_eq; intros v;
      destruct (seen_of_tag_values_lookup tvs v) as [H1 H2];
      destruct (seen_of_tag_values_lookup tvs' v) as [H1' H2'];
      rewrite E in H1, H2; rewrite E' in H1', H2'; simpl in *.
    + rewrite H1, H1'. apply min_of_Permutation, Permutation_map.
      now apply filter_Permutation_bool.
    + rewrite H2, H2'. apply max_of_Permutation, Permutation_map.
      now apply filter_Permutation_bool.
  - intros rows rows' Hp.
    destruct (Release.seen_of_environments rows) as [f l] eqn:E.
    destruct (Release.seen_of_environments rows') as [f' l'] eqn:E'.
    f_equal; apply map_eq; intros v;
      destruct (seen_of_environments_lookup rows v) as [H1 H2];
      destruct (seen_of_environments_lookup rows' v) as [H1' H2'];
      rewrite E in H1, H2; rewrite E' in H1', H2'; simpl in *.
    + rewrite H1, H1'. apply min_of_Permutation, Permutation_map.
      now apply filter_Permutation_bool.
    + rewrite H2, H2'. apply max_of_Permutation, Permutation_map.
      now apply filter_Permutation_bool.
Qed.

Lemma sightings_order_independent_witness :
  Release.seen_of_tag_values Demo.tag_values
  = Release.seen_of_tag_values (rev Demo.tag_values) /\
  Release.seen_of_environments Demo.environment_rows
  = Release.seen_of_environments (rev Demo.environment_rows).
Proof.
  split.
  - apply (proj1 sightings_order_independent). apply Permutation_rev.
  - apply (proj2 sightings_order_independent). apply Permutation_rev.
Defined.

(** X4: the loop over tag values and the loop over environment rows,
    written differently, aggregate alike: on the same versions and
    instants they build the same two maps. *)
Theorem sightings_loops_agree :
  forall tag_values,
    Release.seen_of_environments (map to_environment_row tag_values)
    = Release.seen_of_tag_values tag_values.
Proof.
  intros tvs.
  assert (forall v,
            env_first_seen_of v (map to_environment_row tvs) = first_seen_of v tvs /\
            env_last_seen_of v (map to_environment_row tvs) = last_seen_of v tvs)
    as Hsame.
  { intros v. unfold env_first_seen_of, env_last_seen_of, first_seen_of, last_seen_of.
    induction tvs as [|tv tvs IH]; simpl; [auto|]. destruct IH as [IH1 IH2].
    destruct (String.eqb (tv_value tv) v); simpl; rewrite ?IH1, ?IH2; auto. }
  destruct (Release.seen_of_tag_values tvs) as [f l] eqn:E.
  destruct (Release.seen_of_environments _) as [f' l'] eqn:E'.
  f_equal; apply map_eq; intros v;
    destruct (seen_of_tag_values_lookup tvs v) as [H1 H2];
    destruct (seen_of_environments_lookup (map to_environment_row tvs) v)
      as [H1' H2'];
    destruct (Hsame v) as [Hf Hl];
    rewrite E in H1, H2; rewrite E' in H1', H2'; simpl in *; congruence.
Qed.

(** ** Which collaborators are called, and how often *)

Section Calls.

Context {A B : Type}.

Lemma avoids_ret who (a : A) : avoids who (Ret a).
Proof. intros tr r [-> _]. constructor. Qed.

Lemma avoids_raise who e : avoids who (@Raise A e).
Proof. intros tr r [-> _]. constructor. Qed.

Lemma avoids_lift who (x : result A) : avoids who (lift x).
Proof. intros tr r H. apply run_lift_inv in H as [-> _]. constructor. Qed.

Lemma avoids_call who {X} (e : event X) :
  (forall x, collaborator_of (Answer e x) <> who) -> avoids who (call e).
Proof.
  intros He tr r H. apply run_call_inv in H as (x & -> & _).
  repeat constructor. apply He.
Qed.

Lemma avoids_bind who (p : prog A) (f : A -> prog B) :
  avoids who p -> (forall a, avoids who (f a)) -> avoids who (bind p f).
Proof.
  intros Hp Hf tr r H. apply run_bind_inv in H.
  destruct H as [(a & t1 & t2 & -> & H1 & H2)|(e & H & _)].
  - apply Forall_app. split; [exact (Hp _ _ H1)|exact (Hf _ _ _ H2)].
  - exact (Hp _ _ H).
Qed.

Lemma at_most_ret n (a : A) : calls_at_most n (Ret a).
Proof. intros tr r [-> _]. simpl. lia. Qed.

Lemma at_most_raise n e : calls_at_most n (@Raise A e).
Proof. intros tr r [-> _]. simpl. lia. Qed.

Lemma at_most_lift n (x : result A) : calls_at_most n (lift x).
Proof. intros tr r H. apply run_lift_inv in H as [-> _]. simpl. lia. Qed.

Lemma at_most_call n {X} (e : event X) : calls_at_most (S n) (call e).
Proof. intros tr r H. apply run_call_inv in H as (x & -> & _). simpl. lia. Qed.

Lemma at_most_bind n m (p : prog A) (f : A -> prog B) :
  calls_at_most n p -> (forall a, calls_at_most m (f a)) ->
  calls_at_most (n + m) (bind p f).
Proof.
  intros Hp Hf tr r H. apply run_bind_inv in H.
  destruct H as [(a & t1 & t2 & -> & H1 & H2)|(e & H & _)].
  - rewrite length_app. specialize (Hp _ _ H1). specialize (Hf _ _ _ H2). lia.
  - specialize (Hp _ _ H). lia.
Qed.

Lemma at_most_bind_call n {X} (e : event X) (f : X -> prog B) :
  (forall x, calls_at_most n (f x)) -> calls_at_most (S n) (bind (call e) f).
Proof.
  intros Hf tr r H. apply run_bind_call_inv in H as (x & t & -> & H).
  specialize (Hf _ _ _ H). simpl. lia.
Qed.

Lemma at_most_bind_lift n (x : result A) (f : A -> prog B) :
  (forall a, calls_at_most n (f a)) -> calls_at_most n (bind (lift x) f).
Proof. intros Hf. apply (at_most_bind 0 n); [apply at_most_lift|exact Hf]. Qed.

End Calls.

(** Walk through a program, one binding or case split at a time. *)
Ltac avoids_step :=
  first
    [ apply avoids_ret
    | apply avoids_raise
    | apply avoids_lift
    | apply avoids_call; intros ?; discriminate
    | apply avoids_bind; [|intros ?]
    | match goal with
      | |- avoids _ (match ?x with _ => _ end) => destruct x
      | |- avoids _ (match ?x with _ => _ end _) => destruct x; cbv beta
      end ].

Ltac at_most_step :=
  first
    [ apply at_most_ret
    | apply at_most_raise
    | apply at_most_lift
    | apply at_most_call
    | apply at_most_bind_call; intros ?
    | apply at_most_bind_lift; intros ?
    | match goal with
      | |- calls_at_most _ (match ?x with _ => _ end) => destruct x
      | |- calls_at_most _ (match ?x with _ => _ end _) => destruct x; cbv beta
      end ].

Section Batching.

Variable md5_hexdigest : string -> string.
Variable str_lower : string -> string.
Context {K : Type} {K_eq_dec : EqDecision K} {K_countable : Countable K}.
Variable row_key : Release -> K.

Lemma get_users_for_authors_at_most organization_id authors user :
  calls_at_most 7
    (Release.get_users_for_authors md5_hexdigest str_lower organization_id authors
       user).
Proof.
  unfold Release.get_users_for_authors.
  apply at_most_bind_call. intros fetched.
  destruct (if bool_decide (fetched = ∅) then _ else _) as [results missed].
  apply (at_most_bind 4 2); [|intros results'; repeat at_most_step].
  destruct missed; repeat at_most_step.
Qed.

Lemma _get_commit_metadata_at_most item_list user :
  calls_at_most 10
    (Release._get_commit_metadata md5_hexdigest str_lower row_key item_list user).
Proof.
  unfold Release._get_commit_metadata.
  apply (at_most_bind 1 9); [destruct (bool_decide _); at_most_step|].
  intros authors.
  apply (at_most_bind 7 2).
  - destruct authors; [at_most_step|].
    destruct (elements _) as [|o [|o' os]];
      [at_most_step|apply get_users_for_authors_at_most|at_most_step].
  - intros users_by_author.
    apply (at_most_bind 2 0); [destruct (bool_decide _); repeat at_most_step|].
    intros commits. at_most_step.
Qed.

Lemma release_data_no_environment_at_most project item_list :
  calls_at_most 3 (Release.__get_release_data_no_environment project item_list).
Proof.
  unfold Release.__get_release_data_no_environment.
  apply (at_most_bind 1 2).
  - unfold Release.__get_project_id_list. repeat at_most_step.
  - intros [project_ids specialized]. at_most_step.
    destruct (Release.seen_of_tag_values _).
    apply (at_most_bind 1 0); [repeat at_most_step|]. intros counts. at_most_step.
Qed.

Lemma release_data_with_environments_at_most project item_list environments :
  calls_at_most 2
    (Release.__get_release_data_with_environments project item_list environments).
Proof.
  unfold Release.__get_release_data_with_environments. repeat at_most_step.
Qed.

(** X5: the helpers of [get_attrs] batch their lookups: whatever the
    number of releases and authors, a run of [_get_commit_metadata] makes at
    most ten calls to its collaborators, a run of
    [__get_release_data_no_environment] at most three and a run of
    [__get_release_data_with_environments] at most two. *)
Theorem metadata_helpers_batch_lookups :
  forall item_list user project environments,
    calls_at_most 10
      (Release._get_commit_metadata md5_hexdigest str_lower row_key item_list user) /\
    calls_at_most 3 (Release.__get_release_data_no_environment project item_list) /\
    calls_at_most 2
      (Release.__get_release_data_with_environments project item_list environments).
Proof.
  intros item_list user project environments. split; [|split].
  - apply _get_commit_metadata_at_most.
  - apply release_data_no_environment_at_most.
  - apply release_data_with_environments_at_most.
Qed.

End Batching.

Lemma metadata_helpers_batch_lookups_witness :
  (length (snd Demo.commit_metadata_run) <= 10)%nat /\
  (length (snd Demo.release_data_run) <= 3)%nat /\
  (length (snd Demo.environment_data_run) <= 2)%nat.
Proof.
  destruct (metadata_helpers_batch_lookups Demo.digest ascii_lower Demo.row_key
              [Demo.release_1; Demo.release_3] VNone None ["production"])
    as (Hcommit & _ & _).
  destruct (metadata_helpers_batch_lookups Demo.digest ascii_lower Demo.row_key
              [Demo.release_1; Demo.release_2] VNone (Some 10) ["production"])
    as (_ & Hdata & _).
  destruct (metadata_helpers_batch_lookups Demo.digest ascii_lower Demo.row_key
              [Demo.release_1] VNone None ["production"])
    as (_ & _ & Henvironments).
  split; [|split].
  - exact (Hcommit _ _ (interp_run _ _ _)).
  - exact (Hdata _ _ (interp_run _ _ _)).
  - exact (Henvironments _ _ (interp_run _ _ _)).
Defined.

(** ** Anatomy of the attributes *)

Section Anatomy.

Variable md5_hexdigest : string -> string.
Variable str_lower : string -> string.
Context {K : Type} {K_eq_dec : EqDecision K} {K_countable : Countable K}.
Variable row_key : Release -> K.

Lemma filter_by_id_keeps project_id projects kept :
  Release.filter_by_id project_id projects = Ok kept ->
  forall x, In x kept -> In x projects.
Proof.
  revert kept. induction projects as [|y projects IH]; simpl; intros kept H x Hx.
  - injection H as <-. destruct Hx.
  - destruct (getitem y "id") as [i|]; [|discriminate H]. cbn [rbind] in H.
    destruct (Release.filter_by_id project_id projects) as [rest|]; [|discriminate H].
    cbn [rbind] in H. injection H as <-.
    destruct (eq_int i project_id); [destruct Hx as [->|Hx]|]; eauto.
Qed.

(** What the last loop of [get_attrs] stores for one release. *)
Lemma item_attrs_anatomy owners first_seen last_seen
    (counts : gmap Z (gmap Z (option Z))) release_projects
    (commit_metadata deploy_metadata : gmap K (list (string * value))) item p :
  (forall k m, commit_metadata !! k = Some m ->
     exists a c, m = [("authors", a); ("last_commit", c)]) ->
  (forall k m, deploy_metadata !! k = Some m -> exists d, m = [("last_deploy", d)]) ->
  Release.item_attrs row_key owners first_seen last_seen counts release_projects
    commit_metadata deploy_metadata item = Ok p ->
  exists o n ps a c d,
    p = [("owner", o); ("new_groups", VInt n); ("projects", VList ps);
         ("first_seen", of_option VTime (first_seen !! version item));
         ("last_seen", of_option VTime (last_seen !! version item));
         ("authors", a); ("last_commit", c); ("last_deploy", d)] /\
    commit_metadata !! row_key item = Some [("authors", a); ("last_commit", c)] /\
    deploy_metadata !! row_key item = Some [("last_deploy", d)] /\
    match Release.truthy_id (owner_id item) with
    | None => o = VNone
    | Some i => owners !! str_int i = Some o
    end /\
    forall x, In x ps -> In x (default [] (release_projects !! id item)).
Proof.
  intros Hcm Hdm H. unfold Release.item_attrs in H.
  destruct (match for_project_id item with Some _ => _ | None => _ end)
    as [[ps n]|] eqn:Hpn; [|discriminate H].
  cbn [rbind] in H.
  destruct (match Release.truthy_id (owner_id item) with
            | Some _ => _ | None => _ end) as [o|] eqn:Ho; [|discriminate H].
  cbn [rbind] in H.
  destruct (commit_metadata !! row_key item) as [cm|] eqn:Ecm; [|discriminate H].
  destruct (deploy_metadata !! row_key item) as [dm|] eqn:Edm; [|discriminate H].
  destruct (Hcm _ _ Ecm) as (a & c & ->). destruct (Hdm _ _ Edm) as (d & ->).
  cbn [rbind] in H. injection H as <-.
  exists o, n, ps, a, c, d.
  split; [reflexivity|]. split; [reflexivity|]. split; [reflexivity|]. split.
  - destruct (Release.truthy_id (owner_id item)) as [i|].
    + destruct (owners !! str_int i); [now injection Ho as ->|discriminate Ho].
    + now injection Ho as <-.
  - destruct (for_project_id item) as [project_id|].
    + destruct (Release.filter_by_id _ _) as [kept|] eqn:Hkept; [|discriminate Hpn].
      injection Hpn as <- _. exact (filter_by_id_keeps _ _ _ Hkept).
    + destruct (Release.sum_counts _); [|discriminate Hpn].
      injection Hpn as <- _. auto.
Qed.

(** The loop that groups the project dictionaries by release. *)
Lemma release_projects_loop platforms_by_project health project_releases :
  forall release_projects : gmap Z (list value),
    rfold
      (fun acc pr =>
         rbind (Release.project_entry platforms_by_project health pr) (fun pr_rv =>
         Ok (<[pr_release_id pr :=
                 (default [] (acc !! pr_release_id pr) ++ [VDict pr_rv])%list]> acc)))
      project_releases ∅ = Ok release_projects ->
    forall k x, In x (default [] (release_projects !! k)) ->
      exists pr pr_rv,
        In pr project_releases /\ pr_release_id pr = k /\
        Release.project_entry platforms_by_project health pr = Ok pr_rv /\
        x = VDict pr_rv.
Proof.
  induction project_releases as [|pr prs IH] using rev_ind; intros rp H k x Hx.
  - injection H as <-. rewrite lookup_empty in Hx. destruct Hx.
  - rewrite rfold_snoc in H.
    destruct (rfold _ prs ∅) as [acc|] eqn:Hacc; [|discriminate H].
    cbn [rbind] in H.
    destruct (Release.project_entry _ _ pr) as [pr_rv|] eqn:Hentry; [|discriminate H].
    cbn [rbind] in H. injection H as <-.
    assert (forall x, In x (default [] (acc !! k)) ->
              exists pr0 pr_rv0,
                In pr0 (prs ++ [pr]) /\ pr_release_id pr0 = k /\
                Release.project_entry platforms_by_project health pr0 = Ok pr_rv0 /\
                x = VDict pr_rv0) as Hold.
    { intros y Hy. destruct (IH acc eq_refl k y Hy) as (pr0 & e0 & ? & ? & ? & ?).
      exists pr0, e0. rewrite in_app_iff. auto. }
    destruct (decide (pr_release_id pr = k)) as [<-|Hne].
    + rewrite lookup_insert_eq in Hx. simpl in Hx.
      apply in_app_iff in Hx as [Hx|[<-|[]]]; [auto|].
      exists pr, pr_rv. rewrite in_app_iff. simpl. auto.
    + rewrite lookup_insert_ne in Hx by exact Hne. auto.
Qed.

(** Every successful run of [get_attrs], taken apart. *)
Lemma get_attrs_anatomy item_list user kwargs tr result :
  run (Release.get_attrs md5_hexdigest str_lower row_key item_list user kwargs) tr
    (Ok result) ->
  exists t_data first_seen last_seen counts serialized_owners owners
         t_commit commit_metadata t_deploy deploy_metadata
         project_releases platforms platforms_by_project t_health health
         release_projects,
    run (release_data kwargs item_list) t_data (Ok (first_seen, last_seen, counts)) /\
    Release.index_by_id serialized_owners = Ok owners /\
    run (Release._get_commit_metadata md5_hexdigest str_lower row_key item_list user)
      t_commit (Ok commit_metadata) /\
    run (Release._get_deploy_metadata row_key item_list user) t_deploy
      (Ok deploy_metadata) /\
    tr = (t_data ++
          Answer (SerializeOwners
                    (list_to_set (omap (fun i => Release.truthy_id (owner_id i))
                                    item_list)) user) serialized_owners ::
          t_commit ++ t_deploy ++
          Answer (QueryReleaseProject (map id item_list)) project_releases ::
          Answer (QueryProjectPlatform
                    (list_to_set (map pr_project_id project_releases))) platforms ::
          t_health)%list /\
    (truthy (with_health_data kwargs) = false ->
     exists has_health_data,
       health = inr has_health_data /\
       (truthy (no_snuba kwargs) = true -> has_health_data = ∅ /\ t_health = [])) /\
    (forall k x, In x (default [] (release_projects !! k)) ->
       exists pr pr_rv,
         In pr project_releases /\ pr_release_id pr = k /\
         Release.project_entry platforms_by_project health pr = Ok pr_rv /\
         x = VDict pr_rv) /\
    rfold
      (fun result item =>
         rbind (Release.item_attrs row_key owners first_seen last_seen counts
                  release_projects commit_metadata deploy_metadata item)
           (fun p => Ok (<[row_key item := p]> result)))
      item_list ∅ = Ok result.
Proof.
  intros H. unfold Release.get_attrs in H.
  destruct (truthy (with_health_data kwargs) && truthy (no_snuba kwargs));
    [destruct H as [_ [=]]|].
  run_bind H as data Hdata. destruct data as [[first_seen last_seen] counts].
  run_bind_call H as serialized_owners.
  run_bind H as owners Howners. apply run_lift_inv in Howners as [-> Howners].
  run_bind H as commit_metadata Hcommit.
  run_bind H as deploy_metadata Hdeploy.
  run_bind_call H as project_releases.
  run_bind_call H as platforms.
  run_bind H as health Hhealth.
  run_bind H as release_projects Hprojects.
  apply run_lift_inv in Hprojects as [-> Hprojects].
  apply run_lift_inv in H as [-> H].
  eexists t, first_seen, last_seen, counts, serialized_owners, owners,
    _, commit_metadata, _, deploy_metadata, project_releases, platforms, _, _,
    health, release_projects.
  split; [exact Hdata|]. split; [now symmetry|].
  split; [exact Hcommit|]. split; [exact Hdeploy|].
  split; [simpl; rewrite ?app_nil_r; reflexivity|].
  split.
  { intros Hfalse. rewrite Hfalse in Hhealth.
    destruct (truthy (no_snuba kwargs)).
    - destruct Hhealth as [-> [= ->]]. exists ∅. auto.
    - run_bind_call Hhealth as has. destruct Hhealth as [-> [= ->]].
      exists has. split; [reflexivity|discriminate]. }
  split; [|now symmetry].
  symmetry in Hprojects. exact (release_projects_loop _ _ _ _ Hprojects).
Qed.

End Anatomy.

(** ** What the attributes hold *)

Section Attributes.

Variable md5_hexdigest : string -> string.
Variable str_lower : string -> string.
Variable ReleaseStatus_to_string : value -> value.
Context {K : Type} {K_eq_dec : EqDecision K} {K_countable : Countable K}.
Variable row_key : Release -> K.

Abbreviation get_attrs := (Release.get_attrs md5_hexdigest str_lower row_key).

(** The entries of a successful run, one by one. *)
Lemma get_attrs_entry item_list user kwargs tr result :
  run (get_attrs item_list user kwargs) tr (Ok result) ->
  exists t_data first_seen last_seen counts serialized_owners owners
         t_commit t_deploy project_releases platforms platforms_by_project
         t_health health,
    run (release_data kwargs item_list) t_data (Ok (first_seen, last_seen, counts)) /\
    Release.index_by_id serialized_owners = Ok owners /\
    tr = (t_data ++
          Answer (SerializeOwners
                    (list_to_set (omap (fun i => Release.truthy_id (owner_id i))
                                    item_list)) user) serialized_owners ::
          t_commit ++ t_deploy ++
          Answer (QueryReleaseProject (map id item_list)) project_releases ::
          Answer (QueryProjectPlatform
                    (list_to_set (map pr_project_id project_releases))) platforms ::
          t_health)%list /\
    (truthy (with_health_data kwargs) = false ->
     exists has_health_data,
       health = inr has_health_data /\
       (truthy (no_snuba kwargs) = true -> has_health_data = ∅ /\ t_health = [])) /\
    dom result = list_to_set (map row_key item_list) /\
    forall k p, result !! k = Some p ->
      exists item o n ps a c d,
        In item item_list /\ row_key item = k /\
        p = [("owner", o); ("new_groups", VInt n); ("projects", VList ps);
             ("first_seen", of_option VTime (first_seen !! version item));
             ("last_seen", of_option VTime (last_seen !! version item));
             ("authors", a); ("last_commit", c); ("last_deploy", d)] /\
        match Release.truthy_id (owner_id item) with
        | None => o = VNone
        | Some i => owners !! str_int i = Some o
        end /\
        forall x, In x ps ->
          exists pr pr_rv,
            In pr project_releases /\ pr_release_id pr = id item /\
            Release.project_entry platforms_by_project health pr = Ok pr_rv /\
            x = VDict pr_rv.
Proof.
  intros H. apply get_attrs_anatomy in H.
  destruct H as (t_data & first_seen & last_seen & counts & serialized_owners &
                 owners & t_commit & commit_metadata & t_deploy & deploy_metadata &
                 project_releases & platforms & platforms_by_project & t_health &
                 health & release_projects &
                 Hdata & Howners & Hcommit & Hdeploy & Htr & Hhealth & Hprojects &
                 Hloop).
  exists t_data, first_seen, last_seen, counts, serialized_owners, owners,
    t_commit, t_deploy, project_releases, platforms, platforms_by_project,
    t_health, health.
  apply keyed_loop_spec in Hloop. destruct Hloop as [Hentries Hlatest].
  repeat (split; [assumption|]). split.
  - apply set_eq. intros k. rewrite elem_of_dom, elem_of_list_to_set. split.
    + intros [p Hp]. destruct (Hentries k p Hp) as (item & Hin & <- & _).
      apply list_elem_of_In. now apply in_map.
    + intros Hk. apply list_elem_of_In, in_map_iff in Hk as (item & <- & Hin).
      destruct (latest_exists row_key item item_list Hin) as (item' & Hl & <-).
      destruct (Hlatest item' Hl) as (p & _ & Hp). eauto.
  - intros k p Hp. destruct (Hentries k p Hp) as (item & Hin & Hk & Hitem).
    apply item_attrs_anatomy in Hitem;
      [|eapply commit_metadata_keys; exact Hcommit
       |eapply deploy_metadata_keys; exact Hdeploy].
    destruct Hitem as (o & n & ps & a & c & d & -> & _ & _ & Ho & Hps).
    exists item, o, n, ps, a, c, d. repeat (split; [assumption || reflexivity|]).
    intros x Hx. exact (Hprojects _ _ (Hps x Hx)).
Qed.

(** X6: a successful run of [get_attrs] returns one entry for each
    release of the batch and no other, and every entry has the same eight
    keys, in the same order. *)
Theorem get_attrs_entries_cover_batch :
  forall item_list user kwargs tr result,
    run (get_attrs item_list user kwargs) tr (Ok result) ->
    dom result = list_to_set (map row_key item_list) /\
    forall k p, result !! k = Some p ->
      map fst p = ["owner"; "new_groups"; "projects"; "first_seen"; "last_seen";
                   "authors"; "last_commit"; "last_deploy"].
Proof.
  intros item_list user kwargs tr result H. apply get_attrs_entry in H.
  destruct H as (? & ? & ? & ? & ? & ? & ? & ? & ? & ? & ? & ? & ? &
                 _ & _ & _ & _ & Hdom & Hentries).
  split; [exact Hdom|].
  intros k p Hp.
  destruct (Hentries k p Hp) as (item & o & n & ps & a & c & d & _ & _ & -> & _).
  reflexivity.
Qed.

(** X7: the ["owner"] of a release without owner (no [owner_id], or
    [0]) is [None]; otherwise it is one of the dictionaries the serializer
    returned for the owners of the batch, the one whose ["id"] is the
    release's [owner_id] in decimal. *)
Theorem get_attrs_owner :
  forall item_list user kwargs tr result,
    run (get_attrs item_list user kwargs) tr (Ok result) ->
    exists owner_ids serialized_owners,
      In (Answer (SerializeOwners owner_ids user) serialized_owners) tr /\
      forall k p, result !! k = Some p ->
        exists item o,
          In item item_list /\ row_key item = k /\
          dict_lookup "owner" p = Some o /\
          match Release.truthy_id (owner_id item) with
          | None => o = VNone
          | Some i =>
              i ∈ owner_ids /\ In o serialized_owners /\
              getitem o "id" = Ok (VStr (str_int i))
          end.
Proof.
  intros item_list user kwargs tr result H. apply get_attrs_entry in H.
  destruct H as (t_data & ? & ? & ? & serialized_owners & owners & ? & ? & ? &
                 ? & ? & ? & ? &
                 _ & Howners & -> & _ & _ & Hentries).
  eexists _, serialized_owners. split.
  { rewrite in_app_iff. right. left. reflexivity. }
  apply index_by_id_spec in Howners. destruct Howners as [Hidx _].
  intros k p Hp.
  destruct (Hentries k p Hp)
    as (item & o & n & ps & a & c & d & Hin & Hk & -> & Ho & _).
  exists item, o. repeat (split; [assumption || reflexivity|]).
  destruct (Release.truthy_id (owner_id item)) as [i|] eqn:Hi; [|exact Ho].
  destruct (Hidx _ _ Ho) as [Hser Hid].
  split; [|auto].
  apply elem_of_list_to_set, list_elem_of_omap.
  exists item. split; [now apply list_elem_of_In|exact Hi].
Qed.

(** X8: the ["first_seen"] and ["last_seen"] of a release are the
    entries of the release-data helper's maps under the release's version,
    and [None] when the maps have no entry for it. *)
Theorem get_attrs_sightings :
  forall item_list user kwargs tr result,
    run (get_attrs item_list user kwargs) tr (Ok result) ->
    exists t1 t2 first_seen last_seen counts,
      tr = (t1 ++ t2)%list /\
      run (release_data kwargs item_list) t1 (Ok (first_seen, last_seen, counts)) /\
      forall k p, result !! k = Some p ->
        exists item,
          In item item_list /\ row_key item = k /\
          dict_lookup "first_seen" p
            = Some (of_option VTime (first_seen !! version item)) /\
          dict_lookup "last_seen" p
            = Some (of_option VTime (last_seen !! version item)).
Proof.
  intros item_list user kwargs tr result H. apply get_attrs_entry in H.
  destruct H as (t_data & first_seen & last_seen & counts & ? & ? & ? & ? & ? &
                 ? & ? & ? & ? &
                 Hdata & _ & -> & _ & _ & Hentries).
  eexists t_data, _, first_seen, last_seen, counts.
  split; [reflexivity|]. split; [exact Hdata|].
  intros k p Hp.
  destruct (Hentries k p Hp)
    as (item & o & n & ps & a & c & d & Hin & Hk & -> & _).
  exists item. auto.
Qed.

Lemma project_entry_without_health platforms_by_project has_health_data pr pr_rv :
  Release.project_entry platforms_by_project (inr has_health_data) pr = Ok pr_rv ->
  well_formed_project (VDict pr_rv) = true /\
  getitem (VDict pr_rv) "has_health_data"
  = Ok (VBool (bool_decide
                 ((pr_project_id pr, pr_release_version pr) ∈ has_health_data))) /\
  dict_lookup "health_data" pr_rv = None.
Proof.
  unfold Release.project_entry. intros [= <-].
  generalize (bool_decide ((pr_project_id pr, pr_release_version pr) ∈ has_health_data)).
  intros b. repeat split; reflexivity.
Qed.

(** X9: with a truthy [no_snuba] the health backend is never called,
    and every project of every release is reported without health data. *)
Theorem get_attrs_no_snuba :
  forall item_list user kwargs tr r,
    run (get_attrs item_list user kwargs) tr r ->
    truthy (no_snuba kwargs) = true ->
    Forall (fun c => collaborator_of c <> HealthBackend) tr /\
    forall result, r = Ok result ->
      forall k p, result !! k = Some p ->
        exists ps,
          dict_lookup "projects" p = Some (VList ps) /\
          Forall (fun x => getitem x "has_health_data" = Ok (VBool false)) ps.
Proof.
  intros item_list user kwargs tr r H Hsnuba. split.
  - revert tr r H.
    match goal with |- forall tr r, run ?p tr r -> _ => change (avoids HealthBackend p) end.
    unfold Release.get_attrs, Release.__get_release_data_no_environment,
      Release.__get_release_data_with_environments, Release.__get_project_id_list,
      Release._get_commit_metadata, Release.get_users_for_authors,
      Release._get_deploy_metadata.
    rewrite Hsnuba. destruct (truthy (with_health_data kwargs)); cbv iota.
    + apply avoids_raise.
    + cbn [andb]. repeat avoids_step.
  - intros result ->.
    destruct (truthy (with_health_data kwargs)) eqn:Hhealth.
    { unfold Release.get_attrs in H. rewrite Hhealth, Hsnuba in H.
      destruct H as [_ [=]]. }
    apply get_attrs_entry in H.
    destruct H as (? & ? & ? & ? & ? & ? & ? & ? & ? & ? & pbp & ? & health &
                   _ & _ & _ & Hhas & _ & Hentries).
    destruct (Hhas Hhealth) as (has & -> & Hempty).
    destruct (Hempty Hsnuba) as [-> _].
    intros k p Hp.
    destruct (Hentries k p Hp)
      as (item & o & n & ps & a & c & d & _ & _ & -> & _ & Hps).
    exists ps. split; [reflexivity|].
    apply List.Forall_forall. intros entry Hentry_in.
    destruct (Hps entry Hentry_in) as (pr & pr_rv & _ & _ & Hentry & ->).
    apply project_entry_without_health in Hentry as (_ & -> & _).
    repeat f_equal; try (apply bool_decide_eq_false; set_solver).
Qed.

Lemma serialize_returns obj attrs user :
  well_formed_version_info (version_info obj) = true ->
  well_formed_attrs attrs = true ->
  exists d, Release.serialize ReleaseStatus_to_string obj attrs user = Ok d.
Proof.
  intros Hinfo Hattrs. unfold Release.serialize.
  destruct (expose_version_info_total ReleaseStatus_to_string _ Hinfo) as [vi ->].
  cbn [rbind].
  unfold well_formed_attrs in Hattrs.
  apply andb_prop in Hattrs as [Hattrs Hprojects].
  apply andb_prop in Hattrs as [Hng Howner].
  apply bool_decide_eq_true in Hng as [n Hn].
  apply bool_decide_eq_true in Howner as [o Ho].
  replace (getitem (VDict attrs) "new_groups") with (Ok n)
    by (simpl; now rewrite Hn).
  replace (getitem (VDict attrs) "owner") with (Ok o)
    by (simpl; now rewrite Ho).
  cbn [rbind].
  destruct (iterate _) as [projects|]; [|discriminate]. cbn [rbind].
  destruct (rmap_total Release.expose_project projects) as [ps ->].
  { intros x Hx. apply (expose_project_total ReleaseStatus_to_string).
    rewrite forallb_forall in Hprojects. auto. }
  cbn [rbind]. eexists. reflexivity.
Qed.

(** X10: what [get_attrs] returns without health data is what
    [serialize] expects: for every entry of the result and every release
    whose version info is [None] or complete, [serialize] returns a
    dictionary and raises nothing. *)
Theorem serialize_accepts_attrs :
  forall item_list user kwargs tr result,
    run (get_attrs item_list user kwargs) tr (Ok result) ->
    truthy (with_health_data kwargs) = false ->
    forall k p obj viewer,
      result !! k = Some p ->
      well_formed_version_info (version_info obj) = true ->
      exists d, Release.serialize ReleaseStatus_to_string obj p viewer = Ok d.
Proof.
  intros item_list user kwargs tr result H Hhealth k p obj viewer Hp Hinfo.
  apply get_attrs_entry in H.
  destruct H as (? & ? & ? & ? & ? & ? & ? & ? & ? & ? & pbp & ? & health &
                 _ & _ & _ & Hhas & _ & Hentries).
  destruct (Hhas Hhealth) as (has & -> & _).
  destruct (Hentries k p Hp)
    as (item & o & n & ps & a & c & d & _ & _ & -> & _ & Hps).
  apply serialize_returns; [exact Hinfo|].
  unfold well_formed_attrs. simpl.
  apply forallb_forall. intros entry Hentry_in.
  destruct (Hps entry Hentry_in) as (pr & pr_rv & _ & _ & Hentry & ->).
  now apply project_entry_without_health in Hentry as (Hwf & _).
Qed.

Lemma run_bind_bind_call_inv {X A' B'} (e : event X) (f : X -> prog A')
    (g : A' -> prog B') tr r :
  run (bind (bind (call e) f) g) tr r ->
  exists x t, tr = Answer e x :: t /\ run (bind (f x) g) t r.
Proof. exact (fun H => H). Qed.

(** X11: a non-empty [environments] decides the environments asked
    for, whatever [environment] says; with [environments] absent or empty,
    [environment] stands for the one-name list; in both cases the first call
    is the environment query with these names and the tagstore is never
    called.  With neither, the tagstore is asked for the versions of the
    batch, for the project of the keyword arguments when there is one. *)
Theorem get_attrs_environment_choice :
  forall item_list user kwargs tr r,
    run (get_attrs item_list user kwargs) tr r ->
    truthy (with_health_data kwargs) && truthy (no_snuba kwargs) = false ->
    match environments kwargs, environment kwargs with
    | Some (e :: es), _ =>
        Forall (fun c => collaborator_of c <> Tagstore) tr /\
        exists rows t,
          tr = Answer (QueryReleaseProjectEnvironment (map id item_list) (e :: es)
                         (project kwargs)) rows :: t
    | _, Some name =>
        Forall (fun c => collaborator_of c <> Tagstore) tr /\
        exists rows t,
          tr = Answer (QueryReleaseProjectEnvironment (map id item_list) [name]
                         (project kwargs)) rows :: t
    | _, None =>
        exists project_ids tag_values,
          In (Answer (GetReleaseTags project_ids (map version item_list)) tag_values)
            tr /\
          forall project_id, project kwargs = Some project_id ->
                             project_ids = [project_id]
    end.
Proof.
  intros item_list user kwargs tr r H Hflags.
  assert (forall environments,
            effective_environments kwargs = Some environments ->
            Forall (fun c => collaborator_of c <> Tagstore) tr /\
            exists rows t,
              tr = Answer (QueryReleaseProjectEnvironment (map id item_list)
                             environments (project kwargs)) rows :: t) as Henv.
  { intros environments Heff. split.
    - revert tr r H.
      match goal with
      | |- forall tr r, run ?p tr r -> _ => change (avoids Tagstore p)
      end.
      unfold Release.get_attrs. rewrite Hflags.
      fold (effective_environments kwargs). rewrite Heff.
      unfold Release.__get_release_data_with_environments,
        Release._get_commit_metadata, Release.get_users_for_authors,
        Release._get_deploy_metadata.
      repeat avoids_step.
    - unfold Release.get_attrs in H. rewrite Hflags in H.
      fold (effective_environments kwargs) in H. rewrite Heff in H.
      unfold Release.__get_release_data_with_environments in H.
      apply run_bind_bind_call_inv in H as (rows & t & -> & _). eauto. }
  assert (effective_environments kwargs = None ->
          exists project_ids tag_values,
            In (Answer (GetReleaseTags project_ids (map version item_list))
                  tag_values) tr /\
            forall project_id, project kwargs = Some project_id ->
                               project_ids = [project_id]) as Htags.
  { intros Heff. unfold Release.get_attrs in H. rewrite Hflags in H.
    fold (effective_environments kwargs) in H. rewrite Heff in H.
    unfold Release.__get_release_data_no_environment in H.
    destruct (project kwargs) as [project_id|] eqn:Hproject.
    - apply run_bind_bind_call_inv in H as (tag_values & t & -> & _).
      exists [project_id], tag_values. split; [left; reflexivity|].
      now intros ? [= <-].
    - apply run_bind_inv in H.
      assert (forall tr' r',
                run (bind (Release.__get_project_id_list item_list)
                       (fun pat =>
                          let '(project_ids, specialized) := pat in
                          bind (call (GetReleaseTags project_ids
                                        (map version item_list)))
                            (fun tag_values =>
                               let '(first_seen, last_seen) :=
                                 Release.seen_of_tag_values tag_values in
                               bind (bind (call (QueryReleaseProjectGroupsNotNull
                                                   (map id item_list)))
                                       (fun rows =>
                                          Ret (fold_left
                                                 (fun counts '(project_id, release_id, new_groups) =>
                                                    Release.set_group_count release_id
                                                      project_id (Some new_groups) counts)
                                                 rows ∅)))
                                 (fun group_counts_by_release =>
                                    Ret (first_seen, last_seen,
                                         group_counts_by_release)))))
                  tr' r' ->
                exists project_ids tag_values,
                  In (Answer (GetReleaseTags project_ids (map version item_list))
                        tag_values) tr') as Hdata.
      { intros tr' r' Hrun. apply run_bind_inv in Hrun.
        destruct Hrun as [([project_ids specialized] & t1 & t2 & -> & _ & Hrun)
                         |(e & Hrun & _)].
        - run_bind_call Hrun as tag_values.
          exists project_ids, tag_values. rewrite in_app_iff. right. left. reflexivity.
        - unfold Release.__get_project_id_list in Hrun.
          destruct (fold_left _ item_list _) as [ids need_fallback].
          destruct (negb need_fallback); [destruct Hrun as [_ [=]]|].
          run_bind_call Hrun as ids'. destruct Hrun as [_ [=]]. }
      destruct H as [(data & t1 & t2 & -> & Hrun & _)|(e & Hrun & _)];
        apply Hdata in Hrun as (project_ids & tag_values & Hin);
        exists project_ids, tag_values; (split; [|discriminate]);
        rewrite ?in_app_iff; auto. }
  unfold effective_environments in Henv, Htags.
  destruct (environments kwargs) as [[|e es]|];
    destruct (environment kwargs) as [name|]; eauto.
Qed.

End Attributes.

Lemma demo_attrs_returns :
  exists result,
    run (Release.get_attrs Demo.digest ascii_lower Demo.row_key
           [Demo.release_1; Demo.release_2] VNone Demo.no_kwargs)
      (snd Demo.attrs_run) (Ok result).
Proof.
  pose proof (interp_run Demo.answer
    (Release.get_attrs Demo.digest ascii_lower Demo.row_key
       [Demo.release_1; Demo.release_2] VNone Demo.no_kwargs) ∅) as Hrun.
  fold Demo.attrs_run in Hrun.
  destruct (fst (fst Demo.attrs_run)) as [result|e] eqn:E;
    [|vm_compute in E; discriminate E].
  exists result. exact Hrun.
Qed.

Lemma get_attrs_entries_cover_batch_witness :
  exists result,
    run (Release.get_attrs Demo.digest ascii_lower Demo.row_key
           [Demo.release_1; Demo.release_2] VNone Demo.no_kwargs)
      (snd Demo.attrs_run) (Ok result) /\
    dom result = list_to_set (map Demo.row_key [Demo.release_1; Demo.release_2]) /\
    forall k p, result !! k = Some p ->
      map fst p = ["owner"; "new_groups"; "projects"; "first_seen"; "last_seen";
                   "authors"; "last_commit"; "last_deploy"].
Proof.
  destruct demo_attrs_returns as [result Hrun].
  exists result. split; [exact Hrun|].
  exact (get_attrs_entries_cover_batch Demo.digest ascii_lower Demo.row_key
           _ _ _ _ _ Hrun).
Defined.

Lemma get_attrs_owner_witness :
  exists result,
    run (Release.get_attrs Demo.digest ascii_lower Demo.row_key
           [Demo.release_1; Demo.release_2] VNone Demo.no_kwargs)
      (snd Demo.attrs_run) (Ok result) /\
    exists owner_ids serialized_owners,
      In (Answer (SerializeOwners owner_ids VNone) serialized_owners)
        (snd Demo.attrs_run) /\
      forall k p, result !! k = Some p ->
        exists item o,
          In item [Demo.release_1; Demo.release_2] /\ Demo.row_key item = k /\
          dict_lookup "owner" p = Some o /\
          match Release.truthy_id (owner_id item) with
          | None => o = VNone
          | Some i =>
              i ∈ owner_ids /\ In o serialized_owners /\
              getitem o "id" = Ok (VStr (str_int i))
          end.
Proof.
  destruct demo_attrs_returns as [result Hrun].
  exists result. split; [exact Hrun|].
  exact (get_attrs_owner Demo.digest ascii_lower Demo.row_key _ _ _ _ _ Hrun).
Defined.

Lemma get_attrs_sightings_witness :
  exists result,
    run (Release.get_attrs Demo.digest ascii_lower Demo.row_key
           [Demo.release_1; Demo.release_2] VNone Demo.no_kwargs)
      (snd Demo.attrs_run) (Ok result) /\
    exists t1 t2 first_seen last_seen counts,
      snd Demo.attrs_run = (t1 ++ t2)%list /\
      run (release_data Demo.no_kwargs [Demo.release_1; Demo.release_2]) t1
        (Ok (first_seen, last_seen, counts)) /\
      forall k p, result !! k = Some p ->
        exists item,
          In item [Demo.release_1; Demo.release_2] /\ Demo.row_key item = k /\
          dict_lookup "first_seen" p
            = Some (of_option VTime (first_seen !! version item)) /\
          dict_lookup "last_seen" p
            = Some (of_option VTime (last_seen !! version item)).
Proof.
  destruct demo_attrs_returns as [result Hrun].
  exists result. split; [exact Hrun|].
  exact (get_attrs_sightings Demo.digest ascii_lower Demo.row_key _ _ _ _ _ Hrun).
Defined.

Lemma get_attrs_no_snuba_witness :
  truthy (no_snuba Further.no_snuba_kwargs) = true /\
  Forall (fun c => collaborator_of c <> HealthBackend) (snd Further.no_snuba_run) /\
  forall result, fst (fst Further.no_snuba_run) = Ok result ->
    forall k p, result !! k = Some p ->
      exists ps,
        dict_lookup "projects" p = Some (VList ps) /\
        Forall (fun x => getitem x "has_health_data" = Ok (VBool false)) ps.
Proof.
  split; [reflexivity|].
  apply (get_attrs_no_snuba Demo.digest ascii_lower Demo.row_key
           [Demo.release_1; Demo.release_2] VNone Further.no_snuba_kwargs).
  - apply interp_run.
  - reflexivity.
Defined.

Lemma serialize_accepts_attrs_witness :
  exists result,
    run (Release.get_attrs Demo.digest ascii_lower Demo.row_key
           [Demo.release_1; Demo.release_2] VNone Demo.no_kwargs)
      (snd Demo.attrs_run) (Ok result) /\
    truthy (with_health_data Demo.no_kwargs) = false /\
    forall k p obj viewer,
      result !! k = Some p ->
      well_formed_version_info (version_info obj) = true ->
      exists d, Release.serialize Demo.status_name obj p viewer = Ok d.
Proof.
  destruct demo_attrs_returns as [result Hrun].
  exists result. split; [exact Hrun|]. split; [reflexivity|].
  exact (serialize_accepts_attrs Demo.digest ascii_lower Demo.status_name
           Demo.row_key _ _ _ _ _ Hrun eq_refl).
Defined.

Lemma get_attrs_environment_choice_witness :
  Forall (fun c => collaborator_of c <> Tagstore) (snd Further.environment_run) /\
  exists rows t,
    snd Further.environment_run
    = Answer (QueryReleaseProjectEnvironment
                (map id [Demo.release_1; Demo.release_2]) ["production"] (Some 10))
        rows :: t.
Proof.
  apply (get_attrs_environment_choice Demo.digest ascii_lower Demo.row_key
           [Demo.release_1; Demo.release_2] VNone Further.environment_kwargs
           (snd Further.environment_run) (fst (fst Further.environment_run))).
  - apply interp_run.
  - reflexivity.
Defined.

(** ** Cache misses and cache writes *)

Section CacheTraffic.

Variable md5_hexdigest : string -> string.
Variable str_lower : string -> string.

Abbreviation cache_key := (Release._user_to_author_cache_key md5_hexdigest str_lower).
Abbreviation get_users_for_authors :=
  (Release.get_users_for_authors md5_hexdigest str_lower).

Lemma partition_fetched_missed organization_id (fetched : gmap string value) authors :
  snd (Release.partition_fetched md5_hexdigest str_lower organization_id fetched
         authors)
  = List.filter (fun a => cache_miss fetched (cache_key organization_id a)) authors.
Proof.
  induction authors as [|author authors IH] using rev_ind; [reflexivity|].
  rewrite partition_fetched_snoc, List.filter_app.
  destruct (Release.partition_fetched _ _ _ _ authors) as [results missed].
  simpl in IH. subst missed. simpl. unfold cache_miss.
  destruct (fetched !! cache_key organization_id author) as [[]|];
    simpl; rewrite ?app_nil_r; reflexivity.
Qed.

Lemma first_loop_missed organization_id (fetched : gmap string value) authors
    (results : gmap string value) missed :
  (if bool_decide (fetched = ∅) then (∅, authors)
   else Release.partition_fetched md5_hexdigest str_lower
          organization_id fetched authors) = (results, missed) ->
  missed = List.filter (fun a => cache_miss fetched (cache_key organization_id a))
             authors.
Proof.
  destruct (bool_decide (fetched = ∅)) eqn:Hempty.
  - apply bool_decide_eq_true in Hempty. subst fetched. intros [= _ <-].
    induction authors as [|a authors IH]; [reflexivity|].
    simpl. unfold cache_miss at 1. rewrite lookup_empty. now f_equal.
  - intros H. rewrite <- partition_fetched_missed. now rewrite H.
Qed.

(** X12: the users are looked up for the authors the cache missed and
    for no others: when every author is found in the cache, only the two
    metrics follow the cache read and the function returns; otherwise the
    next call is the e-mail query, with the addresses of the missing
    authors in the order of the list.  The first metric reports how many
    were missing. *)
Theorem get_users_for_authors_asks_for_misses :
  forall organization_id authors user tr r,
    run (get_users_for_authors organization_id authors user) tr r ->
    exists fetched t,
      tr = Answer (CacheGetMany (map (cache_key organization_id) authors)) fetched
           :: t /\
      let missed :=
        List.filter (fun a => cache_miss fetched (cache_key organization_id a))
          authors in
      match missed with
      | [] =>
          Forall (fun c => collaborator_of c = Metrics) t /\
          exists results, r = Ok results
      | _ :: _ =>
          exists user_emails t',
            t = Answer (QueryUserEmail (map email missed)) user_emails :: t'
      end /\
      (forall results, r = Ok results ->
         In (Answer (MetricsIncr "sentry.release.get_users_for_authors.missed"
                       (length missed)) ()) t).
Proof.
  intros organization_id authors user tr r H.
  apply get_users_for_authors_runs in H.
  destruct H as (fetched & results & missed & Hpart & H). cbv zeta in H.
  apply first_loop_missed in Hpart.
  exists fetched.
  destruct H as [(-> & -> & ->)|(Hne & user_emails & rows & users & H)].
  - eexists. split; [reflexivity|]. cbv zeta. rewrite <- Hpart. split.
    + split; [repeat constructor|eauto].
    + intros _ _. left. reflexivity.
  - destruct H as [(e & _ & -> & ->)
                  |(ubi & results' & to_cache & _ & _ & -> & ->)].
    + eexists. split; [reflexivity|]. cbv zeta. rewrite <- Hpart. split.
      * destruct missed; [now destruct Hne|eauto].
      * intros results' [=].
    + eexists. split; [reflexivity|]. cbv zeta. rewrite <- Hpart. split.
      * destruct missed; [now destruct Hne|]. simpl. eauto.
      * intros _ _. simpl. auto 10.
Qed.

Lemma resolve_missed_cache organization_id (users_by_email results : gmap string value)
    missed :
  forall (results' to_cache : gmap string value),
    Release.resolve_missed md5_hexdigest str_lower organization_id users_by_email
      missed results = (results', to_cache) ->
    (forall a, In a missed -> is_Some (to_cache !! cache_key organization_id a)) /\
    (forall k v, to_cache !! k = Some v ->
       exists a, In a missed /\ cache_key organization_id a = k /\
                 v = default (Release.author_fallback a)
                       (users_by_email !! str_lower (email a))).
Proof.
  induction missed as [|author missed IH] using rev_ind; intros results' to_cache H.
  - injection H as _ <-. split; [intros a []|].
    intros k v Hkv. now rewrite lookup_empty in Hkv.
  - rewrite resolve_missed_snoc in H.
    destruct (Release.resolve_missed _ _ _ _ missed _) as [results1 to_cache1].
    destruct (IH _ _ eq_refl) as (Hall & Hvalues).
    injection H as _ <-. split.
    + intros a Ha.
      destruct (decide (cache_key organization_id author = cache_key organization_id a))
        as [->|Hne].
      * rewrite lookup_insert_eq. eauto.
      * rewrite lookup_insert_ne by exact Hne.
        apply in_app_iff in Ha as [Ha|[->|[]]]; [auto|now destruct Hne].
    + intros k v Hkv.
      destruct (decide (cache_key organization_id author = k)) as [<-|Hne].
      * rewrite lookup_insert_eq in Hkv. injection Hkv as <-.
        exists author. rewrite in_app_iff. simpl. auto.
      * rewrite lookup_insert_ne in Hkv by exact Hne.
        destruct (Hvalues k v Hkv) as (a & Ha & Hk & Hv).
        exists a. rewrite in_app_iff. auto.
Qed.

(** X13: what [get_users_for_authors] writes to the cache makes the next
    read a hit: it writes an entry for every author the cache missed, under
    the keys of such authors only, and never writes [None] or another falsy
    value. *)
Theorem get_users_for_authors_cache_write :
  forall organization_id authors user tr r,
    run (get_users_for_authors organization_id authors user) tr r ->
    forall c to_cache,
      In c tr -> written_to_cache c = Some to_cache ->
      exists fetched t,
        tr = Answer (CacheGetMany (map (cache_key organization_id) authors)) fetched
             :: t /\
        (forall a, In a authors ->
           cache_miss fetched (cache_key organization_id a) = true ->
           cache_miss to_cache (cache_key organization_id a) = false) /\
        (forall k v, to_cache !! k = Some v ->
           truthy v = true /\
           exists a, In a authors /\ cache_key organization_id a = k /\
                     cache_miss fetched k = true).
Proof.
  intros organization_id authors user tr r H c to_cache Hc Hwritten.
  apply get_users_for_authors_runs in H.
  destruct H as (fetched & results & missed & Hpart & H). cbv zeta in H.
  apply first_loop_missed in Hpart.
  exists fetched.
  destruct H as [(_ & _ & ->)|(_ & user_emails & rows & users & H)].
  { simpl in Hc. destruct Hc as [<-|[<-|[<-|[]]]]; discriminate Hwritten. }
  destruct H as [(e & _ & _ & ->)|(ubi & results' & to_cache' & _ & Hres & _ & ->)].
  { simpl in Hc. destruct Hc as [<-|[<-|[<-|[<-|[]]]]]; discriminate Hwritten. }
  simpl in Hc.
  destruct Hc as [<-|[<-|[<-|[<-|[<-|[<-|[<-|[]]]]]]]]; try discriminate Hwritten.
  injection Hwritten as ->.
  eexists. split; [reflexivity|].
  apply resolve_missed_cache in Hres. destruct Hres as (Hall & Hvalues).
  assert (forall k v, to_cache !! k = Some v ->
            truthy v = true /\
            exists a, In a missed /\ cache_key organization_id a = k) as Hwrite.
  { intros k v Hkv. destruct (Hvalues k v Hkv) as (a & Ha & Hk & ->).
    split; [|eauto].
    pose proof (match_emails_spec str_lower ubi user_emails (str_lower (email a)))
      as Hm.
    destruct (Release.match_emails _ _ _ !! _) as [u|]; simpl.
    - now destruct Hm as (ue & _ & _ & _ & Ht).
    - reflexivity. }
  subst missed. split.
  - intros a Ha Hmiss.
    destruct (Hall a) as [v Hv].
    { apply filter_In. auto. }
    destruct (Hwrite _ _ Hv) as [Ht _].
    unfold cache_miss. rewrite Hv. now destruct v.
  - intros k v Hkv. destruct (Hwrite k v Hkv) as (Ht & a & Ha & Hk).
    apply filter_In in Ha as [Ha Hmiss].
    split; [exact Ht|]. exists a. subst k. auto.
Qed.

End CacheTraffic.

Lemma get_users_for_authors_asks_for_misses_witness :
  exists fetched t,
    snd Demo.authors_run
    = Answer (CacheGetMany
                (map (Release._user_to_author_cache_key Demo.digest ascii_lower 1)
                   Demo.commit_authors)) fetched :: t /\
    let missed :=
      List.filter
        (fun a => cache_miss fetched
                    (Release._user_to_author_cache_key Demo.digest ascii_lower 1 a))
        Demo.commit_authors in
    match missed with
    | [] =>
        Forall (fun c => collaborator_of c = Metrics) t /\
        exists results, fst (fst Demo.authors_run) = Ok results
    | _ :: _ =>
        exists user_emails t',
          t = Answer (QueryUserEmail (map email missed)) user_emails :: t'
    end /\
    (forall results, fst (fst Demo.authors_run) = Ok results ->
       In (Answer (MetricsIncr "sentry.release.get_users_for_authors.missed"
                     (length missed)) ()) t).
Proof.
  apply (get_users_for_authors_asks_for_misses Demo.digest ascii_lower 1
           Demo.commit_authors VNone).
  apply interp_run.
Defined.

Lemma get_users_for_authors_cache_write_witness :
  In (Answer (CacheSetMany Further.authors_written) ()) (snd Demo.authors_run) /\
  exists fetched t,
    snd Demo.authors_run
    = Answer (CacheGetMany
                (map (Release._user_to_author_cache_key Demo.digest ascii_lower 1)
                   Demo.commit_authors)) fetched :: t /\
    (forall a, In a Demo.commit_authors ->
       cache_miss fetched
         (Release._user_to_author_cache_key Demo.digest ascii_lower 1 a) = true ->
       cache_miss Further.authors_written
         (Release._user_to_author_cache_key Demo.digest ascii_lower 1 a) = false) /\
    (forall k v, Further.authors_written !! k = Some v ->
       truthy v = true /\
       exists a, In a Demo.commit_authors /\
                 Release._user_to_author_cache_key Demo.digest ascii_lower 1 a = k /\
                 cache_miss fetched k = true).
Proof.
  assert (In (Answer (CacheSetMany Further.authors_written) ())
            (snd Demo.authors_run)) as Hin.
  { vm_compute. do 4 right. left. reflexivity. }
  split; [exact Hin|].
  apply (get_users_for_authors_cache_write Demo.digest ascii_lower 1
           Demo.commit_authors VNone (snd Demo.authors_run)
           (fst (fst Demo.authors_run)) (interp_run _ _ _)
           (Answer (CacheSetMany Further.authors_written) ()) _ Hin).
  reflexivity.
Defined.

(** ** Commit and deploy metadata *)

Lemma rfold_invariant {A S} (f : S -> A -> result S) (P : S -> Prop) l :
  (forall s x s', P s -> f s x = Ok s' -> P s') ->
  forall s s', P s -> rfold f l s = Ok s' -> P s'.
Proof.
  intros Hstep. induction l as [|x l IH]; simpl; intros s s' Hs H.
  - now injection H as <-.
  - destruct (f s x) as [s1|] eqn:Hf; [|discriminate H]. eauto.
Qed.

Lemma item_authors_distinct users_by_author item users :
  Release.item_authors users_by_author item = Ok users ->
  NoDup (map email_key users) /\
  Forall (fun u => truthy u = true /\ is_Some (email_key u) /\
                   exists a, users_by_author !! a = Some u) users.
Proof.
  unfold Release.item_authors. intros H.
  destruct (rfold _ (authors item) _) as [[item_authors seen]|] eqn:Hfold;
    [|discriminate H].
  injection H as <-. simpl.
  apply (rfold_invariant _
           (fun s =>
              map email_key (fst s) = map Some (rev (snd s)) /\
              NoDup (snd s) /\
              Forall (fun u => truthy u = true /\ is_Some (email_key u) /\
                               exists a, users_by_author !! a = Some u) (fst s)))
    in Hfold.
  - destruct Hfold as (Hkeys & Hseen & Hall). simpl in *.
    split; [|exact Hall]. rewrite Hkeys.
    apply NoDup_fmap_2; [typeclasses eauto|]. now rewrite <- Permutation_rev.
  - clear. intros [ia seen] a [ia' seen'] (Hkeys & Hseen & Hall) Hstep.
    simpl in *.
    destruct (users_by_author !! a) as [user|] eqn:Huser;
      [|injection Hstep as <- <-; auto].
    destruct (truthy user) eqn:Htruthy; [|injection Hstep as <- <-; auto].
    destruct (getitem user "email") as [e|] eqn:He; [|discriminate Hstep].
    cbn [rbind] in Hstep.
    destruct (Release.hash_key e) as [h|] eqn:Hh; [|discriminate Hstep].
    cbn [rbind] in Hstep.
    destruct (bool_decide (h ∈ seen)) eqn:Hin; injection Hstep as <- <-; [auto|].
    apply bool_decide_eq_false in Hin.
    assert (email_key user = Some h) as Hkey.
    { unfold email_key. now rewrite He, Hh. }
    split; [|split].
    + rewrite map_app, Hkeys. simpl. now rewrite Hkey, map_app.
    + now constructor.
    + apply Forall_app. split; [exact Hall|].
      constructor; [|constructor]. rewrite Hkey. eauto.
  - simpl. split; [reflexivity|]. split; constructor.
Qed.

Section Metadata.

Variable md5_hexdigest : string -> string.
Variable str_lower : string -> string.
Context {K : Type} {K_eq_dec : EqDecision K} {K_countable : Countable K}.
Variable row_key : Release -> K.

Abbreviation _get_commit_metadata :=
  (Release._get_commit_metadata md5_hexdigest str_lower row_key).

(** X14: the ["authors"] of a release hold each e-mail address once:
    the users listed are truthy, have an ["email"], and no two of them have
    the same one. *)
Theorem commit_metadata_authors_distinct :
  forall item_list user tr result,
    run (_get_commit_metadata item_list user) tr (Ok result) ->
    forall k m, result !! k = Some m ->
      exists item users,
        In item item_list /\ row_key item = k /\
        dict_lookup "authors" m = Some (VList users) /\
        NoDup (map email_key users) /\
        Forall (fun u => truthy u = true /\ is_Some (email_key u)) users.
Proof.
  intros item_list user tr result H k m Hkm.
  unfold Release._get_commit_metadata in H.
  run_bind H as authors Hauthors. run_bind H as users_by_author Husers.
  run_bind H as commits Hcommits.
  apply run_lift_inv in H as [_ H]. symmetry in H.
  erewrite rfold_ext in H.
  - apply (keyed_loop_spec row_key
             (fun item =>
                rbind (Release.item_authors users_by_author item) (fun item_authors =>
                Ok (dict_of [
                  ("authors", VList item_authors);
                  ("last_commit", Release.lookup_id commits (last_commit_id item))]))))
      in H.
    destruct H as [H _].
    destruct (H k m Hkm) as (item & Hin & Hk & Hm).
    destruct (Release.item_authors _ _) as [users|] eqn:Husers'; [|discriminate Hm].
    injection Hm as <-.
    apply item_authors_distinct in Husers' as [Hnodup Hall].
    exists item, users. repeat (split; [assumption || reflexivity|]).
    eapply Forall_impl; [exact Hall|]. simpl. tauto.
  - intros s' x. simpl. now destruct (Release.item_authors _ _).
Qed.

Lemma no_ids (f : Release -> option Z) (item_list : list Release) :
  (forall item, In item item_list -> f item = None) ->
  (list_to_set (omap f item_list) : gset Z) = ∅.
Proof.
  intros Hnone. induction item_list as [|item item_list IH]; [reflexivity|].
  simpl. rewrite (Hnone item) by (left; reflexivity).
  apply IH. intros x Hx. apply Hnone. now right.
Qed.

(** X15: a batch in which no release has authors or a last commit costs
    [_get_commit_metadata] no call at all: it returns, for every release,
    no authors and no last commit.  The empty batch is such a batch. *)
Theorem commit_metadata_nothing_to_fetch :
  forall item_list user tr r,
    run (_get_commit_metadata item_list user) tr r ->
    (forall item, In item item_list ->
       authors item = [] /\ Release.truthy_id (last_commit_id item) = None) ->
    tr = [] /\
    exists result,
      r = Ok result /\
      forall item, In item item_list ->
        result !! row_key item
        = Some [("authors", VList []); ("last_commit", VNone)].
Proof.
  intros item_list user tr r H Hnothing.
  unfold Release._get_commit_metadata in H.
  assert ((list_to_set (concat (map authors item_list)) : gset string) = ∅)
    as Hauthors.
  { replace (concat (map authors item_list)) with (@nil string); [reflexivity|].
    symmetry. clear H.
    induction item_list as [|item item_list IH]; [reflexivity|].
    simpl. rewrite (proj1 (Hnothing item (or_introl eq_refl))). simpl.
    apply IH. intros x Hx. apply Hnothing. now right. }
  rewrite Hauthors in H.
  rewrite (no_ids (fun o => Release.truthy_id (last_commit_id o)) item_list) in H
    by (intros item Hin; apply Hnothing, Hin).
  rewrite !bool_decide_eq_true_2 in H by reflexivity.
  simpl in H. apply run_lift_inv in H as [-> ->]. split; [reflexivity|].
  assert (forall acc : gmap K (list (string * value)),
            exists result,
              rfold
                (fun result item =>
                   rbind (Release.item_authors ∅ item) (fun item_authors =>
                   Ok (<[row_key item := dict_of [
                         ("authors", VList item_authors);
                         ("last_commit",
                          Release.lookup_id ∅ (last_commit_id item))]]> result)))
                item_list acc = Ok result /\
              forall item,
                (In item item_list \/
                 acc !! row_key item
                 = Some [("authors", VList []); ("last_commit", VNone)]) ->
                result !! row_key item
                = Some [("authors", VList []); ("last_commit", VNone)]) as Hloop.
  { clear Hauthors. induction item_list as [|item item_list IH]; intros acc.
    - exists acc. split; [reflexivity|]. intros item [[]|Hacc]. exact Hacc.
    - simpl. rewrite item_authors_no_users. cbn [rbind].
      destruct (IH (fun x Hx => Hnothing x (or_intror Hx))
                  (<[row_key item := dict_of [
                       ("authors", VList []);
                       ("last_commit", Release.lookup_id ∅ (last_commit_id item))]]>
                     acc)) as (result & -> & Hres).
      exists result. split; [reflexivity|].
      intros item' Hitem'. apply Hres.
      assert (Release.lookup_id ∅ (last_commit_id item) = VNone) as ->.
      { unfold Release.lookup_id. destruct (last_commit_id item); [|reflexivity].
        now rewrite lookup_empty. }
      destruct (decide (row_key item = row_key item')) as [->|Hne].
      + right. now rewrite lookup_insert_eq.
      + rewrite lookup_insert_ne by exact Hne.
        destruct Hitem' as [[->|Hin]|Hacc]; [now destruct Hne|auto|auto]. }
  destruct (Hloop ∅) as (result & Hfold & Hres).
  exists result. split; [exact Hfold|]. intros item Hin. apply Hres. auto.
Qed.

End Metadata.

Lemma commit_metadata_authors_distinct_witness :
  exists item users,
    In item [Demo.release_1; Demo.release_2] /\ Demo.row_key item = (1, Some 10) /\
    dict_lookup "authors" Further.release_1_metadata = Some (VList users) /\
    NoDup (map email_key users) /\
    Forall (fun u => truthy u = true /\ is_Some (email_key u)) users.
Proof.
  apply (commit_metadata_authors_distinct Demo.digest ascii_lower Demo.row_key
           [Demo.release_1; Demo.release_2] VNone (snd Further.metadata_run)
           Further.metadata_result).
  - pose proof (interp_run Demo.answer
      (Release._get_commit_metadata Demo.digest ascii_lower Demo.row_key
         [Demo.release_1; Demo.release_2] VNone) ∅) as Hrun.
    fold Further.metadata_run in Hrun.
    assert (fst (fst Further.metadata_run) = Ok Further.metadata_result) as E
      by (vm_compute; reflexivity).
    rewrite E in Hrun. exact Hrun.
  - vm_compute. reflexivity.
Defined.

Lemma commit_metadata_nothing_to_fetch_witness :
  snd Further.bare_metadata_run = [] /\
  exists result,
    fst (fst Further.bare_metadata_run) = Ok result /\
    forall item, In item Further.bare_batch ->
      result !! Demo.row_key item
      = Some [("authors", VList []); ("last_commit", VNone)].
Proof.
  apply (commit_metadata_nothing_to_fetch Demo.digest ascii_lower Demo.row_key
           Further.bare_batch VNone _ _ (interp_run _ _ _)).
  intros item [<-|[<-|[]]]; split; reflexivity.
Defined.

Lemma combine_lookup {A B} (l : list A) (k : list B) n x y :
  combine l k !! n = Some (x, y) -> l !! n = Some x /\ k !! n = Some y.
Proof.
  revert k n. induction l as [|a l IH]; intros [|b k] [|n]; simpl;
    try discriminate.
  - intros [= -> ->]. auto.
  - apply IH.
Qed.

Lemma zip_by_pk_lookup rows serialized i v :
  Release.zip_by_pk rows serialized !! i = Some v ->
  exists n row, rows !! n = Some row /\ pk row = i /\ serialized !! n = Some v.
Proof.
  unfold Release.zip_by_pk.
  assert (forall l : list (Row * value),
            fold_left (fun acc cd => <[pk (fst cd) := snd cd]> acc) l (∅ : gmap Z value)
              !! i = Some v ->
            exists n cd, l !! n = Some cd /\ pk (fst cd) = i /\ snd cd = v) as Hgen.
  { induction l as [|cd l IH] using rev_ind; intros H.
    - simpl in H. now rewrite lookup_empty in H.
    - rewrite fold_left_app in H. simpl in H.
      destruct (decide (pk (fst cd) = i)) as [Heq|Hne].
      + rewrite Heq, lookup_insert_eq in H. injection H as H.
        exists (length l), cd. split; [|auto].
        now rewrite lookup_app_r, Nat.sub_diag by lia.
      + rewrite lookup_insert_ne in H by exact Hne.
        destruct (IH H) as (n & cd' & Hn & Hcd').
        exists n, cd'. split; [|exact Hcd'].
        apply lookup_app_l_Some, Hn. }
  intros H. destruct (Hgen _ H) as (n & [row v'] & Hn & Hpk & Hv).
  simpl in Hpk, Hv. subst v'.
  apply combine_lookup in Hn as [Hrow Hser]. eauto.
Qed.

Lemma lookup_id_zip rows serialized o v :
  Release.lookup_id (Release.zip_by_pk rows serialized) o = v ->
  v = VNone \/
  exists i n row,
    o = Some i /\ rows !! n = Some row /\ pk row = i /\ serialized !! n = Some v.
Proof.
  unfold Release.lookup_id. destruct o as [i|]; [|auto].
  destruct (Release.zip_by_pk rows serialized !! i) as [x|] eqn:Hx; simpl;
    [|auto].
  intros <-. right. apply zip_by_pk_lookup in Hx as (n & row & ? & ? & ?).
  exists i, n, row. auto.
Qed.

Section Deploys.

Context {K : Type} {K_eq_dec : EqDecision K} {K_countable : Countable K}.
Variable row_key : Release -> K.

Lemma deploy_loop_spec (deploys : gmap Z value) item_list :
  let result : gmap K (list (string * value)) :=
    fold_left
      (fun result item =>
         <[row_key item := dict_of [
            ("last_deploy", Release.lookup_id deploys (last_deploy_id item))]]>
           result)
      item_list ∅ in
  dom result = list_to_set (map row_key item_list) /\
  forall k m, result !! k = Some m ->
    exists item,
      In item item_list /\ row_key item = k /\
      m = [("last_deploy", Release.lookup_id deploys (last_deploy_id item))].
Proof.
  induction item_list as [|item item_list IH] using rev_ind; simpl.
  - split; [set_solver|]. intros k m H. now rewrite lookup_empty in H.
  - destruct IH as [IHdom IH].
    rewrite fold_left_app, map_app, list_to_set_app_L. simpl. split.
    + rewrite dom_insert_L, IHdom. set_solver.
    + intros k m H.
      destruct (decide (row_key item = k)) as [Heq|Hne].
      * rewrite Heq, lookup_insert_eq in H. injection H as <-.
        exists item. rewrite in_app_iff. simpl. auto.
      * rewrite lookup_insert_ne in H by exact Hne.
        destruct (IH k m H) as (it & ? & ? & ?).
        exists it. rewrite in_app_iff. auto.
Qed.

(** X16: [_get_deploy_metadata] always returns.  It makes no call when no
    release of the batch has a last deploy, and otherwise asks for the
    deploys with exactly the ids of the batch and has exactly the rows it
    gets serialized.  The result has an entry for every release, and the
    ["last_deploy"] of an entry is [None] or the serialization that stands
    at the position of a row with the release's last deploy id. *)
Theorem deploy_metadata_from_serializer :
  forall item_list user tr r,
    run (Release._get_deploy_metadata row_key item_list user) tr r ->
    let deploy_ids : gset Z :=
      list_to_set (omap (fun o => Release.truthy_id (last_deploy_id o)) item_list) in
    exists result deploy_list serialized,
      r = Ok result /\
      tr = (if bool_decide (deploy_ids = ∅) then []
            else [Answer (QueryDeploy deploy_ids) deploy_list;
                  Answer (Serialize deploy_list user) serialized]) /\
      dom result = list_to_set (map row_key item_list) /\
      forall k m, result !! k = Some m ->
        exists item v,
          In item item_list /\ row_key item = k /\ m = [("last_deploy", v)] /\
          (v = VNone \/
           exists i n row,
             bool_decide (deploy_ids = ∅) = false /\
             last_deploy_id item = Some i /\
             deploy_list !! n = Some row /\ pk row = i /\
             serialized !! n = Some v).
Proof.
  intros item_list user tr r H deploy_ids.
  unfold Release._get_deploy_metadata in H. fold deploy_ids in H.
  destruct (bool_decide (deploy_ids = ∅)) eqn:Hids.
  - simpl in H. destruct H as [-> ->].
    eexists _, [], []. split; [reflexivity|]. split; [reflexivity|].
    destruct (deploy_loop_spec ∅ item_list) as [Hdom Hentries].
    split; [exact Hdom|].
    intros k m Hkm. destruct (Hentries k m Hkm) as (item & Hin & Hk & ->).
    exists item, VNone. repeat (split; [assumption|]).
    split; [|now left].
    unfold Release.lookup_id. destruct (last_deploy_id item); [|reflexivity].
    now rewrite lookup_empty.
  - simpl in H. destruct H as (deploy_list & t & -> & serialized & t' & -> & -> & ->).
    eexists _, deploy_list, serialized.
    split; [reflexivity|]. split; [reflexivity|].
    destruct (deploy_loop_spec (Release.zip_by_pk deploy_list serialized) item_list)
      as [Hdom Hentries].
    split; [exact Hdom|].
    intros k m Hkm. destruct (Hentries k m Hkm) as (item & Hin & Hk & ->).
    exists item, (Release.lookup_id (Release.zip_by_pk deploy_list serialized)
                    (last_deploy_id item)).
    repeat (split; [assumption || reflexivity|]).
    destruct (lookup_id_zip deploy_list serialized (last_deploy_id item) _ eq_refl)
      as [Hnone|(i & n & row & ? & ? & ? & ?)]; [now left|].
    right. exists i, n, row. auto.
Qed.

End Deploys.

(** ** The projects of a batch *)

Lemma strictly_sorted (l : list Z) :
  StronglySorted Z.le l -> NoDup l -> StronglySorted Z.lt l.
Proof.
  induction 1 as [|x l Hsorted IH Hall]; intros Hnodup; constructor.
  - apply IH. now apply NoDup_cons in Hnodup as [_ ?].
  - apply NoDup_cons in Hnodup as [Hx _].
    apply List.Forall_forall. intros y Hy.
    rewrite List.Forall_forall in Hall. specialize (Hall y Hy).
    assert (x <> y) by (intros ->; apply Hx, list_elem_of_In, Hy). lia.
Qed.

Lemma annotations_loop item_list :
  let acc :=
    fold_left
      (fun '(project_ids, need_fallback) release =>
         match for_project_id release with
         | Some p => (({[p]} : gset Z) ∪ project_ids, need_fallback)
         | None => (project_ids, true)
         end)
      item_list ((∅ : gset Z), false) in
  snd acc = negb (all_annotated item_list) /\
  forall p, p ∈ fst acc <->
            exists item, In item item_list /\ for_project_id item = Some p.
Proof.
  induction item_list as [|item item_list IH] using rev_ind; simpl.
  - split; [reflexivity|]. intros p. split; [set_solver|]. now intros (? & [] & _).
  - rewrite fold_left_app. simpl.
    destruct (fold_left _ item_list _) as [project_ids need_fallback].
    destruct IH as [IHflag IHids]. simpl in IHflag, IHids.
    unfold all_annotated in *. rewrite forallb_app. simpl.
    destruct (for_project_id item) as [q|] eqn:Hq; simpl.
    + split.
      * now rewrite IHflag, andb_true_r.
      * intros p. rewrite elem_of_union, elem_of_singleton, IHids. split.
        -- intros [->|(it & Hin & Hit)].
           ++ exists item. rewrite in_app_iff. simpl. auto.
           ++ exists it. rewrite in_app_iff. auto.
        -- intros (it & Hin & Hit). apply in_app_iff in Hin as [Hin|[<-|[]]].
           ++ right. eauto.
           ++ left. congruence.
    + split.
      * now rewrite andb_false_r.
      * intros p. rewrite IHids. split.
        -- intros (it & Hin & Hit). exists it. rewrite in_app_iff. auto.
        -- intros (it & Hin & Hit). apply in_app_iff in Hin as [Hin|[<-|[]]];
             [eauto|congruence].
Qed.

(** X17: [__get_project_id_list] always returns.  When every release of
    the batch carries a project id it makes no call, and returns the ids
    carried, in ascending order and each once, with the flag set; otherwise
    it returns, with the flag cleared, whatever one query for the projects
    of all the releases of the batch answers. *)
Theorem project_id_list_sorted_or_queried :
  forall item_list tr r,
    run (Release.__get_project_id_list item_list) tr r ->
    exists ids flag,
      r = Ok (ids, flag) /\
      if all_annotated item_list
      then tr = [] /\ flag = true /\ StronglySorted Z.lt ids /\
           forall p, In p ids <->
                     exists item, In item item_list /\ for_project_id item = Some p
      else flag = false /\
           tr = [Answer (QueryReleaseProjectIds (map id item_list)) ids].
Proof.
  intros item_list tr r H. unfold Release.__get_project_id_list in H.
  destruct (annotations_loop item_list) as [Hflag Hids].
  destruct (fold_left _ item_list _) as [project_ids need_fallback].
  simpl in Hflag, Hids. subst need_fallback.
  destruct (all_annotated item_list); simpl in H.
  - destruct H as [-> ->]. eexists _, _. split; [reflexivity|].
    split; [reflexivity|]. split; [reflexivity|]. split.
    + apply strictly_sorted.
      * apply StronglySorted_merge_sort; apply _.
      * rewrite merge_sort_Permutation. apply NoDup_elements.
    + intros p. rewrite <- Hids, <- list_elem_of_In, merge_sort_Permutation.
      apply elem_of_elements.
  - destruct H as (ids & t & -> & -> & ->). eexists _, _. split; [reflexivity|].
    split; reflexivity.
Qed.

(** ** What [serialize] shows *)

(** Splits and uses the next subscripts of a dictionary. *)
Ltac split_lookup H :=
  match type of H with
  | context [dict_lookup ?k ?d] =>
      let E := fresh "E" in
      destruct (dict_lookup k d) eqn:E; cbn [rbind] in H; try discriminate H
  end.

Ltac found :=
  repeat match goal with
         | E : dict_lookup ?k ?d = _ |- context [dict_lookup ?k ?d] => rewrite E
         end.

Lemma version_info_returned info vi :
  Release.expose_version_info info = Ok vi ->
  well_formed_version_info info = true /\
  (info = VNone /\ vi = VNone \/
   exists raw parsed package description build_hash version,
     getitem info "version_raw" = Ok raw /\
     getitem info "version_parsed" = Ok parsed /\
     getitem info "package" = Ok package /\
     getitem info "description" = Ok description /\
     getitem info "build_hash" = Ok build_hash /\
     vi = VDict [("package", package); ("version", VDict version);
                 ("description", description); ("buildHash", build_hash)] /\
     if truthy parsed
     then exists major minor patch pre build_code components,
            getitem parsed "major" = Ok major /\
            getitem parsed "minor" = Ok minor /\
            getitem parsed "patch" = Ok patch /\
            getitem parsed "pre" = Ok pre /\
            getitem parsed "build_code" = Ok build_code /\
            getitem parsed "components" = Ok components /\
            version = [("raw", raw); ("major", major); ("minor", minor);
                       ("patch", patch); ("pre", pre);
                       ("buildCode", build_code);
                       ("components", components)]
     else version = [("raw", raw)]).
Proof.
  intros H. unfold Release.expose_version_info in H.
  destruct info as [| | | | | |d]; try discriminate H.
  { injection H as <-. auto. }
  unfold getitem in H at 1 2.
  split_lookup H. split_lookup H.
  destruct (truthy v0) eqn:Ht.
  - destruct v0 as [| | | | | |parsed]; try discriminate H.
    unfold getitem in H.
    repeat split_lookup H.
    injection H as <-. split.
    + unfold well_formed_version_info. cbn -[truthy]. found. cbn -[truthy].
      rewrite Ht. cbn -[truthy]. now found.
    + right. cbn -[truthy]. found.
      eexists _, _, _, _, _, _. repeat (split; [reflexivity|]).
      rewrite Ht. unfold getitem. found.
      eexists _, _, _, _, _, _. repeat (split; [reflexivity|]). reflexivity.
  - cbn [rbind] in H. unfold getitem in H. repeat split_lookup H.
    injection H as <-. split.
    + unfold well_formed_version_info. cbn -[truthy]. found. cbn -[truthy].
      rewrite Ht. now found.
    + right. cbn -[truthy]. found.
      eexists _, _, _, _, _, _. repeat (split; [reflexivity|]).
      rewrite Ht. reflexivity.
Qed.

Lemma version_info_raised info e :
  Release.expose_version_info info = Err e ->
  match e with
  | KeyError k =>
      In k ["version_raw"; "version_parsed"; "package"; "description";
            "build_hash"; "major"; "minor"; "patch"; "pre"; "build_code";
            "components"]
  | TypeError _ => True
  | AttributeError _ => False
  end.
Proof.
  intros H. unfold Release.expose_version_info in H.
  destruct info as [| | | | | |d]; try discriminate H;
    try (injection H as <-; exact I).
  unfold getitem in H at 1 2.
  split_lookup H; [|injection H as <-; simpl; tauto].
  split_lookup H; [|injection H as <-; simpl; tauto].
  destruct (truthy v0) eqn:Ht.
  - destruct v0 as [| | | | | |parsed];
      try (cbn [getitem rbind] in H; injection H as <-; exact I).
    unfold getitem in H.
    repeat (split_lookup H; try (injection H as <-; simpl; tauto)).
  - cbn [rbind] in H. unfold getitem in H.
    repeat (split_lookup H; try (injection H as <-; simpl; tauto)).
Qed.

(** X18: [expose_version_info] returns exactly for [None] and for a
    dictionary with the five keys it subscripts whose ["version_parsed"] is
    falsy or has the six keys read from it; otherwise it raises a
    [KeyError] for one of those keys or a [TypeError].  What it returns for
    a dictionary has the keys package, version, description and buildHash,
    and the version has the raw version alone, or followed by major, minor,
    patch, pre, buildCode and components of the parsed one. *)
Theorem expose_version_info_outcome :
  forall info,
    match Release.expose_version_info info with
    | Ok vi =>
        well_formed_version_info info = true /\
        (info = VNone /\ vi = VNone \/
         exists raw parsed package description build_hash version,
           getitem info "version_raw" = Ok raw /\
           getitem info "version_parsed" = Ok parsed /\
           getitem info "package" = Ok package /\
           getitem info "description" = Ok description /\
           getitem info "build_hash" = Ok build_hash /\
           vi = VDict [("package", package); ("version", VDict version);
                       ("description", description); ("buildHash", build_hash)] /\
           if truthy parsed
           then exists major minor patch pre build_code components,
                  getitem parsed "major" = Ok major /\
                  getitem parsed "minor" = Ok minor /\
                  getitem parsed "patch" = Ok patch /\
                  getitem parsed "pre" = Ok pre /\
                  getitem parsed "build_code" = Ok build_code /\
                  getitem parsed "components" = Ok components /\
                  version = [("raw", raw); ("major", major); ("minor", minor);
                             ("patch", patch); ("pre", pre);
                             ("buildCode", build_code);
                             ("components", components)]
           else version = [("raw", raw)])
    | Err e =>
        well_formed_version_info info = false /\
        match e with
        | KeyError k =>
            In k ["version_raw"; "version_parsed"; "package"; "description";
                  "build_hash"; "major"; "minor"; "patch"; "pre"; "build_code";
                  "components"]
        | TypeError _ => True
        | AttributeError _ => False
        end
    end.
Proof.
  intros info.
  destruct (Release.expose_version_info info) as [vi|e] eqn:H.
  - apply version_info_returned, H.
  - split; [|apply (version_info_raised info), H].
    destruct (well_formed_version_info info) eqn:Hwf; [|reflexivity].
    destruct (expose_version_info_total (fun v => v) _ Hwf) as [vi Hvi].
    congruence.
Qed.

Lemma expose_health_data_outcome data :
  match Release.expose_health_data data with
  | Ok x => well_formed_health_data data = true /\ (x = VNone <-> truthy data = false)
  | Err e => well_formed_health_data data = false /\ is_attribute_error e = false
  end.
Proof.
  destruct (Release.expose_health_data data) as [x|e] eqn:H.
  - unfold Release.expose_health_data in H.
    unfold well_formed_health_data.
    destruct (truthy data) eqn:Ht; cbn [negb orb] in *.
    + destruct data as [| | | | | |d]; try discriminate H.
      unfold getitem, get_method in H. repeat split_lookup H.
      injection H as <-. split; [|split; discriminate].
      unfold has_keys. cbn -[truthy]. now found.
    + injection H as <-. tauto.
  - split.
    + destruct (well_formed_health_data data) eqn:Hwf; [|reflexivity].
      destruct (expose_health_data_total (fun v => v) _ Hwf) as [x Hx]. congruence.
    + unfold Release.expose_health_data in H.
      destruct (truthy data); cbn [negb] in H; [|discriminate H].
      destruct data as [| | | | | |d];
        try (cbn [getitem rbind] in H; injection H as <-; reflexivity).
      unfold getitem, get_method in H.
      repeat (split_lookup H; try (injection H as <-; reflexivity)).
Qed.

Lemma expose_project_outcome project :
  match Release.expose_project project with
  | Ok q => well_formed_project project = true /\ exposed project q
  | Err e => well_formed_project project = false /\ is_attribute_error e = false
  end.
Proof.
  destruct (Release.expose_project project) as [q|e] eqn:H.
  - unfold Release.expose_project in H.
    destruct project as [| | | | | |d]; try discriminate H.
    unfold getitem in H.
    do 7 split_lookup H.
    destruct (dict_lookup "health_data" d) as [data|] eqn:Hdata.
    + pose proof (expose_health_data_outcome data) as Hhd.
      destruct (Release.expose_health_data data) as [hd|]; [|discriminate H].
      cbn [rbind] in H. injection H as <-. destruct Hhd as [Hwf Hnone]. split.
      * unfold well_formed_project, has_keys. cbn -[well_formed_health_data].
        rewrite Hdata. found. exact Hwf.
      * eexists d, _. split; [reflexivity|]. split; [reflexivity|].
        found. repeat (split; [reflexivity|]).
        exists hd. repeat (split; [reflexivity || exact Hnone|]). reflexivity.
    + injection H as <-. split.
      * unfold well_formed_project, has_keys. cbn. rewrite Hdata. now found.
      * eexists d, _. split; [reflexivity|]. split; [reflexivity|].
        found. repeat (split; [reflexivity|]). reflexivity.
  - split.
    + destruct (well_formed_project project) eqn:Hwf; [|reflexivity].
      destruct (expose_project_total (fun v => v) _ Hwf) as [x Hx]. congruence.
    + unfold Release.expose_project in H.
      destruct project as [| | | | | |d];
        try (cbn [getitem rbind] in H; injection H as <-; reflexivity).
      unfold getitem in H.
      do 7 (split_lookup H; [|injection H as <-; reflexivity]).
      destruct (dict_lookup "health_data" d) as [data|]; [|discriminate H].
      pose proof (expose_health_data_outcome data) as Hhd.
      destruct (Release.expose_health_data data) as [hd|e']; [discriminate H|].
      injection H as <-. apply Hhd.
Qed.

Lemma rmap_Forall2 {A B} (f : A -> result B) l ys :
  rmap f l = Ok ys -> Forall2 (fun x y => f x = Ok y) l ys.
Proof.
  revert ys. induction l as [|x l IH]; simpl; intros ys H.
  - injection H as <-. constructor.
  - destruct (f x) as [y|] eqn:Hy; [|discriminate H]. cbn [rbind] in H.
    destruct (rmap f l) as [ys'|]; [|discriminate H]. injection H as <-.
    constructor; auto.
Qed.

Lemma rmap_raises {A B} (f : A -> result B) l e :
  rmap f l = Err e -> exists x, In x l /\ f x = Err e.
Proof.
  induction l as [|x l IH]; simpl; intros H; [discriminate H|].
  destruct (f x) as [y|e'] eqn:Hy.
  - cbn [rbind] in H. destruct (rmap f l) as [ys'|e'']; [discriminate H|].
    injection H as <-. destruct (IH eq_refl) as (x' & ? & ?). eauto.
  - injection H as <-. eauto.
Qed.

Lemma rmap_exposed attr_projects projects :
  rmap Release.expose_project attr_projects = Ok projects ->
  Forall2 exposed attr_projects projects.
Proof.
  intros H. apply rmap_Forall2 in H.
  induction H as [|p q ps qs Hpq _ IH]; constructor; [|exact IH].
  pose proof (expose_project_outcome p) as Hp. rewrite Hpq in Hp. apply Hp.
Qed.

Section Exposure.

Variable ReleaseStatus_to_string : value -> value.

(** X19: the ["projects"] of what [serialize] returns show the projects of
    the attributes one by one and in their order: each with its seven
    fields under the camel-case names, and with a ["healthData"] exactly
    when the project has a ["health_data"].  Without ["projects"] in the
    attributes the list is empty, and so it is for the only dictionary and
    the only string that [serialize] accepts in that place, the empty
    ones. *)
Theorem serialize_projects :
  forall obj attrs user d,
    Release.serialize ReleaseStatus_to_string obj attrs user = Ok d ->
    exists projects,
      dict_lookup "projects" d = Some (VList projects) /\
      match dict_lookup "projects" attrs with
      | None => projects = []
      | Some (VList attr_projects) => Forall2 exposed attr_projects projects
      | Some (VDict attr_projects) => attr_projects = [] /\ projects = []
      | Some (VStr attr_projects) => attr_projects = "" /\ projects = []
      | Some _ => False
      end.
Proof.
  intros obj attrs user d H. unfold Release.serialize in H.
  destruct (Release.expose_version_info (version_info obj)) as [vi|];
    [|discriminate H].
  cbn [rbind] in H. unfold getitem in H. do 2 split_lookup H.
  destruct (iterate _) as [attr_projects|] eqn:Hiter; [|discriminate H].
  cbn [rbind] in H.
  destruct (rmap Release.expose_project attr_projects) as [projects|] eqn:Hmap;
    [|discriminate H].
  injection H as <-. exists projects. split; [reflexivity|].
  unfold dict_get in Hiter.
  destruct (dict_lookup "projects" attrs) as [[| | |s| |l|pd]|];
    try discriminate Hiter; injection Hiter as <-.
  - destruct s as [|c s]; [injection Hmap as <-; auto|discriminate Hmap].
  - now apply rmap_exposed.
  - destruct pd as [|kv pd]; [injection Hmap as <-; auto|discriminate Hmap].
  - now injection Hmap as <-.
Qed.

(** X20: [serialize] returns exactly when the version info of the release
    is [None] or complete and the attributes have ["new_groups"], ["owner"]
    and complete projects, and what it raises otherwise is never an
    [AttributeError].  What it returns has the nineteen keys of the API in
    their order; the owner is that of the attributes, and the last commit,
    last deploy, authors and first and last event are those of the
    attributes where present, and [None] (no authors) where absent. *)
Theorem serialize_outcome :
  forall obj attrs user,
    match Release.serialize ReleaseStatus_to_string obj attrs user with
    | Ok d =>
        well_formed_version_info (version_info obj) && well_formed_attrs attrs = true /\
        map fst d = ["version"; "status"; "shortVersion"; "versionInfo"; "ref"; "url";
                     "dateReleased"; "dateCreated"; "data"; "newGroups"; "owner";
                     "commitCount"; "lastCommit"; "deployCount"; "lastDeploy";
                     "authors"; "projects"; "firstEvent"; "lastEvent"] /\
        dict_lookup "status" d = Some (ReleaseStatus_to_string (status obj)) /\
        dict_lookup "data" d = Some (data obj) /\
        dict_lookup "owner" d = dict_lookup "owner" attrs /\
        dict_lookup "lastCommit" d = Some (dict_get "last_commit" VNone attrs) /\
        dict_lookup "lastDeploy" d = Some (dict_get "last_deploy" VNone attrs) /\
        dict_lookup "authors" d = Some (dict_get "authors" (VList []) attrs) /\
        dict_lookup "firstEvent" d = Some (dict_get "first_seen" VNone attrs) /\
        dict_lookup "lastEvent" d = Some (dict_get "last_seen" VNone attrs)
    | Err e =>
        well_formed_version_info (version_info obj) && well_formed_attrs attrs = false /\
        is_attribute_error e = false
    end.
Proof.
  intros obj attrs user.
  destruct (Release.serialize ReleaseStatus_to_string obj attrs user) as [d|e] eqn:H.
  - unfold Release.serialize in H.
    destruct (Release.expose_version_info (version_info obj)) as [vi|] eqn:Hvi;
      [|discriminate H].
    apply version_info_returned in Hvi as [Hvi _].
    cbn [rbind] in H. unfold getitem in H.
    do 2 split_lookup H.
    destruct (iterate _) as [attr_projects|] eqn:Hiter; [|discriminate H].
    cbn [rbind] in H.
    destruct (rmap Release.expose_project attr_projects) as [projects|] eqn:Hmap;
      [|discriminate H].
    injection H as <-. split.
    + rewrite Hvi. unfold well_formed_attrs. found. rewrite Hiter. cbn.
      apply rmap_Forall2 in Hmap. clear Hiter.
      induction Hmap as [|p q ps qs Hpq _ IH]; [reflexivity|]. simpl.
      pose proof (expose_project_outcome p) as Hp. rewrite Hpq in Hp.
      destruct Hp as [-> _]. exact IH.
    + cbn. found. repeat (split; [reflexivity|]). reflexivity.
  - split.
    + destruct (well_formed_version_info (version_info obj)) eqn:Hvi; [|reflexivity].
      destruct (well_formed_attrs attrs) eqn:Hattrs; [|reflexivity].
      destruct (serialize_returns ReleaseStatus_to_string obj attrs user Hvi Hattrs)
        as [d Hd].
      congruence.
    + unfold Release.serialize in H.
      destruct (Release.expose_version_info (version_info obj)) as [vi|e'] eqn:Hvi.
      2:{ injection H as <-. apply version_info_raised in Hvi. now destruct e'. }
      cbn [rbind] in H. unfold getitem in H.
      do 2 (split_lookup H; [|injection H as <-; reflexivity]).
      destruct (iterate _) as [attr_projects|e'] eqn:Hiter.
      2:{ injection H as <-. unfold iterate in Hiter.
          destruct (dict_get _ _ _); try discriminate Hiter;
            injection Hiter as <-; reflexivity. }
      cbn [rbind] in H.
      destruct (rmap Release.expose_project attr_projects) as [projects|e'] eqn:Hmap;
        [discriminate H|].
      injection H as <-. apply rmap_raises in Hmap as (p & _ & Hp).
      pose proof (expose_project_outcome p) as Hout. rewrite Hp in Hout.
      apply Hout.
Qed.

End Exposure.

Lemma serialize_projects_witness :
  exists d projects,
    Release.serialize Demo.status_name Demo.release_1 Further.project_attrs VNone
    = Ok d /\
    dict_lookup "projects" d = Some (VList projects) /\
    match dict_lookup "projects" Further.project_attrs with
    | None => projects = []
    | Some (VList attr_projects) => Forall2 exposed attr_projects projects
    | Some (VDict attr_projects) => attr_projects = [] /\ projects = []
    | Some (VStr attr_projects) => attr_projects = "" /\ projects = []
    | Some _ => False
    end.
Proof.
  destruct (Release.serialize Demo.status_name Demo.release_1 Further.project_attrs
              VNone) as [d|e] eqn:E; [|vm_compute in E; discriminate E].
  destruct (serialize_projects Demo.status_name Demo.release_1
              Further.project_attrs VNone d E) as [projects Hprojects].
  exists d, projects. split; [reflexivity|exact Hprojects].
Defined.

Lemma deploy_metadata_from_serializer_witness :
  let deploy_ids : gset Z :=
    list_to_set (omap (fun o => Release.truthy_id (last_deploy_id o))
                   Further.deployed_batch) in
  exists result deploy_list serialized,
    fst (fst Further.deploy_metadata_run) = Ok result /\
    snd Further.deploy_metadata_run
    = (if bool_decide (deploy_ids = ∅) then []
       else [Answer (QueryDeploy deploy_ids) deploy_list;
             Answer (Serialize deploy_list VNone) serialized]) /\
    dom result = list_to_set (map Demo.row_key Further.deployed_batch) /\
    forall k m, result !! k = Some m ->
      exists item v,
        In item Further.deployed_batch /\ Demo.row_key item = k /\
        m = [("last_deploy", v)] /\
        (v = VNone \/
         exists i n row,
           bool_decide (deploy_ids = ∅) = false /\
           last_deploy_id item = Some i /\
           deploy_list !! n = Some row /\ pk row = i /\
           serialized !! n = Some v).
Proof.
  exact (deploy_metadata_from_serializer Demo.row_key Further.deployed_batch VNone
           _ _ (interp_run _ _ _)).
Defined.

Lemma project_id_list_sorted_or_queried_witness :
  exists ids flag,
    fst (fst Further.project_ids_run) = Ok (ids, flag) /\
    if all_annotated Further.bare_batch
    then snd Further.project_ids_run = [] /\ flag = true /\
         StronglySorted Z.lt ids /\
         forall p, In p ids <->
                   exists item, In item Further.bare_batch /\
                                for_project_id item = Some p
    else flag = false /\
         snd Further.project_ids_run
         = [Answer (QueryReleaseProjectIds (map id Further.bare_batch)) ids].
Proof.
  exact (project_id_list_sorted_or_queried Further.bare_batch _ _ (interp_run _ _ _)).
Defined.
